(** * User-action detection of the browser RUM agent

    A shallow embedding of the request tracker ([requestCollection]) and of
    the user-action collection ([userActionCollection]) of the browser SDK,
    and the properties of its interaction detector, activity correlator and
    content extraction.

    The user-action collection comes in two versions: one whose
    [newUserAction] notifies every step of an interaction on an observable
    (lines 1-233 of its source) and one whose [newUserAction] resolves a
    promise (lines 234-398). Both are embedded, and a property is stated for
    each version it concerns.

    Each version is embedded at two scales. The modules [Interactions] and
    [InteractionsAsync] are the page: the module variable [userActionId]
    that all interactions share, one set of closure variables for each
    click, the timers of the host, and (lines 1-233) the subscribers of the
    reports, which may publish on the life cycle from inside a notification.
    The modules [UserActionCollection] and [UserActionCollectionAsync] are
    one interaction seen alone, each callback run to its end before the
    next: the page with a single click and no publication from inside a
    notification, as is shown below.

    Conventions of the model.
    - A JavaScript string is a [string]; every character stands for one
      UTF-16 code unit in the Latin-1 range, so [String.length] is [.length]
      and [substring 0 n] is [.slice(0, n)].
    - [performance.now()] readings and HTTP statuses are integers ([Z]).
    - [undefined]/[null] are [None].
    - The host's timer table is explicit: [setTimeout] allocates a handle,
      [clearTimeout] removes the entry with that handle, and the host runs a
      callback only while its entry is in the table.
    - A click, an event a producer publishes on the life cycle and a timer
      callback are tasks of the host: one runs to its end before the next
      starts. What a subscriber publishes while it is notified is handled
      inside the notification. *)

From Stdlib Require Import ZArith String Ascii List Bool Lia.
From stdpp Require Import base option list gmap strings.
Import ListNotations.

Local Open Scope string_scope.
Local Open Scope list_scope.

(** ** JavaScript string primitives used by the sources *)

Module Js.

(** [WhiteSpace] and [LineTerminator] code units below 256: TAB, LF, VT, FF,
    CR, SP and NBSP. *)
Definition isWhiteSpace (c : ascii) : bool :=
  let n := nat_of_ascii c in
  Nat.eqb n 9 || Nat.eqb n 10 || Nat.eqb n 11 || Nat.eqb n 12 ||
  Nat.eqb n 13 || Nat.eqb n 32 || Nat.eqb n 160.

Fixpoint trimStart (s : string) : string :=
  match s with
  | EmptyString => EmptyString
  | String c rest => if isWhiteSpace c then trimStart rest else s
  end.

Fixpoint trimEnd (s : string) : string :=
  match s with
  | EmptyString => EmptyString
  | String c rest =>
      match trimEnd rest with
      | EmptyString => if isWhiteSpace c then EmptyString else String c EmptyString
      | kept => String c kept
      end
  end.

(** [String.prototype.trim] *)
Definition trim (s : string) : string := trimEnd (trimStart s).

(** Truthiness of a string: only the empty string is falsy. *)
Definition truthy (s : string) : bool :=
  match s with
  | EmptyString => false
  | String _ _ => true
  end.

(** [s.slice(0, n)] for [0 <= n]. *)
Definition slice0 (n : nat) (s : string) : string := substring 0 n s.

(** [Map.prototype.delete]: whether the key was there, and the map without
    it. *)
Definition mapDelete {V : Type} (key : string) (m : gmap string V)
  : bool * gmap string V :=
  (bool_decide (is_Some (m !! key)), delete key m).

(** [Set.prototype.delete] *)
Definition setDelete (key : string) (s : gset string) : bool * gset string :=
  (bool_decide (key ∈ s), s ∖ {[ key ]}).

End Js.

(** ** Content of the clicked element (userActionCollection, lines 15-60) *)

(** The part of a DOM element the collection reads. [attributes] answers
    [getAttribute]; [parentElement] is [None] at the root. *)
#[warnings="-register-all"]
Inductive Element : Type := mkElement {
  tagName : string;
  textContent : option string;
  value : string;
  attributes : gmap string string;
  parentElement : option Element
}.

Definition getAttribute (element : Element) (name : string) : option string :=
  attributes element !! name.

Definition strLengthLimit (s : string) : string :=
  if Nat.ltb 400 (String.length s) then Js.slice0 400 s +:+ " [...]" else s.

(** What one element yields before the generator descends to its parent. *)
Definition inputValueCandidate (element : Element) : list (option string) :=
  if String.eqb (tagName element) "INPUT" then
    match getAttribute element "type" with
    | Some type =>
        if String.eqb type "button" || String.eqb type "submit"
        then [Some (value element)] else []
    | None => []
    end
  else [].

(** The generator [iterateContentCandidates], as the list of the values it
    yields, in order. *)
Fixpoint iterateContentCandidates (element : Element) : list (option string) :=
  match element with
  | mkElement _ text _ _ parent =>
      [text]
      ++ inputValueCandidate element
      ++ [getAttribute element "aria-label";
          getAttribute element "alt";
          getAttribute element "title";
          getAttribute element "placeholder"]
      ++ match parent with
         | Some parentElement => iterateContentCandidates parentElement
         | None => []
         end
  end.

(** The [while (true)] loop of [getElementContent] over the iterator. *)
Fixpoint getElementContent_loop (iterator : list (option string)) : option string :=
  match iterator with
  | [] => None
  | content :: iterator' =>
      match content with
      | Some content =>
          let trimedContent := Js.trim content in
          if Js.truthy trimedContent then Some (strLengthLimit trimedContent)
          else getElementContent_loop iterator'
      | None => getElementContent_loop iterator'
      end
  end.

Definition getElementContent (element : Element) : option string :=
  getElementContent_loop (iterateContentCandidates element).

(** *** The search as the specification words it *)

Module ContentSpec.

(** The candidates of one element, in the order the specification lists
    them. *)
Definition ownCandidates (element : Element) : list (option string) :=
  [textContent element]
  ++ (if String.eqb (tagName element) "INPUT"
      then match getAttribute element "type" with
           | Some "button" | Some "submit" => [Some (value element)]
           | _ => []
           end
      else [])
  ++ [getAttribute element "aria-label"; getAttribute element "alt";
      getAttribute element "title"; getAttribute element "placeholder"].

(** The element followed by each of its ancestors in turn. *)
Fixpoint selfAndAncestors (element : Element) : list Element :=
  match element with
  | mkElement _ _ _ _ parent =>
      element :: match parent with
                 | Some p => selfAndAncestors p
                 | None => []
                 end
  end.

Definition candidates (element : Element) : list (option string) :=
  concat (map ownCandidates (selfAndAncestors element)).

(** A candidate has content when it is a string whose trimmed value is not
    empty. *)
Definition nonBlank (candidate : option string) : bool :=
  match candidate with
  | Some s => Js.truthy (Js.trim s)
  | None => false
  end.

(** Plain iterative search: the first candidate with content wins. *)
Definition firstNonBlank (element : Element) : option string :=
  match List.find nonBlank (candidates element) with
  | Some (Some s) => Some (strLengthLimit (Js.trim s))
  | _ => None
  end.

End ContentSpec.

(** ** Request tracking (requestCollection) *)

Module RequestCollection.

Inductive RequestType := FETCH | XHR.

Inductive RequestEventKind := Start | End.

Record RequestDetails := mkRequestDetails {
  type : RequestType;
  method : string;
  url : string;
  status : option Z;
  response : option string;
  responseType : option string;
  startTime : Z;
  duration : Z;
  traceId : option Z
}.

Record RequestEvent := mkRequestEvent {
  kind : RequestEventKind;
  details : RequestDetails;
  requestId : string
}.

Definition isEnd (e : RequestEvent) : bool :=
  match kind e with
  | End => true
  | Start => false
  end.

(** [request.status === 0 && request.responseType !== 'opaque'] *)
Definition isRejected (request : RequestDetails) : bool :=
  match status request with
  | Some s => Z.eqb s 0
  | None => false
  end
  && negb (match responseType request with
           | Some t => String.eqb t "opaque"
           | None => false
           end).

(** [typeof request.status === 'number' && request.status >= 500] *)
Definition isServerError (request : RequestDetails) : bool :=
  match status request with
  | Some s => Z.leb 500 s
  | None => false
  end.

(** *** The wrapped [fetch] (trackFetch, lines 113-185) *)

Module Fetch.

(** The first argument of [fetch]: a URL string or a [Request] object. *)
Inductive RequestInfo :=
| InfoString (s : string)
| InfoRequest (requestUrl requestMethod : string).

Record RequestInit := { initMethod : option string }.

(** A [Response]; [bodyText] is the outcome of [response.clone().text()]:
    the text, or the value it throws or rejects with (as [String(e)]). *)
Record Response := {
  responseStatus : Z;
  responseKind : string;
  bodyText : string + string
}.

(** How the promise returned by the original [fetch] settles: it fulfils
    with a [Response] or rejects with an error (a value that has a [stack]
    or is an instance of [Error], as the parameter of [reportFetch] is
    typed). *)
Inductive Settlement (Err : Type) :=
| Fulfilled (response : Response)
| Rejected (error : Err).
Arguments Fulfilled {Err} response.
Arguments Rejected {Err} error.

(** A promise is known by its identity and by the way it settles. *)
Record Promise (Err : Type) := {
  promiseId : nat;
  settlement : Settlement Err
}.
Arguments promiseId {Err} p.
Arguments settlement {Err} p.

Section TrackFetch.

(** External collaborators: errors and their stack traces, URL
    normalisation, the probe of the tracing library. *)
Variables (Err StackTrace : Type).
Variable computeStackTrace : Err -> StackTrace.
Variable toStackTraceString : StackTrace -> string.
Variable normalizeUrl : string -> string.
Variable getTraceId : option Z.
Variable originalFetch : RequestInfo -> option RequestInit -> Promise Err.

(** [(init && init.method) || (typeof input === 'object' && input.method) || 'GET'] *)
Definition methodOf (input : RequestInfo) (init : option RequestInit) : string :=
  let fromInit :=
    match init with
    | Some i => match initMethod i with
                | Some m => if Js.truthy m then Some m else None
                | None => None
                end
    | None => None
    end in
  match fromInit with
  | Some m => m
  | None =>
      match input with
      | InfoRequest _ m => if Js.truthy m then m else "GET"
      | InfoString _ => "GET"
      end
  end.

(** [(typeof input === 'object' && input.url) || (input as string)] *)
Definition urlOf (input : RequestInfo) : string :=
  match input with
  | InfoRequest u _ => if Js.truthy u then u else "[object Request]"
  | InfoString s => s
  end.

(** The variables [reportFetch] closes over. *)
Record Call := {
  callMethod : string;
  callStartTime : Z;
  callUrl : string;
  callTraceId : option Z;
  callRequestId : string
}.

Definition startEvent (c : Call) : RequestEvent :=
  {| requestId := callRequestId c;
     details := {| method := callMethod c; startTime := callStartTime c;
                   traceId := callTraceId c; url := callUrl c;
                   duration := 0; type := FETCH;
                   status := None; response := None; responseType := None |};
     kind := Start |}.

(** [reportFetch]: the events it publishes when called at time [now]
    with the value the promise settled with. *)
Definition reportFetch (c : Call) (now : Z) (settled : Settlement Err)
  : list RequestEvent :=
  let duration := (now - callStartTime c)%Z in
  match settled with
  | Rejected error =>
      let stackTrace := computeStackTrace error in
      [ {| requestId := callRequestId c;
           details := {| duration := duration; method := callMethod c;
                         startTime := callStartTime c; traceId := callTraceId c;
                         url := callUrl c;
                         response := Some (toStackTraceString stackTrace);
                         status := Some 0%Z; type := FETCH;
                         responseType := None |};
           kind := End |} ]
  | Fulfilled response =>
      let text :=
        match bodyText response with
        | inl text => text
        | inr e => "Unable to retrieve response: " +:+ e
        end in
      [ {| requestId := callRequestId c;
           details := {| duration := duration; method := callMethod c;
                         startTime := callStartTime c; traceId := callTraceId c;
                         url := callUrl c;
                         response := Some text;
                         responseType := Some (responseKind response);
                         status := Some (responseStatus response);
                         type := FETCH |};
           kind := End |} ]
  end.

(** What one call of the wrapper does when nothing throws: [normalizeUrl]
    returns and the promise settles with a [Response] or an error. The
    paths on which [monitor] catches an exception are in [Monitor]. *)
Record Wrapped := {
  published : list RequestEvent;   (* [observable.notify] during the call *)
  returned : Promise Err;          (* the value handed to the caller *)
  onSettled : Z -> list RequestEvent
    (* the reaction registered with [then], run at the settlement time *)
}.

(** The function installed as [window.fetch], called at time [now] with a
    fresh [requestId]. *)
Definition fetch (now : Z) (requestId : string)
    (input : RequestInfo) (init : option RequestInit) : Wrapped :=
  let method := methodOf input init in
  let startTime := now in
  let url := normalizeUrl (urlOf input) in
  let traceId := getTraceId in
  let c := {| callMethod := method; callStartTime := startTime; callUrl := url;
              callTraceId := traceId; callRequestId := requestId |} in
  let responsePromise := originalFetch input init in
  {| published := [startEvent c];
     returned := responsePromise;
     onSettled := fun settledAt => reportFetch c settledAt (settlement responsePromise) |}.

(** Everything published for one call that settles at [settledAt]. *)
Definition eventsOf (w : Wrapped) (settledAt : Z) : list RequestEvent :=
  published w ++ onSettled w settledAt.

End TrackFetch.

End Fetch.

End RequestCollection.

(** ** The host's timers *)

Module Host.

Section Timers.
Context {C : Type}.

(** A pending timer: its handle, the time it is due, and its callback. *)
Record Timer := { handle : nat; due : Z; callback : C }.

(** The timer table, in the order the timers were armed. *)
Record Timers := { table : list Timer; nextHandle : nat }.

Definition setTimeout (cb : C) (delay now : Z) (h : Timers) : nat * Timers :=
  (nextHandle h,
   {| table := table h ++ [ {| handle := nextHandle h; due := (now + delay)%Z;
                               callback := cb |} ];
      nextHandle := S (nextHandle h) |}).

(** [clearTimeout(undefined)] does nothing. *)
Definition clearTimeout (id : option nat) (h : Timers) : Timers :=
  match id with
  | None => h
  | Some i =>
      {| table := List.filter (fun t => negb (Nat.eqb (handle t) i)) (table h);
         nextHandle := nextHandle h |}
  end.

(** A table with no pending timer, whose next handle is [n]. *)
Definition fresh (n : nat) : Timers := {| table := []; nextHandle := n |}.

Definition pending (i : nat) (h : Timers) : option Timer :=
  List.find (fun t => Nat.eqb (handle t) i) (table h).

(** The timer the host runs next when the clock has reached it: the one
    due first, the one armed first among equals. *)
Fixpoint earliest (l : list Timer) : option Timer :=
  match l with
  | [] => None
  | t :: rest =>
      match earliest rest with
      | Some u => if Z.ltb (due u) (due t) then Some u else Some t
      | None => Some t
      end
  end.

End Timers.

Arguments Timer C : clear implicits.
Arguments Timers C : clear implicits.
Arguments fresh {C} n.

End Host.

(** ** Life-cycle events the correlator listens to *)

Module LifeCycle.

(** The fields of a performance-timeline entry the correlator reads;
    [initiatorType] is [None] when the entry has no such property. *)
Record PerformanceEntry := {
  entryType : string;
  name : string;
  initiatorType : option string
}.

(** Modelled from the spec: the life-cycle bus (lifeCycle.ts) and the
    Observable class are not among the sources. [subscribe] hands back a
    subscription; the bus calls the handler for every event published while
    the subscription is active, and never after its [unsubscribe]. The three
    subscriptions of [trackPageChanges] are made together and stopped
    together by [stop()]. *)
Inductive Subscription := Active | Unsubscribed.

Inductive LifeCycleEvent :=
| DOM_MUTATED
| PERFORMANCE_ENTRY_COLLECTED (entry : PerformanceEntry)
| REQUEST_COLLECTED (requestEvent : RequestCollection.RequestEvent).

End LifeCycle.

(** ** userActionCollection, the version that reports every life-cycle step
    (lines 1-233): one interaction seen alone

    The state below is what one interaction reads and writes when no other
    interaction is open and no subscriber publishes on the life cycle from
    inside a notification; [userActionId] is then written by this
    interaction only. The page with all its interactions is [Interactions]. *)

Module UserActionCollection.

Import LifeCycle.

Definition IDLE_DELAY : Z := 100.
Definition BUSY_DELAY : Z := 100.

Inductive UserActionLifecycleEvent :=
| UserActionEnded (id : string) (time : Z)
| UserActionAborted (id : string) (time : Z)
| UserActionExtended (id : string) (time : Z) (reason : string)
    (details : option (list string)).

Record ChangeEvent := {
  isBusy : bool;
  type : string;
  details : option (list string)
}.

(** *** trackPageChanges (lines 126-170) *)

(** [notifyChange]: the notification built from the pending requests at the
    moment of the call. *)
Definition notifyChange (pendingRequests : gmap string RequestCollection.RequestDetails)
    (type : string) (details : option (list string)) : ChangeEvent :=
  {| type := type; details := details;
     isBusy := Nat.ltb 0 (size pendingRequests) |}.

(** The handler of [PERFORMANCE_ENTRY_COLLECTED]. *)
Definition onPerformanceEntry
    (pendingRequests : gmap string RequestCollection.RequestDetails)
    (entry : PerformanceEntry) : list ChangeEvent :=
  if negb (String.eqb (entryType entry) "resource") then []
  else
    let details : list string :=
      (match initiatorType entry with
       | Some i => ["initiatorType: " +:+ i]
       | None => []
       end
       ++ (if Js.truthy (name entry) then ["name: " +:+ name entry] else []))%list in
    [notifyChange pendingRequests "performance_entry_collected" (Some details)].

(** The handler of [REQUEST_COLLECTED]. *)
Definition onRequest
    (pendingRequests : gmap string RequestCollection.RequestDetails)
    (requestEvent : RequestCollection.RequestEvent)
  : gmap string RequestCollection.RequestDetails * list ChangeEvent :=
  let url := RequestCollection.url (RequestCollection.details requestEvent) in
  match RequestCollection.kind requestEvent with
  | RequestCollection.Start =>
      let pendingRequests' :=
        <[RequestCollection.requestId requestEvent :=
            RequestCollection.details requestEvent]> pendingRequests in
      (pendingRequests', [notifyChange pendingRequests' "request_start" (Some ["Url: " +:+ url])])
  | RequestCollection.End =>
      let '(existed, pendingRequests') :=
        Js.mapDelete (RequestCollection.requestId requestEvent) pendingRequests in
      if existed
      then (pendingRequests', [notifyChange pendingRequests' "request_end" (Some ["Url: " +:+ url])])
      else (pendingRequests', [])
  end.

(** What the three subscriptions do with one life-cycle event: the new
    pending requests and the notifications on the correlator's channel. *)
Definition trackPageChanges_handle
    (pendingRequests : gmap string RequestCollection.RequestDetails)
    (event : LifeCycleEvent)
  : gmap string RequestCollection.RequestDetails * list ChangeEvent :=
  match event with
  | DOM_MUTATED => (pendingRequests, [notifyChange pendingRequests "dom_mutated" None])
  | PERFORMANCE_ENTRY_COLLECTED entry =>
      (pendingRequests, onPerformanceEntry pendingRequests entry)
  | REQUEST_COLLECTED requestEvent => onRequest pendingRequests requestEvent
  end.

(** *** newUserAction (lines 90-119) *)

(** The two timer callbacks; the idle callback closes over [time]. *)
Inductive Callback :=
| ValidationTimeout
| IdleTimeout (time : Z).

(** The variables of one [newUserAction] call (with those of the
    [trackPageChanges] it starts), the module variable [userActionId], the
    host's timer table, and the journal of what was notified on [result]
    (with the clock at the notification). *)
Record State := {
  id : string;
  validationTimeoutId : nat;
  idleTimeoutId : option nat;
  pendingRequests : gmap string RequestCollection.RequestDetails;
  subscriptions : Subscription;
  timers : Host.Timers Callback;
  userActionId : option string;
  journal : list (Z * UserActionLifecycleEvent)
}.

Definition notify (now : Z) (event : UserActionLifecycleEvent) (s : State) : State :=
  {| id := id s; validationTimeoutId := validationTimeoutId s;
     idleTimeoutId := idleTimeoutId s; pendingRequests := pendingRequests s;
     subscriptions := subscriptions s; timers := timers s;
     userActionId := userActionId s;
     journal := journal s ++ [(now, event)] |}.

Definition stop (s : State) : State :=
  {| id := id s; validationTimeoutId := validationTimeoutId s;
     idleTimeoutId := idleTimeoutId s; pendingRequests := pendingRequests s;
     subscriptions := Unsubscribed; timers := timers s;
     userActionId := userActionId s; journal := journal s |}.

Definition setUserActionId (v : option string) (s : State) : State :=
  {| id := id s; validationTimeoutId := validationTimeoutId s;
     idleTimeoutId := idleTimeoutId s; pendingRequests := pendingRequests s;
     subscriptions := subscriptions s; timers := timers s;
     userActionId := v; journal := journal s |}.

Definition setTimers (t : Host.Timers Callback) (s : State) : State :=
  {| id := id s; validationTimeoutId := validationTimeoutId s;
     idleTimeoutId := idleTimeoutId s; pendingRequests := pendingRequests s;
     subscriptions := subscriptions s; timers := t;
     userActionId := userActionId s; journal := journal s |}.

Definition setIdleTimeoutId (h : option nat) (s : State) : State :=
  {| id := id s; validationTimeoutId := validationTimeoutId s;
     idleTimeoutId := h; pendingRequests := pendingRequests s;
     subscriptions := subscriptions s; timers := timers s;
     userActionId := userActionId s; journal := journal s |}.

Definition setPendingRequests
    (p : gmap string RequestCollection.RequestDetails) (s : State) : State :=
  {| id := id s; validationTimeoutId := validationTimeoutId s;
     idleTimeoutId := idleTimeoutId s; pendingRequests := p;
     subscriptions := subscriptions s; timers := timers s;
     userActionId := userActionId s; journal := journal s |}.

Definition clearTimeout (h : option nat) (s : State) : State :=
  setTimers (Host.clearTimeout h (timers s)) s.

(** The body of [newUserAction], called at time [now] with the identifier
    [generateUUID()] returns, in a host whose timer table is [host] and
    where [userActionId] is whatever an earlier interaction left. *)
Definition newUserAction (now : Z) (uuid : string)
    (host : Host.Timers Callback) (current : option string) : State :=
  let '(validation, host') := Host.setTimeout ValidationTimeout BUSY_DELAY now host in
  {| id := uuid; validationTimeoutId := validation; idleTimeoutId := None;
     pendingRequests := ∅; subscriptions := Active; timers := host';
     userActionId := Some uuid; journal := [] |}.

(** The subscriber of [changesObservable] (lines 105-117), run at [now],
    when nothing is published from inside the notification. *)
Definition onChange (now : Z) (change : ChangeEvent) (s : State) : State :=
  let s := clearTimeout (Some (validationTimeoutId s)) s in
  let s := clearTimeout (idleTimeoutId s) s in
  let time := now in
  let s := notify now (UserActionExtended (id s) time (type change) (details change)) s in
  if negb (isBusy change) then
    let '(h, t) := Host.setTimeout (IdleTimeout time) IDLE_DELAY now (timers s) in
    setIdleTimeoutId (Some h) (setTimers t s)
  else s.

(** The callback of the validation timer (lines 98-101), run at [now],
    when nothing is published from inside the notification. *)
Definition onValidationTimeout (now : Z) (s : State) : State :=
  stop (notify now (UserActionAborted (id s) now) s).

(** The callback of the idle timer (lines 111-115), run at [now]; [time] is
    the value it closed over. *)
Definition onIdleTimeout (now time : Z) (s : State) : State :=
  setUserActionId None (notify now (UserActionEnded (id s) time) (stop s)).

(** [lifeCycle.notify(event)] at time [now]. *)
Definition deliver (now : Z) (event : LifeCycleEvent) (s : State) : State :=
  match subscriptions s with
  | Active =>
      let '(p, changes) := trackPageChanges_handle (pendingRequests s) event in
      fold_left (fun s change => onChange now change s) changes (setPendingRequests p s)
  | Unsubscribed => s
  end.

(** The host runs the callback of timer [h] at time [now], if it is still
    in the table. *)
Definition expire (now : Z) (h : nat) (s : State) : State :=
  match Host.pending h (timers s) with
  | Some t =>
      let s := clearTimeout (Some h) s in
      match Host.callback t with
      | ValidationTimeout => onValidationTimeout now s
      | IdleTimeout time => onIdleTimeout now time s
      end
  | None => s
  end.

(** What the environment can do to an interaction. *)
Inductive Input :=
| Notify (now : Z) (event : LifeCycleEvent)
| Expire (now : Z) (handle : nat).

Definition step (s : State) (i : Input) : State :=
  match i with
  | Notify now event => deliver now event s
  | Expire now h => expire now h s
  end.

Definition run (s : State) (inputs : list Input) : State := fold_left step inputs s.

(** *** A punctual host

    Timers run exactly when they are due; a timer due at the instant of a
    life-cycle event runs before it. *)

(** Run every timer due at or before [until]; [fuel] bounds the number of
    timers run (no callback of this module arms a timer). *)
Fixpoint advance (fuel : nat) (until : Z) (s : State) : State :=
  match fuel with
  | O => s
  | S fuel' =>
      match Host.earliest (Host.table (timers s)) with
      | Some t =>
          if Z.leb (Host.due t) until
          then advance fuel' until (expire (Host.due t) (Host.handle t) s)
          else s
      | None => s
      end
  end.

Definition settle (until : Z) (s : State) : State :=
  advance (length (Host.table (timers s))) until s.

(** Deliver the timed events in order, then let the clock reach [until]. *)
Fixpoint play (events : list (Z * LifeCycleEvent)) (until : Z) (s : State) : State :=
  match events with
  | [] => settle until s
  | (now, event) :: rest => play rest until (deliver now event (settle now s))
  end.

(** [getUserActionId()], while this interaction is the only one. *)
Definition getUserActionId (s : State) : option string := userActionId s.

(** *** Reading the journal *)

Definition isTerminal (e : UserActionLifecycleEvent) : bool :=
  match e with
  | UserActionExtended _ _ _ _ => false
  | UserActionEnded _ _ | UserActionAborted _ _ => true
  end.

Definition eventId (e : UserActionLifecycleEvent) : string :=
  match e with
  | UserActionExtended i _ _ _ | UserActionEnded i _ | UserActionAborted i _ => i
  end.

(** No event follows a terminal one. *)
Fixpoint terminalIsLast (events : list UserActionLifecycleEvent) : bool :=
  match events with
  | [] => true
  | e :: rest =>
      if isTerminal e then match rest with [] => true | _ :: _ => false end
      else terminalIsLast rest
  end.

(** The [time] of the last [Extended] event, that is the clock at the last
    activity signal. *)
Definition lastActivityTime (events : list UserActionLifecycleEvent) : option Z :=
  fold_left (fun acc e => match e with
                          | UserActionExtended _ time _ _ => Some time
                          | _ => acc
                          end) events None.

(** The events notified on [result], oldest first. *)
Definition events (s : State) : list UserActionLifecycleEvent := map snd (journal s).

(** *** startUserActionCollection (lines 178-233) *)

Module Report.

Record Context := {
  content : option string;
  element : option string;
  details : option (list string);
  reason : option string
}.

(** The payload of [USER_ACTION_COLLECTED]; a field the object literal does
    not have is [None]. *)
Record UserAction := {
  startTime : Z;
  context : Context;
  duration : option Z;
  name : string;
  userActionId : option string;
  id : option string
}.

End Report.

Section Click.

(** [getElementAsString] serialises a clone of the element; the DOM does
    it. *)
Variable getElementAsString : Element -> string.

(** The subscriber of the click handler (lines 190-229). *)
Definition report (startTime : Z) (content element : option string)
    (lifeCycleEvent : UserActionLifecycleEvent) : Report.UserAction :=
  match lifeCycleEvent with
  | UserActionAborted i _ =>
      {| Report.startTime := startTime;
         Report.context := {| Report.content := content; Report.element := element;
                              Report.details := None; Report.reason := None |};
         Report.name := "click ignored";
         Report.userActionId := Some i;
         Report.duration := None; Report.id := None |}
  | UserActionExtended i time reason details =>
      {| Report.context := {| Report.details := details; Report.reason := Some reason;
                              Report.content := None; Report.element := None |};
         Report.duration := Some 0%Z;
         Report.name := "click extended";
         Report.startTime := time;
         Report.userActionId := Some i;
         Report.id := None |}
  | UserActionEnded i time =>
      {| Report.startTime := startTime;
         Report.context := {| Report.content := content; Report.element := element;
                              Report.details := None; Report.reason := None |};
         Report.duration := Some (time - startTime)%Z;
         Report.id := Some i;
         Report.name := "click";
         Report.userActionId := None |}
  end.

(** One click: what the handler computed, and the interaction it started. *)
Record Click := {
  clickStartTime : Z;
  clickContent : option string;
  clickElement : option string;
  action : State
}.

(** The click handler, run at [now] on [target] ([None] when the target is
    not an element). *)
Definition onClick (now : Z) (target : option Element) (uuid : string)
    (host : Host.Timers Callback) (current : option string) : Click :=
  let element :=
    match target with
    | Some t => let e := getElementAsString t in
                if Js.truthy e then Some e else None
    | None => None
    end in
  let content :=
    match target with
    | Some t => getElementContent t
    | None => None
    end in
  {| clickStartTime := now; clickContent := content; clickElement := element;
     action := newUserAction now uuid host current |}.

(** The [USER_ACTION_COLLECTED] notifications of a click whose interaction
    has reached state [s], each with the time it was published. *)
Definition collected (c : Click) (s : State) : list (Z * Report.UserAction) :=
  map (fun '(at_, e) => (at_, report (clickStartTime c) (clickContent c) (clickElement c) e))
      (journal s).

End Click.

End UserActionCollection.

(** *** The phases of an interaction (lines 1-233) *)

Module Detector.

Import LifeCycle UserActionCollection.

(** Every entry of [j] is an [Extended] event of interaction [uuid]. *)
Definition allExtended (uuid : string) (j : list (Z * UserActionLifecycleEvent)) : Prop :=
  Forall (fun e => isTerminal (snd e) = false /\ eventId (snd e) = uuid) j.

(** Where an interaction is: waiting for its first activity signal, open
    (with no timer while requests are pending, or with the idle timer that
    closed over the time of the last signal), aborted, or ended. *)
Inductive Phase (uuid : string) (s : State) : Prop :=
| Validating (d : Z) :
    subscriptions s = Active -> idleTimeoutId s = None -> journal s = [] ->
    Host.table (timers s)
    = [ {| Host.handle := validationTimeoutId s; Host.due := d;
           Host.callback := ValidationTimeout |} ] ->
    userActionId s = Some uuid ->
    Phase uuid s
| Open (pre : list (Z * UserActionLifecycleEvent)) (T : Z) (reason : string)
       (details : option (list string)) :
    subscriptions s = Active ->
    journal s = pre ++ [(T, UserActionExtended uuid T reason details)] ->
    allExtended uuid pre ->
    (Host.table (timers s) = [] \/
     exists h, idleTimeoutId s = Some h /\
               Host.table (timers s)
               = [ {| Host.handle := h; Host.due := (T + IDLE_DELAY)%Z;
                      Host.callback := IdleTimeout T |} ]) ->
    Phase uuid s
| HasAborted (at_ : Z) :
    subscriptions s = Unsubscribed -> Host.table (timers s) = [] ->
    journal s = [(at_, UserActionAborted uuid at_)] ->
    userActionId s = Some uuid ->
    Phase uuid s
| HasEnded (pre : list (Z * UserActionLifecycleEvent)) (T : Z) (reason : string)
       (details : option (list string)) (at_ : Z) :
    subscriptions s = Unsubscribed -> Host.table (timers s) = [] ->
    journal s = pre ++ [(T, UserActionExtended uuid T reason details);
                        (at_, UserActionEnded uuid T)] ->
    allExtended uuid pre ->
    userActionId s = None ->
    Phase uuid s.

Definition Inv (uuid : string) (s : State) : Prop := id s = uuid /\ Phase uuid s.

(** The interaction after its validation timer has run at [at_]. *)
Definition aborted (at_ : Z) (uuid : string) (n : nat) : State :=
  {| id := uuid; validationTimeoutId := n; idleTimeoutId := None;
     pendingRequests := ∅; subscriptions := Unsubscribed;
     timers := {| Host.table := []; Host.nextHandle := S n |};
     userActionId := Some uuid;
     journal := [(at_, UserActionAborted uuid at_)] |}.

End Detector.

(** ** userActionCollection, the version that resolves a promise
    (lines 234-398): one interaction seen alone

    As above, [userActionId] is here written by this interaction only; the
    page with all its interactions is [InteractionsAsync]. *)

Module UserActionCollectionAsync.

Import LifeCycle.

Definition IDLE_DELAY : Z := 100.
Definition BUSY_DELAY : Z := 100.

Record ChangeEvent := { isBusy : bool }.

(** *** trackPageChanges (lines 324-353) *)

Definition notifyChange (pendingRequests : gset string) : ChangeEvent :=
  {| isBusy := Nat.ltb 0 (size pendingRequests) |}.

(** The handler of [REQUEST_COLLECTED]. *)
Definition onRequest (pendingRequests : gset string)
    (requestEvent : RequestCollection.RequestEvent)
  : gset string * list ChangeEvent :=
  match RequestCollection.kind requestEvent with
  | RequestCollection.Start =>
      let pendingRequests' := {[ RequestCollection.requestId requestEvent ]} ∪ pendingRequests in
      (pendingRequests', [notifyChange pendingRequests'])
  | RequestCollection.End =>
      let '(existed, pendingRequests') :=
        Js.setDelete (RequestCollection.requestId requestEvent) pendingRequests in
      if existed
      then (pendingRequests', [notifyChange pendingRequests'])
      else (pendingRequests', [])
  end.

(** [notifyChange] itself is the handler of [DOM_MUTATED] and of
    [PERFORMANCE_ENTRY_COLLECTED]. *)
Definition trackPageChanges_handle (pendingRequests : gset string)
    (event : LifeCycleEvent) : gset string * list ChangeEvent :=
  match event with
  | DOM_MUTATED => (pendingRequests, [notifyChange pendingRequests])
  | PERFORMANCE_ENTRY_COLLECTED _ => (pendingRequests, [notifyChange pendingRequests])
  | REQUEST_COLLECTED requestEvent => onRequest pendingRequests requestEvent
  end.

(** *** newUserAction (lines 295-322) *)

(** The two timer callbacks; the idle callback closes over [end]. *)
Inductive Callback :=
| ValidationTimeout
| IdleTimeout (end_ : Z).

(** The variables of one [newUserAction] call (with those of the
    [trackPageChanges] it starts), the module variable [userActionId], the
    host's timer table, and the calls of [resolve] so far (with the clock at
    the call): [None] is [resolve(undefined)], [Some (id, end)] is
    [resolve({ id, end })]. *)
Record State := {
  id : string;
  validationTimeoutId : nat;
  idleTimeoutId : option nat;
  pendingRequests : gset string;
  subscriptions : Subscription;
  timers : Host.Timers Callback;
  userActionId : option string;
  resolutions : list (Z * option (string * Z))
}.

Definition resolve (now : Z) (v : option (string * Z)) (s : State) : State :=
  {| id := id s; validationTimeoutId := validationTimeoutId s;
     idleTimeoutId := idleTimeoutId s; pendingRequests := pendingRequests s;
     subscriptions := subscriptions s; timers := timers s;
     userActionId := userActionId s;
     resolutions := resolutions s ++ [(now, v)] |}.

Definition stop (s : State) : State :=
  {| id := id s; validationTimeoutId := validationTimeoutId s;
     idleTimeoutId := idleTimeoutId s; pendingRequests := pendingRequests s;
     subscriptions := Unsubscribed; timers := timers s;
     userActionId := userActionId s; resolutions := resolutions s |}.

Definition setUserActionId (v : option string) (s : State) : State :=
  {| id := id s; validationTimeoutId := validationTimeoutId s;
     idleTimeoutId := idleTimeoutId s; pendingRequests := pendingRequests s;
     subscriptions := subscriptions s; timers := timers s;
     userActionId := v; resolutions := resolutions s |}.

Definition setTimers (t : Host.Timers Callback) (s : State) : State :=
  {| id := id s; validationTimeoutId := validationTimeoutId s;
     idleTimeoutId := idleTimeoutId s; pendingRequests := pendingRequests s;
     subscriptions := subscriptions s; timers := t;
     userActionId := userActionId s; resolutions := resolutions s |}.

Definition setIdleTimeoutId (h : option nat) (s : State) : State :=
  {| id := id s; validationTimeoutId := validationTimeoutId s;
     idleTimeoutId := h; pendingRequests := pendingRequests s;
     subscriptions := subscriptions s; timers := timers s;
     userActionId := userActionId s; resolutions := resolutions s |}.

Definition setPendingRequests (p : gset string) (s : State) : State :=
  {| id := id s; validationTimeoutId := validationTimeoutId s;
     idleTimeoutId := idleTimeoutId s; pendingRequests := p;
     subscriptions := subscriptions s; timers := timers s;
     userActionId := userActionId s; resolutions := resolutions s |}.

Definition clearTimeout (h : option nat) (s : State) : State :=
  setTimers (Host.clearTimeout h (timers s)) s.

(** The executor of the promise [newUserAction] returns, run at [now]; the
    module variable [userActionId] is left as it was. *)
Definition newUserAction (now : Z) (uuid : string)
    (host : Host.Timers Callback) (current : option string) : State :=
  let '(validation, host') := Host.setTimeout ValidationTimeout BUSY_DELAY now host in
  {| id := uuid; validationTimeoutId := validation; idleTimeoutId := None;
     pendingRequests := ∅; subscriptions := Active; timers := host';
     userActionId := current; resolutions := [] |}.

(** The subscriber of [changesObservable] (lines 308-320), run at [now]. *)
Definition onChange (now : Z) (change : ChangeEvent) (s : State) : State :=
  let s := setUserActionId (Some (id s)) s in
  let s := clearTimeout (Some (validationTimeoutId s)) s in
  let s := clearTimeout (idleTimeoutId s) s in
  let end_ := now in
  if negb (isBusy change) then
    let '(h, t) := Host.setTimeout (IdleTimeout end_) IDLE_DELAY now (timers s) in
    setIdleTimeoutId (Some h) (setTimers t s)
  else s.

(** The callback of the validation timer (lines 301-304), run at [now]. *)
Definition onValidationTimeout (now : Z) (s : State) : State :=
  stop (resolve now None s).

(** The callback of the idle timer (lines 314-318), run at [now]. *)
Definition onIdleTimeout (now end_ : Z) (s : State) : State :=
  setUserActionId None (resolve now (Some (id s, end_)) (stop s)).

(** [lifeCycle.notify(event)] at time [now]. *)
Definition deliver (now : Z) (event : LifeCycleEvent) (s : State) : State :=
  match subscriptions s with
  | Active =>
      let '(p, changes) := trackPageChanges_handle (pendingRequests s) event in
      fold_left (fun s change => onChange now change s) changes (setPendingRequests p s)
  | Unsubscribed => s
  end.

(** The host runs the callback of timer [h] at time [now], if it is still
    in the table. *)
Definition expire (now : Z) (h : nat) (s : State) : State :=
  match Host.pending h (timers s) with
  | Some t =>
      let s := clearTimeout (Some h) s in
      match Host.callback t with
      | ValidationTimeout => onValidationTimeout now s
      | IdleTimeout end_ => onIdleTimeout now end_ s
      end
  | None => s
  end.

Inductive Input :=
| Notify (now : Z) (event : LifeCycleEvent)
| Expire (now : Z) (handle : nat).

Definition step (s : State) (i : Input) : State :=
  match i with
  | Notify now event => deliver now event s
  | Expire now h => expire now h s
  end.

Definition run (s : State) (inputs : list Input) : State := fold_left step inputs s.

(** The punctual host, as for the other version. *)
Fixpoint advance (fuel : nat) (until : Z) (s : State) : State :=
  match fuel with
  | O => s
  | S fuel' =>
      match Host.earliest (Host.table (timers s)) with
      | Some t =>
          if Z.leb (Host.due t) until
          then advance fuel' until (expire (Host.due t) (Host.handle t) s)
          else s
      | None => s
      end
  end.

Definition settle (until : Z) (s : State) : State :=
  advance (length (Host.table (timers s))) until s.

Fixpoint play (events : list (Z * LifeCycleEvent)) (until : Z) (s : State) : State :=
  match events with
  | [] => settle until s
  | (now, event) :: rest => play rest until (deliver now event (settle now s))
  end.

(** [getUserActionId()], while this interaction is the only one. *)
Definition getUserActionId (s : State) : option string := userActionId s.

(** *** startUserActionCollection (lines 361-398) *)

Module Report.

Record Context := {
  content : option string;
  element : option string
}.

Record UserAction := {
  startTime : Z;
  context : Context;
  duration : option Z;
  id : option string;
  name : string
}.

End Report.

(** The value the promise settles with: a promise keeps its first
    resolution. *)
Definition settledWith (s : State) : option (Z * option (string * Z)) :=
  head (resolutions s).

(** What the click handler publishes after [await] (lines 373-394). *)
Definition report (startTime : Z) (content element : option string)
    (userAction : option (string * Z)) : Report.UserAction :=
  match userAction with
  | Some (i, end_) =>
      {| Report.startTime := startTime;
         Report.context := {| Report.content := content; Report.element := element |};
         Report.duration := Some (end_ - startTime)%Z;
         Report.id := Some i;
         Report.name := "click" |}
  | None =>
      {| Report.startTime := startTime;
         Report.context := {| Report.content := content; Report.element := element |};
         Report.duration := None; Report.id := None;
         Report.name := "click ignored" |}
  end.

(** The [USER_ACTION_COLLECTED] notifications of a click at [startTime]
    whose interaction has reached state [s]. *)
Definition collected (startTime : Z) (content element : option string) (s : State)
  : list (Z * Report.UserAction) :=
  match settledWith s with
  | Some (at_, v) => [(at_, report startTime content element v)]
  | None => []
  end.

End UserActionCollectionAsync.

(** *** The phases of an interaction (lines 234-398) *)

Module DetectorAsync.

Import LifeCycle UserActionCollectionAsync.

(** The phases of an interaction started while [userActionId] was
    [current]. *)
Inductive Phase (uuid : string) (current : option string) (s : State) : Prop :=
| Validating (d : Z) :
    subscriptions s = Active -> idleTimeoutId s = None -> resolutions s = [] ->
    Host.table (timers s)
    = [ {| Host.handle := validationTimeoutId s; Host.due := d;
           Host.callback := ValidationTimeout |} ] ->
    userActionId s = current ->
    Phase uuid current s
| Open (T : Z) :
    subscriptions s = Active -> resolutions s = [] ->
    userActionId s = Some uuid ->
    (Host.table (timers s) = [] \/
     exists h, idleTimeoutId s = Some h /\
               Host.table (timers s)
               = [ {| Host.handle := h; Host.due := (T + IDLE_DELAY)%Z;
                      Host.callback := IdleTimeout T |} ]) ->
    Phase uuid current s
| HasAborted (at_ : Z) :
    subscriptions s = Unsubscribed -> Host.table (timers s) = [] ->
    resolutions s = [(at_, None)] ->
    userActionId s = current ->
    Phase uuid current s
| HasEnded (T at_ : Z) :
    subscriptions s = Unsubscribed -> Host.table (timers s) = [] ->
    resolutions s = [(at_, Some (uuid, T))] ->
    userActionId s = None ->
    Phase uuid current s.

Definition Inv (uuid : string) (current : option string) (s : State) : Prop :=
  id s = uuid /\ Phase uuid current s.

End DetectorAsync.

(** ** XMLHttpRequest tracking (requestCollection, trackXhr, lines 60-111) *)

Module Xhr.

Import RequestCollection.

(** What a [reportXhr] closure captured when [send] created it. *)
Record ReportXhr := {
  reportRequestId : string;
  reportMethod : string;
  reportUrl : string;
  reportStartTime : Z;
  reportTraceId : option Z
}.

(** The part of a [BrowserXHR] the wrappers touch: the [_datadog_xhr]
    property ([None] until the wrapped [open] has run) and the [loadend]
    listeners [send] has added, oldest first. *)
Record BrowserXHR := {
  _datadog_xhr : option (string * string);
  loadendListeners : list ReportXhr
}.

(** An object the wrappers have not touched yet. *)
Definition newXhr : BrowserXHR := {| _datadog_xhr := None; loadendListeners := [] |}.

Section TrackXhr.

Variable normalizeUrl : string -> string.

(** The wrapped [XMLHttpRequest.prototype.open], for a URL that [new URL]
    accepts; [Monitor.open] has the other case. *)
Definition open (method url : string) (this : BrowserXHR) : BrowserXHR :=
  {| _datadog_xhr := Some (method, normalizeUrl url);
     loadendListeners := loadendListeners this |}.

(** The wrapped [XMLHttpRequest.prototype.send], called at [now] with a fresh
    [requestId] and the trace id [getTraceId()] returns: the object with its
    new listener and the event published, or [None] when destructuring
    [this._datadog_xhr] throws because [open] never ran. *)
Definition send (now : Z) (requestId : string) (traceId : option Z)
    (this : BrowserXHR) : option (BrowserXHR * list RequestEvent) :=
  match _datadog_xhr this with
  | None => None
  | Some (method, url) =>
      let startTime := now in
      Some ({| _datadog_xhr := _datadog_xhr this;
               loadendListeners :=
                 loadendListeners this
                 ++ [ {| reportRequestId := requestId; reportMethod := method;
                         reportUrl := url; reportStartTime := startTime;
                         reportTraceId := traceId |} ] |},
            [ {| requestId := requestId;
                 details := {| method := method; startTime := startTime;
                               traceId := traceId; url := url; duration := 0;
                               type := XHR; status := None; response := None;
                               responseType := None |};
                 kind := Start |} ])
  end.

(** One [reportXhr] closure run at [now], when [this.response] and
    [this.status] are [response] and [status]. *)
Definition reportXhr (now : Z) (response : option string) (status : Z)
    (r : ReportXhr) : RequestEvent :=
  {| requestId := reportRequestId r;
     details := {| method := reportMethod r; startTime := reportStartTime r;
                   traceId := reportTraceId r; url := reportUrl r;
                   duration := (now - reportStartTime r)%Z;
                   response := response; status := Some status; type := XHR;
                   responseType := None |};
     kind := End |}.

(** The [loadend] event: every listener runs, in the order it was added. *)
Definition loadend (now : Z) (response : option string) (status : Z)
    (this : BrowserXHR) : list RequestEvent :=
  map (reportXhr now response status) (loadendListeners this).

(** One use of the object: [open] then [send]. *)
Record Use := {
  useMethod : string;
  useUrl : string;
  useTime : Z;
  useRequestId : string;
  useTraceId : option Z
}.

(** Successive uses of one object; [None] as soon as a [send] throws. *)
Fixpoint reuse (uses : list Use) (this : BrowserXHR)
  : option (BrowserXHR * list RequestEvent) :=
  match uses with
  | [] => Some (this, [])
  | u :: rest =>
      match send (useTime u) (useRequestId u) (useTraceId u)
                 (open (useMethod u) (useUrl u) this) with
      | None => None
      | Some (this', started) =>
          match reuse rest this' with
          | None => None
          | Some (this'', later) => Some (this'', started ++ later)
          end
      end
  end.

End TrackXhr.

End Xhr.

(** ** The wrappers as [monitor] runs them

    [monitor] (internalMonitoring, not among the sources) calls the function
    it wraps and hands back its result; when the function throws, it catches
    the exception and returns [undefined]. Two calls in the wrapped functions
    can throw: [normalizeUrl], when [new URL] rejects its argument, and the
    test ['stack' in response], when the promise was rejected with a value
    that is no object. *)

Module Monitor.

Import RequestCollection.

(** What a promise is rejected with: an error (a value that has a [stack]
    or is an instance of [Error]), or a primitive value. *)
Inductive Reason (Err : Type) :=
| AnError (error : Err)
| Primitive.
Arguments AnError {Err} error.
Arguments Primitive {Err}.

Inductive Settlement (Err : Type) :=
| Fulfilled (response : Fetch.Response)
| Rejected (reason : Reason Err).
Arguments Fulfilled {Err} response.
Arguments Rejected {Err} reason.

Record Promise (Err : Type) := {
  promiseId : nat;
  settlement : Settlement Err
}.
Arguments promiseId {Err} p.
Arguments settlement {Err} p.

Section TrackFetch.

Variables (Err StackTrace : Type).
Variable computeStackTrace : Err -> StackTrace.
Variable toStackTraceString : StackTrace -> string.
(** [None] when [new URL] throws. *)
Variable normalizeUrl : string -> option string.
Variable getTraceId : option Z.
Variable originalFetch : Fetch.RequestInfo -> option Fetch.RequestInit -> Promise Err.

(** [monitor(reportFetch)], called at [now] with the value the promise
    settled with: on a primitive the [in] test throws before anything is
    notified. *)
Definition reportFetch (c : Fetch.Call) (now : Z) (settled : Settlement Err)
  : list RequestEvent :=
  match settled with
  | Fulfilled response =>
      Fetch.reportFetch Err StackTrace computeStackTrace toStackTraceString c now
        (Fetch.Fulfilled response)
  | Rejected (AnError error) =>
      Fetch.reportFetch Err StackTrace computeStackTrace toStackTraceString c now
        (Fetch.Rejected error)
  | Rejected Primitive => []
  end.

(** What one call of the wrapper does. *)
Record Wrapped := {
  published : list RequestEvent;     (* [observable.notify] during the call *)
  calledOriginal : bool;             (* whether the original [fetch] was called *)
  returned : option (Promise Err);   (* the value handed to the caller *)
  onSettled : Z -> list RequestEvent
    (* the reaction registered with [then], run at the settlement time *)
}.

(** The function installed as [window.fetch] (lines 119-184), called at
    time [now] with a fresh [requestId]. *)
Definition fetch (now : Z) (requestId : string)
    (input : Fetch.RequestInfo) (init : option Fetch.RequestInit) : Wrapped :=
  let method := Fetch.methodOf input init in
  let startTime := now in
  match normalizeUrl (Fetch.urlOf input) with
  | Some url =>
      let traceId := getTraceId in
      let c := {| Fetch.callMethod := method; Fetch.callStartTime := startTime;
                  Fetch.callUrl := url; Fetch.callTraceId := traceId;
                  Fetch.callRequestId := requestId |} in
      let responsePromise := originalFetch input init in
      {| published := [Fetch.startEvent c];
         calledOriginal := true;
         returned := Some responsePromise;
         onSettled := fun settledAt => reportFetch c settledAt (settlement responsePromise) |}
  | None =>
      {| published := []; calledOriginal := false; returned := None;
         onSettled := fun _ => [] |}
  end.

(** Everything published for one call that settles at [settledAt]. *)
Definition eventsOf (w : Wrapped) (settledAt : Z) : list RequestEvent :=
  published w ++ onSettled w settledAt.

End TrackFetch.

Section TrackXhr.

Variable normalizeUrl : string -> option string.

(** The wrapped [XMLHttpRequest.prototype.open] (lines 62-68): the object
    afterwards, and whether the original [open] was called. The object
    literal is evaluated before the assignment. *)
Definition open (method url : string) (this : Xhr.BrowserXHR) : Xhr.BrowserXHR * bool :=
  match normalizeUrl url with
  | Some normalized =>
      ({| Xhr._datadog_xhr := Some (method, normalized);
          Xhr.loadendListeners := Xhr.loadendListeners this |}, true)
  | None => (this, false)
  end.

End TrackXhr.

End Monitor.

(** ** startRequestCollection (requestCollection, lines 49-58) *)

Module RequestCollectionStart.

(** The module variable [requestObservable] (an observable is known by the
    number it was allocated with), and how many times [trackXhr] and
    [trackFetch] have replaced the functions they wrap. [hasFetch] is
    whether [window.fetch] exists. *)
Record Page := {
  requestObservable : option nat;
  allocated : nat;
  xhrWrapped : nat;
  fetchWrapped : nat;
  hasFetch : bool
}.

Definition trackXhr (p : Page) : Page :=
  {| requestObservable := requestObservable p; allocated := allocated p;
     xhrWrapped := S (xhrWrapped p); fetchWrapped := fetchWrapped p;
     hasFetch := hasFetch p |}.

Definition trackFetch (p : Page) : Page :=
  if negb (hasFetch p) then p
  else {| requestObservable := requestObservable p; allocated := allocated p;
          xhrWrapped := xhrWrapped p; fetchWrapped := S (fetchWrapped p);
          hasFetch := hasFetch p |}.

(** The page after the call, and the observable the call returns. *)
Definition startRequestCollection (p : Page) : Page * nat :=
  match requestObservable p with
  | Some observable => (p, observable)
  | None =>
      let observable := allocated p in
      let p := {| requestObservable := Some observable; allocated := S (allocated p);
                  xhrWrapped := xhrWrapped p; fetchWrapped := fetchWrapped p;
                  hasFetch := hasFetch p |} in
      (trackFetch (trackXhr p), observable)
  end.

(** [n] calls in a row: the page after them and what each returned. *)
Fixpoint startMany (n : nat) (p : Page) : Page * list nat :=
  match n with
  | O => (p, [])
  | S n' =>
      let '(p', observable) := startRequestCollection p in
      let '(p'', others) := startMany n' p' in
      (p'', observable :: others)
  end.

(** A page on which nothing has been started. *)
Definition freshPage (fetchExists : bool) (n : nat) : Page :=
  {| requestObservable := None; allocated := n; xhrWrapped := 0;
     fetchWrapped := 0; hasFetch := fetchExists |}.

End RequestCollectionStart.

(** ** startDOMMutationCollection (domMutationCollection) *)

Module DomMutationCollection.

(** The module variable [hasStarted], and the mutation observers created so
    far, each known by the life cycle it notifies (a number). *)
Record Page := {
  hasStarted : bool;
  observers : list nat
}.

Definition startDOMMutationCollection (lifeCycle : nat) (p : Page) : Page :=
  if negb (hasStarted p)
  then {| hasStarted := true; observers := observers p ++ [lifeCycle] |}
  else p.

(** The document mutates: every observer notifies its life cycle. *)
Definition mutation (p : Page) : list (nat * LifeCycle.LifeCycleEvent) :=
  map (fun lifeCycle => (lifeCycle, LifeCycle.DOM_MUTATED)) (observers p).

Definition freshPage : Page := {| hasStarted := false; observers := [] |}.

End DomMutationCollection.

(** ** Sequences of life-cycle events *)

Module Sequences.

Import LifeCycle.

(** The pending requests of the version of lines 126-170 after a sequence
    of life-cycle events. *)
Definition pendingAfter (events : list LifeCycleEvent)
    (pendingRequests : gmap string RequestCollection.RequestDetails)
  : gmap string RequestCollection.RequestDetails :=
  fold_left (fun p e => fst (UserActionCollection.trackPageChanges_handle p e))
            events pendingRequests.

(** The same for the version of lines 324-353. *)
Definition pendingAfterAsync (events : list LifeCycleEvent)
    (pendingRequests : gset string) : gset string :=
  fold_left (fun p e => fst (UserActionCollectionAsync.trackPageChanges_handle p e))
            events pendingRequests.

(** The request kind one event carries for [key]. *)
Definition kindFor (key : string) (e : LifeCycleEvent) : option RequestCollection.RequestEventKind :=
  match e with
  | REQUEST_COLLECTED r =>
      if String.eqb (RequestCollection.requestId r) key then Some (RequestCollection.kind r) else None
  | _ => None
  end.

(** The kind of the last request event that carries [key], if any. *)
Fixpoint lastRequestKind (key : string) (events : list LifeCycleEvent)
  : option RequestCollection.RequestEventKind :=
  match events with
  | [] => None
  | e :: rest =>
      match lastRequestKind key rest with
      | Some k => Some k
      | None => kindFor key e
      end
  end.

(** DOM mutations at the given times. *)
Definition mutations (times : list Z) : list (Z * LifeCycleEvent) :=
  map (fun t => (t, DOM_MUTATED)) times.

(** Each time comes less than [delay] after the one before it, [prev] being
    the time before the first. *)
Fixpoint closerThan (delay prev : Z) (times : list Z) : Prop :=
  match times with
  | [] => True
  | t :: rest => (t < prev + delay)%Z /\ closerThan delay t rest
  end.

(** The last of [times], [prev] when there is none. *)
Definition lastTime (prev : Z) (times : list Z) : Z := List.last times prev.

End Sequences.

(** ** Reading a string *)

Module Text.

(** The first character of a string, if any. *)
Definition first (s : string) : option ascii :=
  match s with
  | EmptyString => None
  | String c _ => Some c
  end.

Definition startsBlank (s : string) : bool :=
  match first s with
  | Some c => Js.isWhiteSpace c
  | None => false
  end.

End Text.

(** ** Invariants of an interaction *)

Module Invariants.

(** A timer is armed, or the interaction is closed, only while no request is
    pending. *)
Definition Quiet (s : UserActionCollection.State) : Prop :=
  Host.table (UserActionCollection.timers s) <> [] \/
  UserActionCollection.subscriptions s = LifeCycle.Unsubscribed ->
  UserActionCollection.pendingRequests s = ∅.

Definition QuietAsync (s : UserActionCollectionAsync.State) : Prop :=
  Host.table (UserActionCollectionAsync.timers s) <> [] \/
  UserActionCollectionAsync.subscriptions s = LifeCycle.Unsubscribed ->
  UserActionCollectionAsync.pendingRequests s = ∅.

(** The [Extended] event of a DOM mutation at [t]. *)
Definition extended (uuid : string) (t : Z) : Z * UserActionCollection.UserActionLifecycleEvent :=
  (t, UserActionCollection.UserActionExtended uuid t "dom_mutated" None).

(** Every [Extended] event of the journal carries a time from [from] on. *)
Definition since (from : Z) (j : list (Z * UserActionCollection.UserActionLifecycleEvent)) : Prop :=
  Forall (fun e => match snd e with
                   | UserActionCollection.UserActionExtended _ t _ _ => (from <= t)%Z
                   | _ => True
                   end) j.

(** The clock of every notification is at least [from]. *)
Definition notifiedSince (from : Z) (inputs : list UserActionCollection.Input) : Prop :=
  Forall (fun i => match i with
                   | UserActionCollection.Notify t _ => (from <= t)%Z
                   | UserActionCollection.Expire _ _ => True
                   end) inputs.

End Invariants.

(** ** The page: every interaction, the shared variable, synchronous
    notification (lines 1-233)

    [userActionId] (line 172) is one variable of the module: every
    interaction writes it. Each click adds an interaction with its own
    closure variables; all of them share the life cycle and the host's
    timers. [Observable.notify] and [lifeCycle.notify] call their subscribers
    before they return, so whatever a subscriber of [USER_ACTION_COLLECTED]
    publishes on the life cycle is handled inside the notification, before
    the statement that follows [result.notify] in the callback runs. *)

Module Interactions.

Import LifeCycle UserActionCollection.

(** The variables one click closes over: those of the click handler
    (lines 182-188), of [newUserAction] and of [trackPageChanges], and the
    journal of what was notified on [result] (with the clock at the
    notification). *)
Record Interaction := {
  startTime : Z;
  content : option string;
  element : option string;
  id : string;
  validationTimeoutId : nat;
  idleTimeoutId : option nat;
  pendingRequests : gmap string RequestCollection.RequestDetails;
  subscriptions : Subscription;
  journal : list (Z * UserActionLifecycleEvent)
}.

(** The module variable, the interactions in the order of their clicks (the
    order of their subscriptions to the life cycle), and the host's timers;
    a callback is tagged with the interaction whose closure it is. *)
Record Page := {
  userActionId : option string;
  interactions : list Interaction;
  timers : Host.Timers (nat * Callback)
}.

Definition log (entry : Z * UserActionLifecycleEvent) (i : Interaction) : Interaction :=
  {| startTime := startTime i; content := content i; element := element i;
     id := id i; validationTimeoutId := validationTimeoutId i;
     idleTimeoutId := idleTimeoutId i; pendingRequests := pendingRequests i;
     subscriptions := subscriptions i; journal := journal i ++ [entry] |}.

Definition stop (i : Interaction) : Interaction :=
  {| startTime := startTime i; content := content i; element := element i;
     id := id i; validationTimeoutId := validationTimeoutId i;
     idleTimeoutId := idleTimeoutId i; pendingRequests := pendingRequests i;
     subscriptions := Unsubscribed; journal := journal i |}.

Definition setIdleTimeoutId (h : option nat) (i : Interaction) : Interaction :=
  {| startTime := startTime i; content := content i; element := element i;
     id := id i; validationTimeoutId := validationTimeoutId i;
     idleTimeoutId := h; pendingRequests := pendingRequests i;
     subscriptions := subscriptions i; journal := journal i |}.

Definition setPendingRequests
    (p : gmap string RequestCollection.RequestDetails) (i : Interaction) : Interaction :=
  {| startTime := startTime i; content := content i; element := element i;
     id := id i; validationTimeoutId := validationTimeoutId i;
     idleTimeoutId := idleTimeoutId i; pendingRequests := p;
     subscriptions := subscriptions i; journal := journal i |}.

(** Assign to the variables of interaction [k]. *)
Definition update (k : nat) (f : Interaction -> Interaction) (p : Page) : Page :=
  {| userActionId := userActionId p;
     interactions := alter f k (interactions p);
     timers := timers p |}.

Definition setUserActionId (v : option string) (p : Page) : Page :=
  {| userActionId := v; interactions := interactions p; timers := timers p |}.

Definition setTimers (t : Host.Timers (nat * Callback)) (p : Page) : Page :=
  {| userActionId := userActionId p; interactions := interactions p; timers := t |}.

Definition clearTimeout (h : option nat) (p : Page) : Page :=
  setTimers (Host.clearTimeout h (timers p)) p.

(** The number of [USER_ACTION_COLLECTED] notifications so far. *)
Definition published (p : Page) : nat :=
  list_sum (map (fun i => length (journal i)) (interactions p)).

(** What the subscribers of [USER_ACTION_COLLECTED] publish on the life
    cycle while they handle a report, each event with the clock at its
    publication. The number tells the notifications apart: it is how many
    reports were published before this one. *)
Definition Consumer : Type :=
  nat -> Report.UserAction -> list (Z * LifeCycleEvent).

(** The subscribers that publish nothing: every callback then runs to its
    end before the next notification. *)
Definition silent : Consumer := fun _ _ => [].

Section Level.

(** [lifeCycle.notify] as a subscriber finds it inside a notification, and
    the subscribers of [USER_ACTION_COLLECTED]. *)
Variable deeper : Z -> LifeCycleEvent -> Page -> Page.
Variable consumer : Consumer.

(** [lifeCycle.notify(USER_ACTION_COLLECTED, report)], the [n]-th one: the
    subscribers run, and each event they publish is delivered at once. *)
Definition collect (n : nat) (r : Report.UserAction) (p : Page) : Page :=
  fold_left (fun p e => deeper (fst e) (snd e) p) (consumer n r) p.

(** [result.notify(event)] of interaction [k] at [now]: the subscriber of
    the click handler (lines 190-229) forwards the report before
    [result.notify] returns. *)
Definition notify (now : Z) (k : nat) (event : UserActionLifecycleEvent) (p : Page) : Page :=
  match interactions p !! k with
  | Some i =>
      collect (published p) (report (startTime i) (content i) (element i) event)
              (update k (log (now, event)) p)
  | None => p
  end.

(** The subscriber of [changesObservable] of interaction [k]
    (lines 105-117), run at [now]: [isBusy] was read when the notification
    was built, and line 111 assigns [idleTimeoutId] after line 109 has
    returned. *)
Definition onChange (now : Z) (k : nat) (change : ChangeEvent) (p : Page) : Page :=
  match interactions p !! k with
  | Some i =>
      let p := clearTimeout (Some (validationTimeoutId i)) p in
      let p := clearTimeout (idleTimeoutId i) p in
      let time := now in
      let p := notify now k (UserActionExtended (id i) time (type change) (details change)) p in
      if negb (isBusy change) then
        let '(h, t) := Host.setTimeout (k, IdleTimeout time) IDLE_DELAY now (timers p) in
        update k (setIdleTimeoutId (Some h)) (setTimers t p)
      else p
  | None => p
  end.

(** The three life-cycle subscriptions of interaction [k] (lines 131-158),
    while they are active. *)
Definition handle (now : Z) (event : LifeCycleEvent) (p : Page) (k : nat) : Page :=
  match interactions p !! k with
  | Some i =>
      match subscriptions i with
      | Active =>
          let '(pending, changes) := trackPageChanges_handle (pendingRequests i) event in
          fold_left (fun p change => onChange now k change p) changes
                    (update k (setPendingRequests pending) p)
      | Unsubscribed => p
      end
  | None => p
  end.

(** [lifeCycle.notify(event)] at [now]: the subscribers are called in the
    order they subscribed. *)
Definition publish (now : Z) (event : LifeCycleEvent) (p : Page) : Page :=
  fold_left (handle now event) (seq 0 (length (interactions p))) p.

(** The callback of the validation timer of interaction [k]
    (lines 98-101): [stop()] comes after the notification. *)
Definition onValidationTimeout (now : Z) (k : nat) (p : Page) : Page :=
  match interactions p !! k with
  | Some i => update k stop (notify now k (UserActionAborted (id i) now) p)
  | None => p
  end.

(** The callback of the idle timer of interaction [k] (lines 111-115):
    [stop()] comes first. *)
Definition onIdleTimeout (now time : Z) (k : nat) (p : Page) : Page :=
  setUserActionId None
    match interactions p !! k with
    | Some i => notify now k (UserActionEnded (id i) time) (update k stop p)
    | None => p
    end.

End Level.

(** [lifeCycle.notify(event)] where the subscribers of
    [USER_ACTION_COLLECTED] publish up to [depth] notifications deep: a
    report published [depth] notifications deep is received, and nothing is
    published from inside it. *)
Fixpoint lifeCycleNotify (consumer : Consumer) (depth : nat)
    (now : Z) (event : LifeCycleEvent) (p : Page) : Page :=
  match depth with
  | O => publish (fun _ _ p => p) consumer now event p
  | S d => publish (lifeCycleNotify consumer d) consumer now event p
  end.

(** [lifeCycle.notify] as a timer callback finds it. *)
Definition inside (consumer : Consumer) (depth : nat) : Z -> LifeCycleEvent -> Page -> Page :=
  match depth with
  | O => fun _ _ p => p
  | S d => lifeCycleNotify consumer d
  end.

(** The click handler (lines 181-230) and the [newUserAction] it calls, run
    at [now] on [target] ([None] when the target is not an element), with
    the identifier [generateUUID()] returns. *)
Definition click (getElementAsString : Element -> string)
    (now : Z) (target : option Element) (uuid : string) (p : Page) : Page :=
  let element :=
    match target with
    | Some t => let e := getElementAsString t in
                if Js.truthy e then Some e else None
    | None => None
    end in
  let content :=
    match target with
    | Some t => getElementContent t
    | None => None
    end in
  let startTime := now in
  let k := length (interactions p) in
  let '(validation, t) := Host.setTimeout (k, ValidationTimeout) BUSY_DELAY now (timers p) in
  {| userActionId := Some uuid;
     interactions :=
       interactions p ++
       [ {| startTime := startTime; content := content; element := element;
            id := uuid; validationTimeoutId := validation; idleTimeoutId := None;
            pendingRequests := ∅; subscriptions := Active; journal := [] |} ];
     timers := t |}.

(** The host runs the callback of timer [h] at time [now], if it is still
    in the table. *)
Definition expire (consumer : Consumer) (depth : nat) (now : Z) (h : nat) (p : Page) : Page :=
  match Host.pending h (timers p) with
  | Some t =>
      let p := clearTimeout (Some h) p in
      match Host.callback t with
      | (k, ValidationTimeout) =>
          onValidationTimeout (inside consumer depth) consumer now k p
      | (k, IdleTimeout time) =>
          onIdleTimeout (inside consumer depth) consumer now time k p
      end
  | None => p
  end.

(** What the host does: a click, an event published on the life cycle by
    one of its producers, a timer that runs. *)
Inductive Task :=
| Click (now : Z) (target : option Element) (uuid : string)
| Notify (now : Z) (event : LifeCycleEvent)
| Expire (now : Z) (handle : nat).

Section Run.

Variable getElementAsString : Element -> string.
Variable consumer : Consumer.
Variable depth : nat.

Definition step (p : Page) (task : Task) : Page :=
  match task with
  | Click now target uuid => click getElementAsString now target uuid p
  | Notify now event => lifeCycleNotify consumer depth now event p
  | Expire now h => expire consumer depth now h p
  end.

Definition run (p : Page) (tasks : list Task) : Page := fold_left step tasks p.

End Run.

(** The page before any click. *)
Definition freshPage : Page :=
  {| userActionId := None; interactions := []; timers := Host.fresh 1 |}.

Definition getUserActionId (p : Page) : option string := userActionId p.

(** What interaction [k] has notified on [result], oldest first. *)
Definition eventsOf (k : nat) (p : Page) : list UserActionLifecycleEvent :=
  match interactions p !! k with
  | Some i => map snd (journal i)
  | None => []
  end.

(** The [USER_ACTION_COLLECTED] notifications of interaction [k], each with
    the time it was published. *)
Definition collectedOf (k : nat) (p : Page) : list (Z * Report.UserAction) :=
  match interactions p !! k with
  | Some i =>
      map (fun e => (fst e, report (startTime i) (content i) (element i) (snd e)))
          (journal i)
  | None => []
  end.

(** A timer of interaction [k] is in the table: its validation timer, or
    one of its idle timers. *)
Definition isValidationOf (k : nat) (t : Host.Timer (nat * Callback)) : bool :=
  match Host.callback t with
  | (j, ValidationTimeout) => Nat.eqb j k
  | _ => false
  end.

Definition isIdleOf (k : nat) (t : Host.Timer (nat * Callback)) : bool :=
  match Host.callback t with
  | (j, IdleTimeout _) => Nat.eqb j k
  | _ => false
  end.

Definition isTimerOf (k : nat) (t : Host.Timer (nat * Callback)) : bool :=
  Nat.eqb (fst (Host.callback t)) k.

Definition validationPending (k : nat) (p : Page) : bool :=
  existsb (isValidationOf k) (Host.table (timers p)).

Definition idlePending (k : nat) (p : Page) : bool :=
  existsb (isIdleOf k) (Host.table (timers p)).

Definition timerPending (k : nat) (p : Page) : bool :=
  existsb (isTimerOf k) (Host.table (timers p)).

End Interactions.

(** ** The page of the version that resolves a promise (lines 234-398)

    [userActionId] (line 355) is again one variable of the module. Nothing
    is notified from inside a callback here: [resolve] only schedules the
    continuation of the click handler, which runs once the callback has
    returned. *)

Module InteractionsAsync.

Import LifeCycle UserActionCollectionAsync.

(** The variables one click closes over, and the calls of [resolve] so far
    (with the clock at the call). *)
Record Interaction := {
  startTime : Z;
  content : option string;
  element : option string;
  id : string;
  validationTimeoutId : nat;
  idleTimeoutId : option nat;
  pendingRequests : gset string;
  subscriptions : Subscription;
  resolutions : list (Z * option (string * Z))
}.

Record Page := {
  userActionId : option string;
  interactions : list Interaction;
  timers : Host.Timers (nat * Callback)
}.

Definition resolve (now : Z) (v : option (string * Z)) (i : Interaction) : Interaction :=
  {| startTime := startTime i; content := content i; element := element i;
     id := id i; validationTimeoutId := validationTimeoutId i;
     idleTimeoutId := idleTimeoutId i; pendingRequests := pendingRequests i;
     subscriptions := subscriptions i; resolutions := resolutions i ++ [(now, v)] |}.

Definition stop (i : Interaction) : Interaction :=
  {| startTime := startTime i; content := content i; element := element i;
     id := id i; validationTimeoutId := validationTimeoutId i;
     idleTimeoutId := idleTimeoutId i; pendingRequests := pendingRequests i;
     subscriptions := Unsubscribed; resolutions := resolutions i |}.

Definition setIdleTimeoutId (h : option nat) (i : Interaction) : Interaction :=
  {| startTime := startTime i; content := content i; element := element i;
     id := id i; validationTimeoutId := validationTimeoutId i;
     idleTimeoutId := h; pendingRequests := pendingRequests i;
     subscriptions := subscriptions i; resolutions := resolutions i |}.

Definition setPendingRequests (p : gset string) (i : Interaction) : Interaction :=
  {| startTime := startTime i; content := content i; element := element i;
     id := id i; validationTimeoutId := validationTimeoutId i;
     idleTimeoutId := idleTimeoutId i; pendingRequests := p;
     subscriptions := subscriptions i; resolutions := resolutions i |}.

Definition update (k : nat) (f : Interaction -> Interaction) (p : Page) : Page :=
  {| userActionId := userActionId p;
     interactions := alter f k (interactions p);
     timers := timers p |}.

Definition setUserActionId (v : option string) (p : Page) : Page :=
  {| userActionId := v; interactions := interactions p; timers := timers p |}.

Definition setTimers (t : Host.Timers (nat * Callback)) (p : Page) : Page :=
  {| userActionId := userActionId p; interactions := interactions p; timers := t |}.

Definition clearTimeout (h : option nat) (p : Page) : Page :=
  setTimers (Host.clearTimeout h (timers p)) p.

(** The subscriber of [changesObservable] of interaction [k]
    (lines 308-320), run at [now]. *)
Definition onChange (now : Z) (k : nat) (change : ChangeEvent) (p : Page) : Page :=
  match interactions p !! k with
  | Some i =>
      let p := setUserActionId (Some (id i)) p in
      let p := clearTimeout (Some (validationTimeoutId i)) p in
      let p := clearTimeout (idleTimeoutId i) p in
      let end_ := now in
      if negb (isBusy change) then
        let '(h, t) := Host.setTimeout (k, IdleTimeout end_) IDLE_DELAY now (timers p) in
        update k (setIdleTimeoutId (Some h)) (setTimers t p)
      else p
  | None => p
  end.

(** The three life-cycle subscriptions of interaction [k] (lines 329-341),
    while they are active. *)
Definition handle (now : Z) (event : LifeCycleEvent) (p : Page) (k : nat) : Page :=
  match interactions p !! k with
  | Some i =>
      match subscriptions i with
      | Active =>
          let '(pending, changes) := trackPageChanges_handle (pendingRequests i) event in
          fold_left (fun p change => onChange now k change p) changes
                    (update k (setPendingRequests pending) p)
      | Unsubscribed => p
      end
  | None => p
  end.

(** [lifeCycle.notify(event)] at [now]. *)
Definition lifeCycleNotify (now : Z) (event : LifeCycleEvent) (p : Page) : Page :=
  fold_left (handle now event) (seq 0 (length (interactions p))) p.

(** The callback of the validation timer of interaction [k]
    (lines 301-304). *)
Definition onValidationTimeout (now : Z) (k : nat) (p : Page) : Page :=
  update k stop (update k (resolve now None) p).

(** The callback of the idle timer of interaction [k] (lines 314-318). *)
Definition onIdleTimeout (now end_ : Z) (k : nat) (p : Page) : Page :=
  setUserActionId None
    (update k (fun i => resolve now (Some (id i, end_)) i) (update k stop p)).

(** The click handler up to its [await] (lines 364-373): the executor of
    the promise runs at once and leaves [userActionId] alone. *)
Definition click (getElementAsString : Element -> string)
    (now : Z) (target : option Element) (uuid : string) (p : Page) : Page :=
  let element :=
    match target with
    | Some t => let e := getElementAsString t in
                if Js.truthy e then Some e else None
    | None => None
    end in
  let content :=
    match target with
    | Some t => getElementContent t
    | None => None
    end in
  let startTime := now in
  let k := length (interactions p) in
  let '(validation, t) := Host.setTimeout (k, ValidationTimeout) BUSY_DELAY now (timers p) in
  {| userActionId := userActionId p;
     interactions :=
       interactions p ++
       [ {| startTime := startTime; content := content; element := element;
            id := uuid; validationTimeoutId := validation; idleTimeoutId := None;
            pendingRequests := ∅; subscriptions := Active; resolutions := [] |} ];
     timers := t |}.

Definition expire (now : Z) (h : nat) (p : Page) : Page :=
  match Host.pending h (timers p) with
  | Some t =>
      let p := clearTimeout (Some h) p in
      match Host.callback t with
      | (k, ValidationTimeout) => onValidationTimeout now k p
      | (k, IdleTimeout end_) => onIdleTimeout now end_ k p
      end
  | None => p
  end.

Inductive Task :=
| Click (now : Z) (target : option Element) (uuid : string)
| Notify (now : Z) (event : LifeCycleEvent)
| Expire (now : Z) (handle : nat).

Section Run.

Variable getElementAsString : Element -> string.

Definition step (p : Page) (task : Task) : Page :=
  match task with
  | Click now target uuid => click getElementAsString now target uuid p
  | Notify now event => lifeCycleNotify now event p
  | Expire now h => expire now h p
  end.

Definition run (p : Page) (tasks : list Task) : Page := fold_left step tasks p.

End Run.

Definition freshPage : Page :=
  {| userActionId := None; interactions := []; timers := Host.fresh 1 |}.

Definition getUserActionId (p : Page) : option string := userActionId p.

(** The id an event makes interaction [i] write to [userActionId]: its own,
    when its subscriptions are active and its handler notifies a change for
    the event. *)
Definition signalFor (event : LifeCycleEvent) (i : Interaction) : option string :=
  match subscriptions i with
  | Active =>
      match snd (trackPageChanges_handle (pendingRequests i) event) with
      | [] => None
      | _ :: _ => Some (id i)
      end
  | Unsubscribed => None
  end.

(** The ids written while an event is delivered, in the order the
    interactions are called. *)
Definition signalled (event : LifeCycleEvent) (p : Page) : list string :=
  omap (signalFor event) (interactions p).

(** What the click handler of interaction [k] has published after its
    [await] (lines 373-394): a promise keeps its first resolution. *)
Definition collectedOf (k : nat) (p : Page) : list (Z * Report.UserAction) :=
  match interactions p !! k with
  | Some i =>
      match head (resolutions i) with
      | Some (at_, v) => [(at_, report (startTime i) (content i) (element i) v)]
      | None => []
      end
  | None => []
  end.

End InteractionsAsync.

(** *** What holds of every page (lines 1-233) *)

Module Wellformed.

Import LifeCycle UserActionCollection Interactions.

(** [i'] is [i] later on: the same click and identifiers, a journal that
    has grown. *)
Definition Extends (i i' : Interaction) : Prop :=
  startTime i' = startTime i /\ content i' = content i /\ element i' = element i /\
  id i' = id i /\ validationTimeoutId i' = validationTimeoutId i /\
  journal i `prefix_of` journal i'.

(** [q] is [p] later on: every interaction of [p] is there, later on, and a
    validation timer that was gone is still gone. *)
Definition Later (p q : Page) : Prop :=
  (forall k i, interactions p !! k = Some i ->
               exists i', interactions q !! k = Some i' /\ Extends i i') /\
  (forall k, k < length (interactions p) ->
             validationPending k p = false -> validationPending k q = false).

(** Timers are callbacks of interactions of the page; the validation timer
    of an interaction has the handle the interaction keeps; and while it is
    pending the interaction has notified nothing and has no idle timer. *)
Definition Wf (p : Page) : Prop :=
  (forall t, In t (Host.table (timers p)) ->
             fst (Host.callback t) < length (interactions p)) /\
  (forall t k i, In t (Host.table (timers p)) ->
                 Host.callback t = (k, ValidationTimeout) ->
                 interactions p !! k = Some i ->
                 Host.handle t = validationTimeoutId i) /\
  (forall k i, interactions p !! k = Some i ->
               validationPending k p = true ->
               journal i = [] /\ idlePending k p = false).

(** In the version of lines 234-398 too, timers are callbacks of
    interactions of the page. *)
Definition WfAsync (p : InteractionsAsync.Page) : Prop :=
  forall t, In t (Host.table (InteractionsAsync.timers p)) ->
            fst (Host.callback t) < length (InteractionsAsync.interactions p).

(** Interaction [k] is [i], has unsubscribed and has no timer left. *)
Definition Closed (k : nat) (i : Interaction) (p : Page) : Prop :=
  interactions p !! k = Some i /\ subscriptions i = Unsubscribed /\
  timerPending k p = false.

(** A step of the page that keeps it well formed and leads to a later
    page. *)
Definition Good (f : Page -> Page) : Prop :=
  forall p, Wf p -> Wf (f p) /\ Later p (f p).

(** A step of the page that leaves a closed interaction closed, and as it
    is. *)
Definition Keeps (k : nat) (i : Interaction) (f : Page -> Page) : Prop :=
  forall p, Closed k i p -> Closed k i (f p).

(** A step of the page that does not write [userActionId]. *)
Definition SameId (f : Page -> Page) : Prop :=
  forall p, userActionId (f p) = userActionId p.

(** In the version of lines 234-398, what the handlers of interaction [a]
    leave of the page: the interactions that are called after it are
    untouched. *)
Definition After (a : nat) (q q' : InteractionsAsync.Page) : Prop :=
  length (InteractionsAsync.interactions q') = length (InteractionsAsync.interactions q) /\
  drop (S a) (InteractionsAsync.interactions q')
  = drop (S a) (InteractionsAsync.interactions q).

End Wellformed.

(** *** A page with a single interaction

    Seen from its only interaction, a page is a state of
    [UserActionCollection]: the variables of the interaction, the timers
    without their tags, and [userActionId], which then no other interaction
    writes. *)

Module Alone.

Definition untag {C : Type} (t : Host.Timers (nat * C)) : Host.Timers C :=
  {| Host.table :=
       map (fun t => {| Host.handle := Host.handle t; Host.due := Host.due t;
                        Host.callback := snd (Host.callback t) |})
           (Host.table t);
     Host.nextHandle := Host.nextHandle t |}.

Definition view (p : Interactions.Page) : option UserActionCollection.State :=
  match Interactions.interactions p with
  | [i] =>
      Some {| UserActionCollection.id := Interactions.id i;
              UserActionCollection.validationTimeoutId := Interactions.validationTimeoutId i;
              UserActionCollection.idleTimeoutId := Interactions.idleTimeoutId i;
              UserActionCollection.pendingRequests := Interactions.pendingRequests i;
              UserActionCollection.subscriptions := Interactions.subscriptions i;
              UserActionCollection.timers := untag (Interactions.timers p);
              UserActionCollection.userActionId := Interactions.userActionId p;
              UserActionCollection.journal := Interactions.journal i |}
  | _ => None
  end.

Definition task (i : UserActionCollection.Input) : Interactions.Task :=
  match i with
  | UserActionCollection.Notify now event => Interactions.Notify now event
  | UserActionCollection.Expire now h => Interactions.Expire now h
  end.

Definition viewAsync (p : InteractionsAsync.Page) : option UserActionCollectionAsync.State :=
  match InteractionsAsync.interactions p with
  | [i] =>
      Some {| UserActionCollectionAsync.id := InteractionsAsync.id i;
              UserActionCollectionAsync.validationTimeoutId :=
                InteractionsAsync.validationTimeoutId i;
              UserActionCollectionAsync.idleTimeoutId := InteractionsAsync.idleTimeoutId i;
              UserActionCollectionAsync.pendingRequests := InteractionsAsync.pendingRequests i;
              UserActionCollectionAsync.subscriptions := InteractionsAsync.subscriptions i;
              UserActionCollectionAsync.timers := untag (InteractionsAsync.timers p);
              UserActionCollectionAsync.userActionId := InteractionsAsync.userActionId p;
              UserActionCollectionAsync.resolutions := InteractionsAsync.resolutions i |}
  | _ => None
  end.

Definition taskAsync (i : UserActionCollectionAsync.Input) : InteractionsAsync.Task :=
  match i with
  | UserActionCollectionAsync.Notify now event => InteractionsAsync.Notify now event
  | UserActionCollectionAsync.Expire now h => InteractionsAsync.Expire now h
  end.

End Alone.

(** Induction along the chain of ancestors. *)
Fixpoint Element_chain_ind (P : Element -> Prop)
    (Hroot : forall tag text v attrs, P (mkElement tag text v attrs None))
    (Hchild : forall tag text v attrs parent,
        P parent -> P (mkElement tag text v attrs (Some parent)))
    (element : Element) : P element :=
  match element with
  | mkElement tag text v attrs None => Hroot tag text v attrs
  | mkElement tag text v attrs (Some parent) =>
      Hchild tag text v attrs parent (Element_chain_ind P Hroot Hchild parent)
  end.

(** ** Sample inputs *)

Definition sampleButton : Element :=
  mkElement "INPUT" (Some "  ") " Save " {[ "type" := "submit" ]}
    (Some (mkElement "FORM" None "" {[ "title" := "Settings" ]} None)).

Definition sampleId : string := "7c9e6679-7425-40de-944b-e07fc1f90ae7".

Definition sampleSerializer (e : Element) : string :=
  "<" +:+ tagName e +:+ ">".

Definition sampleDetails : RequestCollection.RequestDetails :=
  RequestCollection.mkRequestDetails RequestCollection.XHR "GET"
    "https://x.test/a/b" (Some 200%Z) None None 10 240 None.

Definition sampleRequestEnd : RequestCollection.RequestEvent :=
  {| RequestCollection.kind := RequestCollection.End;
     RequestCollection.details := sampleDetails;
     RequestCollection.requestId := "r1" |}.

Definition samplePaint : LifeCycle.PerformanceEntry :=
  {| LifeCycle.entryType := "paint";
     LifeCycle.name := "first-paint";
     LifeCycle.initiatorType := None |}.

(** Two events that are no activity signal, then a late DOM mutation. *)
Definition sampleQuietEvents : list (Z * LifeCycle.LifeCycleEvent) :=
  [ (30%Z, LifeCycle.PERFORMANCE_ENTRY_COLLECTED samplePaint);
    (40%Z, LifeCycle.REQUEST_COLLECTED sampleRequestEnd);
    (150%Z, LifeCycle.DOM_MUTATED) ].

(** A button without text or value of its own, inside a titled form. *)
Definition sampleBlankButton : Element :=
  mkElement "BUTTON" (Some " ") "" ∅
    (Some (mkElement "FORM" None "" {[ "title" := "Settings" ]} None)).

(** An event that is no activity signal, then the validation timer (handle 1)
    running late, then a DOM mutation. *)
Definition sampleLateExpiry : list UserActionCollection.Input :=
  [ UserActionCollection.Notify 40 (LifeCycle.REQUEST_COLLECTED sampleRequestEnd);
    UserActionCollection.Expire 104 1;
    UserActionCollection.Notify 150 LifeCycle.DOM_MUTATED ].

Definition sampleRequestStart : RequestCollection.RequestEvent :=
  {| RequestCollection.kind := RequestCollection.Start;
     RequestCollection.details :=
       RequestCollection.mkRequestDetails RequestCollection.XHR "GET"
         "https://x.test/a/b" None None None 10 0 None;
     RequestCollection.requestId := "r1" |}.

(** A DOM mutation at 20, then the idle timer (handle 2) running at 125. *)
Definition sampleCompletion : list UserActionCollection.Input :=
  [ UserActionCollection.Notify 20 LifeCycle.DOM_MUTATED;
    UserActionCollection.Expire 125 2 ].

(** The report of the sample click when its last activity is at 20. *)
Definition sampleClickReport : UserActionCollection.Report.UserAction :=
  {| UserActionCollection.Report.startTime := 0;
     UserActionCollection.Report.context :=
       {| UserActionCollection.Report.content := Some "Save";
          UserActionCollection.Report.element := Some "<INPUT>";
          UserActionCollection.Report.details := None;
          UserActionCollection.Report.reason := None |};
     UserActionCollection.Report.duration := Some 20%Z;
     UserActionCollection.Report.name := "click";
     UserActionCollection.Report.userActionId := None;
     UserActionCollection.Report.id := Some sampleId |}.

(** For the version of lines 234-398, where every performance entry is an
    activity signal: a request end nobody is waiting for, then a late DOM
    mutation. *)
Definition sampleQuietEventsAsync : list (Z * LifeCycle.LifeCycleEvent) :=
  [ (40%Z, LifeCycle.REQUEST_COLLECTED sampleRequestEnd);
    (150%Z, LifeCycle.DOM_MUTATED) ].

(** A subscriber of [USER_ACTION_COLLECTED] that sends its reports at once:
    while it handles a "click ignored" report it starts a request, whose
    start the request tracker publishes on the life cycle before the
    subscriber returns. *)
Definition sampleSender : Interactions.Consumer :=
  fun _ r =>
    if String.eqb (UserActionCollection.Report.name r) "click ignored"
    then [(100%Z, LifeCycle.REQUEST_COLLECTED sampleRequestStart)]
    else [].

(** A subscriber under which a DOM mutation is published while it handles a
    "click ignored" report. *)
Definition sampleMutator : Interactions.Consumer :=
  fun _ r =>
    if String.eqb (UserActionCollection.Report.name r) "click ignored"
    then [(100%Z, LifeCycle.DOM_MUTATED)]
    else [].

(** A click on the sample button at 0 and two events that are no activity
    signal. *)
Definition sampleQuietTasks : list Interactions.Task :=
  [ Interactions.Click 0 (Some sampleButton) sampleId;
    Interactions.Notify 30 (LifeCycle.PERFORMANCE_ENTRY_COLLECTED samplePaint);
    Interactions.Notify 40 (LifeCycle.REQUEST_COLLECTED sampleRequestEnd) ].

(** The interaction of that click, and its validation timer. *)
Definition sampleInteraction : Interactions.Interaction :=
  {| Interactions.startTime := 0;
     Interactions.content := Some "Save";
     Interactions.element := Some "<INPUT>";
     Interactions.id := sampleId;
     Interactions.validationTimeoutId := 1;
     Interactions.idleTimeoutId := None;
     Interactions.pendingRequests := ∅;
     Interactions.subscriptions := LifeCycle.Active;
     Interactions.journal := [] |}.

Definition sampleValidationTimer : Host.Timer (nat * UserActionCollection.Callback) :=
  {| Host.handle := 1; Host.due := 100;
     Host.callback := (0, UserActionCollection.ValidationTimeout) |}.

(** The report of a click on the sample button that no activity
    followed. *)
Definition sampleIgnoredReport : UserActionCollection.Report.UserAction :=
  {| UserActionCollection.Report.startTime := 0;
     UserActionCollection.Report.context :=
       {| UserActionCollection.Report.content := Some "Save";
          UserActionCollection.Report.element := Some "<INPUT>";
          UserActionCollection.Report.details := None;
          UserActionCollection.Report.reason := None |};
     UserActionCollection.Report.duration := None;
     UserActionCollection.Report.name := "click ignored";
     UserActionCollection.Report.userActionId := Some sampleId;
     UserActionCollection.Report.id := None |}.

(** A click, a DOM mutation three milliseconds after the validation timer
    was due, then the timers: the validation timer (handle 1) when the host
    gets to it, the idle timer (handle 2) later. *)
Definition sampleLateValidation : list Interactions.Task :=
  [ Interactions.Click 0 (Some sampleButton) sampleId;
    Interactions.Notify 103 LifeCycle.DOM_MUTATED;
    Interactions.Expire 104 1;
    Interactions.Expire 203 2 ].

(** Two clicks in the version of lines 234-398: the first at 0, a DOM
    mutation at 20, the second at 30. *)
Definition sampleOtherId : string := "1b4e28ba-2fa1-41d2-883f-0016d3cca427".

Definition sampleTwoClicks : list InteractionsAsync.Task :=
  [ InteractionsAsync.Click 0 (Some sampleButton) sampleId;
    InteractionsAsync.Notify 20 LifeCycle.DOM_MUTATED;
    InteractionsAsync.Click 30 (Some sampleBlankButton) sampleOtherId ].

(** * Properties *)

(** ** Strings *)

Lemma length_append (s t : string) :
  String.length (s +:+ t) = String.length s + String.length t.
Proof. induction s as [|c s IH]; simpl; [reflexivity | now rewrite IH]. Qed.

Lemma length_slice0 (n : nat) (s : string) :
  n <= String.length s -> String.length (Js.slice0 n s) = n.
Proof.
  unfold Js.slice0. revert s.
  induction n as [|n IH]; intros s Hn.
  - destruct s; reflexivity.
  - destruct s as [|c s]; simpl in *; [lia |].
    rewrite IH; [reflexivity | lia].
Qed.

Lemma strLengthLimit_short (s : string) :
  String.length s <= 400 -> strLengthLimit s = s.
Proof.
  intros H. unfold strLengthLimit.
  destruct (Nat.ltb_spec 400 (String.length s)); [lia | reflexivity].
Qed.

Lemma strLengthLimit_long (s : string) :
  400 < String.length s -> strLengthLimit s = Js.slice0 400 s +:+ " [...]".
Proof.
  intros H. unfold strLengthLimit.
  destruct (Nat.ltb_spec 400 (String.length s)); [reflexivity | lia].
Qed.


(** ** Content of the clicked element *)

Lemma inputValueCandidate_spec (element : Element) :
  inputValueCandidate element =
  (if String.eqb (tagName element) "INPUT"
   then match getAttribute element "type" with
        | Some "button" | Some "submit" => [Some (value element)]
        | _ => []
        end
   else []).
Proof.
  unfold inputValueCandidate.
  destruct (String.eqb (tagName element) "INPUT"); [| reflexivity].
  destruct (getAttribute element "type") as [t|]; [| reflexivity].
  destruct (String.eqb_spec t "button") as [->|Hb]; [reflexivity |].
  destruct (String.eqb_spec t "submit") as [->|Hs]; [reflexivity |].
  simpl.
  repeat (match goal with
          | |- context [match ?x with _ => _ end] => destruct x; try reflexivity; try congruence
          end).
Qed.

Lemma iterateContentCandidates_own (element : Element) :
  iterateContentCandidates element =
  (ContentSpec.ownCandidates element
   ++ match parentElement element with
      | Some p => iterateContentCandidates p
      | None => []
      end)%list.
Proof.
  destruct element as [tag text v attrs parent].
  unfold ContentSpec.ownCandidates.
  rewrite <- inputValueCandidate_spec.
  cbn [iterateContentCandidates textContent parentElement].
  rewrite <- !app_assoc. reflexivity.
Qed.

Lemma iterateContentCandidates_candidates (element : Element) :
  iterateContentCandidates element = ContentSpec.candidates element.
Proof.
  induction element as [tag text v attrs | tag text v attrs parent IH]
    using Element_chain_ind;
    rewrite iterateContentCandidates_own; unfold ContentSpec.candidates;
    cbn [parentElement ContentSpec.selfAndAncestors map concat].
  - reflexivity.
  - now rewrite IH.
Qed.

Lemma loop_find (iterator : list (option string)) :
  getElementContent_loop iterator =
  match List.find ContentSpec.nonBlank iterator with
  | Some (Some s) => Some (strLengthLimit (Js.trim s))
  | _ => None
  end.
Proof.
  induction iterator as [|[c|] rest IH]; simpl; [reflexivity | | exact IH].
  destruct (Js.truthy (Js.trim c)); [reflexivity | exact IH].
Qed.

(** C9. [getElementContent] returns the content of the first candidate whose
    trimmed value is not empty, the candidates being taken in this order:
    the element's [textContent], the [value] of an INPUT of type button or
    submit, the attributes aria-label, alt, title and placeholder, then the
    same for each ancestor in turn; it returns [undefined] when no candidate
    has content.  (The content is the trimmed candidate, cut by
    [strLengthLimit].) *)
Theorem getElementContent_first_nonBlank (element : Element) :
  getElementContent element = ContentSpec.firstNonBlank element.
Proof.
  unfold getElementContent, ContentSpec.firstNonBlank.
  rewrite loop_find, iterateContentCandidates_candidates. reflexivity.
Qed.



(** ** Request tracking *)

(** C8. [isRejected] holds exactly when the status is 0 and the response
    type is not ["opaque"]; [isServerError] holds exactly when the status is
    at least 500. *)
Theorem isRejected_isServerError_iff (request : RequestCollection.RequestDetails) :
  (RequestCollection.isRejected request = true <->
   RequestCollection.status request = Some 0%Z /\
   RequestCollection.responseType request <> Some "opaque") /\
  (RequestCollection.isServerError request = true <->
   exists s : Z, RequestCollection.status request = Some s /\ (500 <= s)%Z).
Proof.
  unfold RequestCollection.isRejected, RequestCollection.isServerError.
  destruct request as [ty m u st resp rt t0 d tr]; simpl. split.
  - rewrite andb_true_iff, negb_true_iff. split.
    + intros [Hs Ht]. split.
      * destruct st as [s|]; [| discriminate].
        apply Z.eqb_eq in Hs. now subst.
      * destruct rt as [t|]; [| discriminate].
        intros [= ->]. now rewrite String.eqb_refl in Ht.
    + intros [-> Ht]. split; [reflexivity |].
      destruct rt as [t|]; [| reflexivity].
      destruct (String.eqb_spec t "opaque"); [subst; congruence | reflexivity].
  - destruct st as [s|].
    + rewrite Z.leb_le. split.
      * intros H. exists s. now split.
      * intros (s' & [= <-] & H). exact H.
    + split; [discriminate |]. intros (s' & [=] & _).
Qed.

Section FetchProperties.

Import RequestCollection RequestCollection.Fetch.

Variables (Err StackTrace : Type).
Variable computeStackTrace : Err -> StackTrace.
Variable toStackTraceString : StackTrace -> string.
Variable normalizeUrl : string -> string.
Variable getTraceId : option Z.
Variable originalFetch : RequestInfo -> option RequestInit -> Promise Err.

(** C7. When the promise of the original [fetch] rejects, the wrapper
    publishes exactly one [End] event, with status 0 and the text of the
    stack trace in place of a body, and it returns the original promise
    itself; when the promise fulfils, exactly one [End] event is published
    too, and a body that cannot be read becomes the placeholder text. *)
Theorem fetch_failure_reported now settledAt requestId input init :
  let w := fetch Err StackTrace computeStackTrace toStackTraceString
             normalizeUrl getTraceId originalFetch now requestId input init in
  returned Err w = originalFetch input init /\
  exists d : RequestDetails,
    List.filter isEnd (eventsOf Err w settledAt)
    = [ {| kind := End; details := d; requestId := requestId |} ] /\
    duration d = (settledAt - now)%Z /\
    match settlement (originalFetch input init) with
    | Rejected error =>
        status d = Some 0%Z /\
        response d = Some (toStackTraceString (computeStackTrace error))
    | Fulfilled r =>
        status d = Some (responseStatus r) /\
        response d = Some match bodyText r with
                          | inl text => text
                          | inr e => "Unable to retrieve response: " +:+ e
                          end
    end.
Proof.
  intros w. split; [reflexivity |].
  unfold w, eventsOf, fetch; cbn.
  destruct (settlement (originalFetch input init)) as [r|error]; cbn;
    eexists; (split; [reflexivity |]); cbn; auto.
Qed.

End FetchProperties.

(** ** The activity correlator *)

Module CorrelatorProperties.

Import LifeCycle.

(** In the version that attaches details, a performance entry is notified
    exactly when its type is ["resource"]. *)
Lemma resource_entries_only pendingRequests entry :
  (entryType entry = "resource" /\
   exists details,
     UserActionCollection.trackPageChanges_handle pendingRequests
       (PERFORMANCE_ENTRY_COLLECTED entry)
     = (pendingRequests,
        [UserActionCollection.notifyChange pendingRequests
           "performance_entry_collected" (Some details)]))
  \/ (entryType entry <> "resource" /\
      UserActionCollection.trackPageChanges_handle pendingRequests
        (PERFORMANCE_ENTRY_COLLECTED entry)
      = (pendingRequests, [])).
Proof.
  cbn. unfold UserActionCollection.onPerformanceEntry.
  destruct (String.eqb_spec (entryType entry) "resource") as [He|He]; cbn.
  - left. split; [exact He |]. eexists. reflexivity.
  - right. now split.
Qed.

End CorrelatorProperties.

(** C5, as amended. In the version of [trackPageChanges] whose handler
    inspects the entry (lines 132-147) a performance entry yields a change
    notification if and only if its [entryType] is ["resource"]; in the
    version that subscribes [notifyChange] itself (lines 329-330) every
    performance entry yields one. Neither touches the pending requests. *)
Theorem performance_entry_activity
    (detailed : gmap string RequestCollection.RequestDetails)
    (plain : gset string) (entry : LifeCycle.PerformanceEntry) :
  (snd (UserActionCollection.trackPageChanges_handle detailed
          (LifeCycle.PERFORMANCE_ENTRY_COLLECTED entry)) <> []
   <-> LifeCycle.entryType entry = "resource") /\
  length (snd (UserActionCollection.trackPageChanges_handle detailed
                 (LifeCycle.PERFORMANCE_ENTRY_COLLECTED entry))) <= 1 /\
  fst (UserActionCollection.trackPageChanges_handle detailed
         (LifeCycle.PERFORMANCE_ENTRY_COLLECTED entry)) = detailed /\
  UserActionCollectionAsync.trackPageChanges_handle plain
    (LifeCycle.PERFORMANCE_ENTRY_COLLECTED entry)
  = (plain, [UserActionCollectionAsync.notifyChange plain]).
Proof.
  destruct (CorrelatorProperties.resource_entries_only detailed entry)
    as [(He & d & ->) | (He & ->)]; cbn.
  - split; [split; [auto | discriminate] |]. auto.
  - split; [split; [intros H; now contradict H | intros H; now contradict He] |].
    auto.
Qed.

(** C5, as stated, fails on the version of lines 324-353: a paint entry is
    notified there. *)
Lemma performance_entry_activity_counterexample :
  ~ (forall (plain : gset string) (entry : LifeCycle.PerformanceEntry),
        snd (UserActionCollectionAsync.trackPageChanges_handle plain
               (LifeCycle.PERFORMANCE_ENTRY_COLLECTED entry)) <> []
        <-> LifeCycle.entryType entry = "resource").
Proof.
  intros H.
  specialize (H ∅ {| LifeCycle.entryType := "paint";
                     LifeCycle.name := "first-paint";
                     LifeCycle.initiatorType := None |}).
  cbn in H. destruct H as [H _].
  assert (Hne : "paint" = "resource") by (apply H; discriminate).
  discriminate Hne.
Qed.

Module PendingRequests.

Import LifeCycle RequestCollection.

(** [Map.prototype.delete] on an absent key leaves the map as it is. *)
Lemma mapDelete_absent {V} key (m : gmap string V) :
  m !! key = None -> Js.mapDelete key m = (false, m).
Proof.
  intros H. unfold Js.mapDelete. rewrite delete_id by exact H.
  rewrite bool_decide_eq_false_2; [reflexivity |].
  rewrite H. intros [x Hx]. discriminate.
Qed.

Lemma mapDelete_present {V} key (m : gmap string V) :
  is_Some (m !! key) -> Js.mapDelete key m = (true, delete key m).
Proof.
  intros H. unfold Js.mapDelete. now rewrite bool_decide_eq_true_2.
Qed.

Lemma setDelete_absent key (s : gset string) :
  key ∉ s -> Js.setDelete key s = (false, s).
Proof.
  intros H. unfold Js.setDelete.
  rewrite bool_decide_eq_false_2 by exact H.
  f_equal. apply difference_disjoint_L, disjoint_singleton_r, H.
Qed.

Lemma setDelete_present key (s : gset string) :
  key ∈ s -> Js.setDelete key s = (true, s ∖ {[ key ]}).
Proof. intros H. unfold Js.setDelete. now rewrite bool_decide_eq_true_2. Qed.

End PendingRequests.

(** C6. For a [RequestEnd] event: when its [requestId] is not pending, no
    change is notified and the pending requests stay as they are; when it is
    pending, the id is removed and exactly one change is notified, and a
    second [RequestEnd] for the same id finds it gone (no notification, no
    change). This holds for both versions of [trackPageChanges]. *)
Theorem request_end_removes_once
    (requestEvent : RequestCollection.RequestEvent)
    (detailed : gmap string RequestCollection.RequestDetails)
    (plain : gset string) :
  RequestCollection.kind requestEvent = RequestCollection.End ->
  let key := RequestCollection.requestId requestEvent in
  let event := LifeCycle.REQUEST_COLLECTED requestEvent in
  (detailed !! key = None ->
   UserActionCollection.trackPageChanges_handle detailed event = (detailed, [])) /\
  (is_Some (detailed !! key) ->
   exists change,
     UserActionCollection.trackPageChanges_handle detailed event
     = (delete key detailed, [change]) /\
     delete key detailed !! key = None /\
     UserActionCollection.trackPageChanges_handle (delete key detailed) event
     = (delete key detailed, [])) /\
  (key ∉ plain ->
   UserActionCollectionAsync.trackPageChanges_handle plain event = (plain, [])) /\
  (key ∈ plain ->
   exists change,
     UserActionCollectionAsync.trackPageChanges_handle plain event
     = (plain ∖ {[ key ]}, [change]) /\
     (key ∉ plain ∖ {[ key ]}) /\
     UserActionCollectionAsync.trackPageChanges_handle (plain ∖ {[ key ]}) event
     = (plain ∖ {[ key ]}, [])).
Proof.
  intros Hkind key event.
  assert (Hgone : delete key detailed !! key = None) by apply lookup_delete_eq.
  assert (Hout : key ∉ (plain ∖ {[ key ]})).
  { apply not_elem_of_difference. right. now apply elem_of_singleton. }
  cbn. unfold UserActionCollection.onRequest, UserActionCollectionAsync.onRequest.
  rewrite Hkind. fold key. repeat split.
  - intros H. now rewrite PendingRequests.mapDelete_absent.
  - intros H. rewrite PendingRequests.mapDelete_present by exact H.
    eexists. split; [reflexivity |]. split; [exact Hgone |].
    now rewrite PendingRequests.mapDelete_absent.
  - intros H. now rewrite PendingRequests.setDelete_absent.
  - intros H. rewrite PendingRequests.setDelete_present by exact H.
    eexists. split; [reflexivity |]. split; [exact Hout |].
    now rewrite PendingRequests.setDelete_absent.
Qed.

(** An end event for the pending request "r1", and for no pending request. *)
Lemma request_end_removes_once_witness :
  RequestCollection.kind sampleRequestEnd = RequestCollection.End /\
  (exists change,
      UserActionCollection.trackPageChanges_handle {[ "r1" := sampleDetails ]}
        (LifeCycle.REQUEST_COLLECTED sampleRequestEnd)
      = (delete "r1" {[ "r1" := sampleDetails ]}, [change])) /\
  (exists change,
      UserActionCollectionAsync.trackPageChanges_handle {[ "r1" ]}
        (LifeCycle.REQUEST_COLLECTED sampleRequestEnd)
      = ({[ "r1" ]} ∖ {[ "r1" ]}, [change])) /\
  UserActionCollection.trackPageChanges_handle ∅
    (LifeCycle.REQUEST_COLLECTED sampleRequestEnd) = (∅, []) /\
  UserActionCollectionAsync.trackPageChanges_handle ∅
    (LifeCycle.REQUEST_COLLECTED sampleRequestEnd) = (∅, []).
Proof.
  split; [reflexivity |].
  destruct (request_end_removes_once sampleRequestEnd
              {[ "r1" := sampleDetails ]} {[ "r1" ]} eq_refl)
    as (_ & Hpresent & _ & Hpresent').
  destruct (request_end_removes_once sampleRequestEnd ∅ ∅ eq_refl)
    as (Habsent & _ & Habsent' & _).
  split; [| split; [| split]].
  - destruct Hpresent as (change & H & _).
    + cbn. rewrite lookup_singleton_eq. eauto.
    + exists change. exact H.
  - destruct Hpresent' as (change & H & _).
    + cbn. now apply elem_of_singleton.
    + exists change. exact H.
  - apply Habsent. apply lookup_empty.
  - apply Habsent'. apply not_elem_of_empty.
Defined.

(** ** The interaction detector, version of lines 1-233 *)

Module DetectorInvariant.

Import LifeCycle UserActionCollection Detector.

(** One life-cycle event yields at most one change notification. *)
Lemma handle_cases pendingRequests event :
  (exists p, trackPageChanges_handle pendingRequests event = (p, [])) \/
  (exists p c, trackPageChanges_handle pendingRequests event = (p, [c])).
Proof.
  destruct event as [|entry|requestEvent]; cbn.
  - right. eauto.
  - unfold onPerformanceEntry.
    destruct (negb (String.eqb (entryType entry) "resource")); [left | right]; eauto.
  - unfold onRequest.
    destruct (RequestCollection.kind requestEvent); [right; eauto |].
    destruct (Js.mapDelete _ _) as [[|] p]; [right | left]; eauto.
Qed.

Lemma newUserAction_Inv now uuid n current :
  Inv uuid (newUserAction now uuid (Host.fresh n) current).
Proof.
  split; [reflexivity |].
  apply (Validating uuid _ (now + BUSY_DELAY)%Z); reflexivity.
Qed.

(** The subscriber leaves at most the idle timer it has just armed. *)
Lemma onChange_Inv uuid now change s p :
  Inv uuid s -> subscriptions s = Active ->
  Inv uuid (onChange now change (setPendingRequests p s)).
Proof.
  intros [Hid Hphase] Hsub.
  destruct s as [i v idle p0 sub [tb nh] ua j]. cbn in *. subst i sub.
  split.
  { unfold onChange. cbn. destruct (isBusy change); reflexivity. }
  assert (Hcleared :
    Host.table (Host.clearTimeout idle
                  (Host.clearTimeout (Some v)
                     {| Host.table := tb; Host.nextHandle := nh |})) = []
    /\ allExtended uuid j).
  { destruct Hphase as [d _ Hidle Hj Htb _ | pre T r dt _ Hj Hpre Htb
                        | at_ Hs | pre T r dt at_ Hs]; cbn in *; try discriminate.
    - subst. cbn. rewrite Nat.eqb_refl. cbn. split; [reflexivity | constructor].
    - split.
      + destruct Htb as [-> | (h & -> & ->)]; cbn.
        * destruct idle; reflexivity.
        * destruct (Nat.eqb h v); cbn; [reflexivity |].
          now rewrite Nat.eqb_refl.
      + subst j. apply Forall_app. split; [exact Hpre |]. repeat constructor. }
  destruct Hcleared as (Hcl & Hpre). clear Hphase.
  unfold onChange. cbn. cbn in Hcl.
  destruct (isBusy change); cbn.
  - apply (Open uuid _ j now (type change) (details change)); cbn; auto.
  - apply (Open uuid _ j now (type change) (details change)); cbn; auto.
    right. eexists. split; [reflexivity |]. now rewrite Hcl.
Qed.

Lemma deliver_Inv uuid now event s :
  Inv uuid s -> Inv uuid (deliver now event s).
Proof.
  intros H. unfold deliver.
  destruct (subscriptions s) eqn:Hsub; [| exact H].
  destruct (handle_cases (pendingRequests s) event) as [(p & ->) | (p & c & ->)]; cbn.
  - destruct H as [Hid Hphase]. destruct s; cbn in *. split; [exact Hid |].
    destruct Hphase as [d | pre T r dt | at_ | pre T r dt at_]; cbn in *;
      [ eapply Validating | eapply Open | eapply HasAborted | eapply HasEnded ];
      cbn; eauto.
  - now apply onChange_Inv.
Qed.

Ltac run_callback :=
  unfold onValidationTimeout, onIdleTimeout, clearTimeout, stop, notify,
    setUserActionId, setTimers, setIdleTimeoutId, setPendingRequests,
    Host.clearTimeout;
  cbn; rewrite ?Nat.eqb_refl; cbn.

(** A timer callback closes the interaction; an expiry for a handle that is
    not in the table does nothing. *)
Lemma expire_Inv uuid now h s :
  Inv uuid s -> Inv uuid (expire now h s).
Proof.
  intros [Hid Hphase]. unfold expire, Host.pending.
  destruct s as [i v idle p sub [tb nh] ua j]. cbn in *. subst i.
  destruct Hphase as [d Hs Hidle Hj Htb Hua | pre T r dt Hs Hj Hpre Htb
                      | at_ Hs Htb Hj Hua | pre T r dt at_ Hs Htb Hj Hpre Hua];
    cbn in *; subst.
  - cbn. destruct (Nat.eqb_spec v h) as [->|Hne]; cbn.
    + run_callback. split; [reflexivity |].
      apply (HasAborted uuid _ now); reflexivity.
    + split; [reflexivity |]. eapply Validating; cbn; eauto.
  - destruct Htb as [-> | (h' & -> & ->)]; cbn.
    + split; [reflexivity |]. eapply Open; cbn; eauto.
    + destruct (Nat.eqb_spec h' h) as [->|Hne]; cbn.
      * run_callback. split; [reflexivity |].
        apply (HasEnded uuid _ pre T r dt now); cbn; auto.
        now rewrite <- app_assoc.
      * split; [reflexivity |]. eapply Open; cbn; eauto.
  - split; [reflexivity |]. eapply HasAborted; cbn; eauto.
  - split; [reflexivity |]. eapply HasEnded; cbn; eauto.
Qed.

Lemma step_Inv uuid s i : Inv uuid s -> Inv uuid (step s i).
Proof. destruct i; [apply deliver_Inv | apply expire_Inv]. Qed.

Lemma run_Inv uuid inputs : forall s, Inv uuid s -> Inv uuid (run s inputs).
Proof.
  induction inputs as [|i inputs IH]; intros s H; [exact H |].
  apply IH, step_Inv, H.
Qed.

Lemma advance_Inv uuid until fuel : forall s, Inv uuid s -> Inv uuid (advance fuel until s).
Proof.
  induction fuel as [|fuel IH]; intros s H; cbn; [exact H |].
  destruct (Host.earliest _) as [t|]; [| exact H].
  destruct (Z.leb _ _); [| exact H].
  apply IH, expire_Inv, H.
Qed.

Lemma play_Inv uuid until events : forall s, Inv uuid s -> Inv uuid (play events until s).
Proof.
  induction events as [|[now event] events IH]; intros s H; cbn.
  - apply advance_Inv, H.
  - apply IH, deliver_Inv, advance_Inv, H.
Qed.

End DetectorInvariant.

(** ** The interaction detector, version of lines 234-398 *)

Module DetectorAsyncInvariant.

Import LifeCycle UserActionCollectionAsync DetectorAsync.

(** One life-cycle event yields at most one change notification. *)
Lemma handle_cases_async pendingRequests event :
  (exists p, trackPageChanges_handle pendingRequests event = (p, [])) \/
  (exists p c, trackPageChanges_handle pendingRequests event = (p, [c])).
Proof.
  destruct event as [|entry|requestEvent]; cbn; [right; eauto | right; eauto |].
  unfold onRequest.
  destruct (RequestCollection.kind requestEvent); [right; eauto |].
  destruct (Js.setDelete _ _) as [[|] p]; [right | left]; eauto.
Qed.

Lemma newUserAction_Inv_async now uuid n current :
  Inv uuid current (newUserAction now uuid (Host.fresh n) current).
Proof.
  split; [reflexivity |].
  apply (Validating uuid current _ (now + BUSY_DELAY)%Z); reflexivity.
Qed.

Lemma onChange_Inv_async uuid current now change s p :
  Inv uuid current s -> subscriptions s = Active ->
  Inv uuid current (onChange now change (setPendingRequests p s)).
Proof.
  intros [Hid Hphase] Hsub.
  destruct s as [i v idle p0 sub [tb nh] ua j]. cbn in *. subst i sub.
  split.
  { unfold onChange. cbn. destruct (isBusy change); reflexivity. }
  assert (Hcleared :
    Host.table (Host.clearTimeout idle
                  (Host.clearTimeout (Some v)
                     {| Host.table := tb; Host.nextHandle := nh |})) = []
    /\ j = []).
  { destruct Hphase as [d _ Hidle Hj Htb _ | T _ Hj _ Htb
                        | at_ Hs | T at_ Hs]; cbn in *; try discriminate.
    - subst. cbn. rewrite Nat.eqb_refl. cbn. split; reflexivity.
    - split; [| exact Hj].
      destruct Htb as [-> | (h & -> & ->)]; cbn.
      + destruct idle; reflexivity.
      + destruct (Nat.eqb h v); cbn; [reflexivity |].
        now rewrite Nat.eqb_refl. }
  destruct Hcleared as (Hcl & ->). clear Hphase.
  unfold onChange. cbn. cbn in Hcl.
  destruct (isBusy change); cbn.
  - apply (Open uuid current _ now); cbn; auto.
  - apply (Open uuid current _ now); cbn; auto.
    right. eexists. split; [reflexivity |]. now rewrite Hcl.
Qed.

Lemma deliver_Inv_async uuid current now event s :
  Inv uuid current s -> Inv uuid current (deliver now event s).
Proof.
  intros H. unfold deliver.
  destruct (subscriptions s) eqn:Hsub; [| exact H].
  destruct (handle_cases_async (pendingRequests s) event) as [(p & ->) | (p & c & ->)]; cbn.
  - destruct H as [Hid Hphase]. destruct s; cbn in *. split; [exact Hid |].
    destruct Hphase as [d | T | at_ | T at_]; cbn in *;
      [ eapply Validating | eapply Open | eapply HasAborted | eapply HasEnded ];
      cbn; eauto.
  - now apply onChange_Inv_async.
Qed.

Ltac run_callback_async :=
  unfold onValidationTimeout, onIdleTimeout, clearTimeout, stop, resolve,
    setUserActionId, setTimers, setIdleTimeoutId, setPendingRequests,
    Host.clearTimeout;
  cbn; rewrite ?Nat.eqb_refl; cbn.

Lemma expire_Inv_async uuid current now h s :
  Inv uuid current s -> Inv uuid current (expire now h s).
Proof.
  intros [Hid Hphase]. unfold expire, Host.pending.
  destruct s as [i v idle p sub [tb nh] ua j]. cbn in *. subst i.
  destruct Hphase as [d Hs Hidle Hj Htb Hua | T Hs Hj Hua Htb
                      | at_ Hs Htb Hj Hua | T at_ Hs Htb Hj Hua];
    cbn in *; subst.
  - cbn. destruct (Nat.eqb_spec v h) as [->|Hne]; cbn.
    + run_callback_async. split; [reflexivity |].
      apply (HasAborted uuid _ _ now); reflexivity.
    + split; [reflexivity |]. eapply Validating; cbn; eauto.
  - destruct Htb as [-> | (h' & -> & ->)]; cbn.
    + split; [reflexivity |]. apply (Open uuid _ _ T); cbn; auto.
    + destruct (Nat.eqb_spec h' h) as [->|Hne]; cbn.
      * run_callback_async. split; [reflexivity |].
        apply (HasEnded uuid _ _ T now); cbn; auto.
      * split; [reflexivity |]. apply (Open uuid _ _ T); cbn; eauto.
  - split; [reflexivity |]. eapply HasAborted; cbn; eauto.
  - split; [reflexivity |]. eapply HasEnded; cbn; eauto.
Qed.

Lemma run_Inv_async uuid current inputs :
  forall s, Inv uuid current s -> Inv uuid current (run s inputs).
Proof.
  induction inputs as [|i inputs IH]; intros s H; [exact H |].
  apply IH. destruct i; [apply deliver_Inv_async | apply expire_Inv_async]; exact H.
Qed.

End DetectorAsyncInvariant.

(** ** What the detector publishes *)

Module Journal.

Import UserActionCollection.

Lemma terminalIsLast_extended uuid pre tail :
  Detector.allExtended uuid pre ->
  terminalIsLast (map snd pre ++ tail) = terminalIsLast tail.
Proof.
  induction 1 as [|e pre [He _] _ IH]; cbn; [reflexivity |].
  now rewrite He.
Qed.

Lemma terminals_extended uuid pre tail :
  Detector.allExtended uuid pre ->
  List.filter isTerminal (map snd pre ++ tail) = List.filter isTerminal tail.
Proof.
  induction 1 as [|e pre [He _] _ IH]; cbn; [reflexivity |].
  now rewrite He.
Qed.

Lemma ids_extended uuid pre :
  Detector.allExtended uuid pre ->
  Forall (fun e => eventId e = uuid) (map snd pre).
Proof.
  induction 1 as [|e pre [_ He] _ IH]; cbn; constructor; assumption.
Qed.

Lemma lastActivityTime_snoc l i time reason details :
  lastActivityTime (l ++ [UserActionExtended i time reason details]) = Some time.
Proof. unfold lastActivityTime. now rewrite fold_left_app. Qed.

Lemma lastActivityTime_ended l i time :
  lastActivityTime (l ++ [UserActionEnded i time]) = lastActivityTime l.
Proof. unfold lastActivityTime. now rewrite fold_left_app. Qed.

(** The shape of the journal in every phase. *)
Lemma shape uuid s :
  Detector.Phase uuid s ->
  terminalIsLast (events s) = true /\
  length (List.filter isTerminal (events s)) <= 1 /\
  Forall (fun e => eventId e = uuid) (events s).
Proof.
  unfold events.
  intros [d _ _ Hj _ _ | pre T r dt _ Hj Hpre _
          | at_ _ _ Hj _ | pre T r dt at_ _ _ Hj Hpre _]; rewrite Hj.
  - cbn. repeat split; [lia | constructor].
  - rewrite map_app. cbn [map snd].
    rewrite (terminalIsLast_extended uuid), (terminals_extended uuid) by exact Hpre.
    cbn. repeat split; [lia |].
    apply Forall_app. split; [now apply ids_extended | repeat constructor].
  - cbn. repeat split; [lia | repeat constructor].
  - rewrite map_app. cbn [map snd].
    rewrite (terminalIsLast_extended uuid), (terminals_extended uuid) by exact Hpre.
    cbn. repeat split; [lia |].
    apply Forall_app. split; [now apply ids_extended | repeat constructor].
Qed.

(** An [Ended] event closes over the time of the last activity signal, and
    by then [userActionId] has been cleared. *)
Lemma ended uuid s at_ i time :
  Detector.Phase uuid s ->
  last (journal s) = Some (at_, UserActionEnded i time) ->
  i = uuid /\ lastActivityTime (events s) = Some time /\ userActionId s = None.
Proof.
  unfold events.
  intros [d _ _ Hj _ _ | pre T r dt _ Hj Hpre _
          | at' _ _ Hj _ | pre T r dt at' _ _ Hj Hpre Hua]; rewrite Hj.
  - discriminate.
  - rewrite last_snoc. discriminate.
  - discriminate.
  - change (pre ++ [(T, UserActionExtended uuid T r dt); (at', UserActionEnded uuid T)])
      with (pre ++ [(T, UserActionExtended uuid T r dt)] ++ [(at', UserActionEnded uuid T)]).
    rewrite app_assoc, last_snoc. intros [= <- <- <-].
    rewrite !map_app. cbn [map snd].
    rewrite lastActivityTime_ended, lastActivityTime_snoc. auto.
Qed.

End Journal.

(** Seen from one interaction, with every callback run to its end before
    the next (module [UserActionCollection]): whatever life-cycle events and
    timer expiries reach it, in any order and at any time, at most one
    terminal event (Aborted or Ended) is notified, nothing is notified after
    it, and every event carries the id of the interaction; in the version
    that resolves a promise, [resolve] is called at most once. *)
Lemma one_terminal_event_run
    (now : Z) (uuid : string) (n : nat) (current : option string)
    (inputs : list UserActionCollection.Input)
    (inputs' : list UserActionCollectionAsync.Input) :
  let s := UserActionCollection.run
             (UserActionCollection.newUserAction now uuid (Host.fresh n) current) inputs in
  let s' := UserActionCollectionAsync.run
              (UserActionCollectionAsync.newUserAction now uuid (Host.fresh n) current)
              inputs' in
  length (List.filter UserActionCollection.isTerminal (UserActionCollection.events s)) <= 1 /\
  UserActionCollection.terminalIsLast (UserActionCollection.events s) = true /\
  Forall (fun e => UserActionCollection.eventId e = uuid) (UserActionCollection.events s) /\
  length (UserActionCollectionAsync.resolutions s') <= 1.
Proof.
  intros s s'.
  destruct (DetectorInvariant.run_Inv uuid inputs _ (DetectorInvariant.newUserAction_Inv now uuid n current))
    as [_ Hphase].
  destruct (Journal.shape uuid s Hphase) as (Hlast & Hone & Hids).
  repeat split; try assumption.
  destruct (DetectorAsyncInvariant.run_Inv_async uuid current inputs' _
              (DetectorAsyncInvariant.newUserAction_Inv_async now uuid n current)) as [_ Hphase'].
  fold s' in Hphase'.
  destruct Hphase' as [d _ _ Hj | T _ Hj | at_ _ _ Hj | T at_ _ _ Hj]; rewrite Hj; cbn; lia.
Qed.

(** ** The validation timeout *)

Module Validation.

Import LifeCycle UserActionCollection.

Lemma settle_before now uuid n current t :
  (t < now + BUSY_DELAY)%Z ->
  settle t (newUserAction now uuid (Host.fresh n) current)
  = newUserAction now uuid (Host.fresh n) current.
Proof.
  intros H. unfold settle. cbn.
  destruct (Z.leb_spec (now + BUSY_DELAY) t); [lia | reflexivity].
Qed.

Lemma settle_after now uuid n current t :
  (now + BUSY_DELAY <= t)%Z ->
  settle t (newUserAction now uuid (Host.fresh n) current)
  = Detector.aborted (now + BUSY_DELAY) uuid n.
Proof.
  intros H. unfold settle. cbn.
  destruct (Z.leb_spec (now + BUSY_DELAY) t); [| lia].
  unfold expire, Host.pending. cbn. rewrite Nat.eqb_refl.
  unfold onValidationTimeout, clearTimeout, stop, notify, setTimers, Host.clearTimeout.
  cbn. rewrite Nat.eqb_refl. reflexivity.
Qed.

Lemma handle_silent pendingRequests event :
  snd (trackPageChanges_handle pendingRequests event) = [] ->
  trackPageChanges_handle pendingRequests event = (pendingRequests, []).
Proof.
  destruct event as [|entry|requestEvent]; cbn; [discriminate | |].
  - now intros ->.
  - unfold onRequest, Js.mapDelete.
    destruct (RequestCollection.kind requestEvent); [discriminate |].
    case_bool_decide as Hin; [discriminate |]. intros _.
    rewrite delete_id; [reflexivity |].
    destruct (pendingRequests !! _) eqn:E; [| reflexivity].
    exfalso. apply Hin. eauto.
Qed.

Lemma deliver_silent t event s :
  snd (trackPageChanges_handle (pendingRequests s) event) = [] ->
  deliver t event s = s.
Proof.
  intros H. unfold deliver. destruct (subscriptions s); [| reflexivity].
  rewrite (handle_silent _ _ H). cbn. now destruct s.
Qed.

Lemma play_aborted events until at_ uuid n :
  play events until (Detector.aborted at_ uuid n) = Detector.aborted at_ uuid n.
Proof.
  induction events as [|[t event] events IH]; cbn; [reflexivity | exact IH].
Qed.

Lemma play_without_activity now uuid n current events until :
  Forall (fun e => (fst e < now + BUSY_DELAY)%Z ->
                   snd (trackPageChanges_handle ∅ (snd e)) = []) events ->
  (now + BUSY_DELAY <= until)%Z ->
  play events until (newUserAction now uuid (Host.fresh n) current)
  = Detector.aborted (now + BUSY_DELAY) uuid n.
Proof.
  intros Hquiet Huntil.
  induction Hquiet as [|[t event] events Hev _ IH]; cbn [play].
  - now apply settle_after.
  - destruct (Z.lt_ge_cases t (now + BUSY_DELAY)) as [Hlt|Hge].
    + rewrite settle_before by exact Hlt.
      rewrite deliver_silent; [exact IH |]. cbn. now apply Hev.
    + rewrite settle_after by exact Hge.
      cbn. apply play_aborted.
Qed.

End Validation.

(** X25. Seen from one interaction, with timers run when they are due and
    every callback run to its end before the next: when no activity signal
    arrives before the validation timer is due ([BUSY_DELAY] after the
    click), the click handler publishes exactly one report, when the timer
    is due: it is named ["click ignored"], carries the start time and the
    content and element of the click, and has no duration; no [Extended]
    observation is published. *)
Theorem no_activity_click_ignored
    (getElementAsString : Element -> string)
    (now : Z) (target : option Element) (uuid : string) (n : nat)
    (current : option string)
    (events : list (Z * LifeCycle.LifeCycleEvent)) (until : Z) :
  let c := UserActionCollection.onClick getElementAsString now target uuid
             (Host.fresh n) current in
  Forall (fun e => (fst e < now + UserActionCollection.BUSY_DELAY)%Z ->
                   snd (UserActionCollection.trackPageChanges_handle ∅ (snd e)) = [])
         events ->
  (now + UserActionCollection.BUSY_DELAY <= until)%Z ->
  UserActionCollection.collected c
    (UserActionCollection.play events until (UserActionCollection.action c))
  = [ ((now + UserActionCollection.BUSY_DELAY)%Z,
       {| UserActionCollection.Report.startTime := now;
          UserActionCollection.Report.context :=
            {| UserActionCollection.Report.content := UserActionCollection.clickContent c;
               UserActionCollection.Report.element := UserActionCollection.clickElement c;
               UserActionCollection.Report.details := None;
               UserActionCollection.Report.reason := None |};
          UserActionCollection.Report.duration := None;
          UserActionCollection.Report.name := "click ignored";
          UserActionCollection.Report.userActionId := Some uuid;
          UserActionCollection.Report.id := None |}) ].
Proof.
  intros c Hquiet Huntil. unfold c, UserActionCollection.onClick.
  cbn [UserActionCollection.action].
  rewrite (Validation.play_without_activity now uuid n current events until Hquiet Huntil).
  reflexivity.
Qed.

(** A click on the sample button at 0, followed by two events that are no
    activity signal and by a DOM mutation at 150. *)
Lemma no_activity_click_ignored_witness :
  Forall (fun e => (fst e < 0 + UserActionCollection.BUSY_DELAY)%Z ->
                   snd (UserActionCollection.trackPageChanges_handle ∅ (snd e)) = [])
         sampleQuietEvents /\
  (0 + UserActionCollection.BUSY_DELAY <= 1000)%Z /\
  UserActionCollection.collected
    (UserActionCollection.onClick sampleSerializer 0 (Some sampleButton) sampleId
       (Host.fresh 1) None)
    (UserActionCollection.play sampleQuietEvents 1000
       (UserActionCollection.action
          (UserActionCollection.onClick sampleSerializer 0 (Some sampleButton) sampleId
             (Host.fresh 1) None)))
  = [ (100%Z,
       {| UserActionCollection.Report.startTime := 0;
          UserActionCollection.Report.context :=
            {| UserActionCollection.Report.content := Some "Save";
               UserActionCollection.Report.element := Some "<INPUT>";
               UserActionCollection.Report.details := None;
               UserActionCollection.Report.reason := None |};
          UserActionCollection.Report.duration := None;
          UserActionCollection.Report.name := "click ignored";
          UserActionCollection.Report.userActionId := Some sampleId;
          UserActionCollection.Report.id := None |}) ].
Proof.
  assert (Hquiet :
    Forall (fun e => (fst e < 0 + UserActionCollection.BUSY_DELAY)%Z ->
                     snd (UserActionCollection.trackPageChanges_handle ∅ (snd e)) = [])
           sampleQuietEvents).
  { repeat constructor; intros H; vm_compute in H |- *; congruence. }
  assert (Huntil : (0 + UserActionCollection.BUSY_DELAY <= 1000)%Z)
    by (vm_compute; discriminate).
  split; [exact Hquiet |]. split; [exact Huntil |].
  rewrite (no_activity_click_ignored sampleSerializer 0 (Some sampleButton) sampleId 1
             None sampleQuietEvents 1000 Hquiet Huntil).
  vm_compute. reflexivity.
Defined.

(** ** The completed report *)

Module Completion.

Import LifeCycle UserActionCollection.

Lemma ended_anywhere uuid s at_ i time :
  Detector.Phase uuid s ->
  In (at_, UserActionEnded i time) (journal s) ->
  lastActivityTime (events s) = Some time /\ userActionId s = None.
Proof.
  intros Hphase Hin.
  assert (Hpre : forall pre, Detector.allExtended uuid pre ->
                             ~ In (at_, UserActionEnded i time) pre).
  { intros pre Hpre Hin'. unfold Detector.allExtended in Hpre.
    rewrite List.Forall_forall in Hpre. destruct (Hpre _ Hin') as [Hterm _].
    discriminate Hterm. }
  destruct (Journal.ended uuid s at_ i time Hphase) as (_ & Hlast & Hua); [| now split].
  destruct Hphase as [d _ _ Hj _ _ | pre T r dt _ Hj Hext _
                      | at' _ _ Hj _ | pre T r dt at' _ _ Hj Hext _];
    rewrite Hj in Hin |- *.
  - destruct Hin.
  - apply in_app_or in Hin. destruct Hin as [Hin | [Hin | []]];
      [now apply Hpre in Hin | discriminate Hin].
  - destruct Hin as [Hin | []]. discriminate Hin.
  - apply in_app_or in Hin. destruct Hin as [Hin | [Hin | [Hin | []]]];
      [now apply Hpre in Hin | discriminate Hin |].
    rewrite Hin.
    change (pre ++ [(T, UserActionExtended uuid T r dt); (at_, UserActionEnded i time)])
      with (pre ++ [(T, UserActionExtended uuid T r dt)] ++ [(at_, UserActionEnded i time)]).
    now rewrite app_assoc, last_snoc.
Qed.

Lemma click_report_is_ended startTime content element e :
  Report.name (report startTime content element e) = "click" ->
  exists i time, e = UserActionEnded i time.
Proof. destruct e; cbn; try discriminate. eauto. Qed.

(** The first DOM mutation: the validation timer is cleared, the event is
    notified, and the idle timer is armed. *)
Lemma deliver_first now uuid n current t :
  deliver t DOM_MUTATED (newUserAction now uuid (Host.fresh n) current)
  = {| id := uuid; validationTimeoutId := n; idleTimeoutId := Some (S n);
       pendingRequests := ∅; subscriptions := Active;
       timers := {| Host.table := [ {| Host.handle := S n;
                                       Host.due := (t + IDLE_DELAY)%Z;
                                       Host.callback := IdleTimeout t |} ];
                    Host.nextHandle := S (S n) |};
       userActionId := Some uuid;
       journal := [(t, UserActionExtended uuid t "dom_mutated" None)] |}.
Proof.
  unfold deliver, newUserAction. cbn.
  unfold onChange, notifyChange. rewrite map_size_empty.
  unfold clearTimeout, setTimers, setIdleTimeoutId, setPendingRequests, notify,
    Host.clearTimeout, Host.setTimeout.
  cbn. rewrite Nat.eqb_refl. reflexivity.
Qed.


End Completion.


(** ** The page: what every run preserves *)

Module PageInvariant.

Import LifeCycle UserActionCollection Interactions Wellformed.

Lemma existsb_false {A : Type} (f : A -> bool) (l : list A) :
  existsb f l = false <-> forall x, In x l -> f x = false.
Proof.
  induction l as [|a l IH]; simpl.
  - split; [intros _ x []|reflexivity].
  - rewrite orb_false_iff, IH. split.
    + intros [Ha Hl] x [<-|Hx]; auto.
    + intros H. split; [apply H; now left|intros x Hx; apply H; now right].
Qed.

Lemma existsb_snoc {A : Type} (f : A -> bool) (l : list A) (a : A) :
  existsb f (l ++ [a]) = existsb f l || f a.
Proof. rewrite existsb_app. simpl. now rewrite orb_false_r. Qed.

Lemma Extends_refl i : Extends i i.
Proof. repeat split; reflexivity. Qed.

Lemma Extends_trans i j k : Extends i j -> Extends j k -> Extends i k.
Proof.
  intros (a1 & a2 & a3 & a4 & a5 & a6) (b1 & b2 & b3 & b4 & b5 & b6).
  repeat split; try congruence. etrans; eassumption.
Qed.

Lemma Later_refl p : Later p p.
Proof.
  split; [|auto]. intros k i Hi. exists i. split; [assumption|apply Extends_refl].
Qed.

Lemma Later_length p q : Later p q -> length (interactions p) <= length (interactions q).
Proof.
  intros [H _].
  destruct (decide (length (interactions p) <= length (interactions q))) as [|Hn]; [assumption|].
  exfalso.
  assert (Hlt : length (interactions q) < length (interactions p)) by lia.
  destruct (lookup_lt_is_Some_2 _ _ Hlt) as [i Hi].
  destruct (H _ _ Hi) as (i' & Hi' & _).
  apply lookup_lt_Some in Hi'. lia.
Qed.

Lemma Later_trans p q r : Later p q -> Later q r -> Later p r.
Proof.
  intros Hpq Hqr. pose proof (Later_length _ _ Hpq) as Hlen.
  destruct Hpq as [H1 H2], Hqr as [H3 H4]. split.
  - intros k i Hi. destruct (H1 _ _ Hi) as (j & Hj & Hij).
    destruct (H3 _ _ Hj) as (l & Hl & Hjl).
    exists l. split; [assumption|eapply Extends_trans; eassumption].
  - intros k Hk Hv. apply H4; [lia|]. now apply H2.
Qed.

Lemma Good_id : Good (fun p => p).
Proof. intros p H. split; [assumption|apply Later_refl]. Qed.

Lemma Good_compose f g : Good f -> Good g -> Good (fun p => g (f p)).
Proof.
  intros Hf Hg p H. destruct (Hf p H) as [H1 H2]. destruct (Hg _ H1) as [H3 H4].
  split; [assumption|eapply Later_trans; eassumption].
Qed.

Lemma Good_fold {A : Type} (f : Page -> A -> Page) (l : list A) :
  (forall a, Good (fun p => f p a)) -> Good (fun p => fold_left f l p).
Proof.
  intros Hf. induction l as [|a l IH]; simpl.
  - apply Good_id.
  - apply (Good_compose (fun p => f p a) (fun p => fold_left f l p)); auto.
Qed.

(** *** The timer table *)

Lemma In_clearTimeout h t p :
  In t (Host.table (timers (clearTimeout (Some h) p)))
  <-> In t (Host.table (timers p)) /\ Host.handle t <> h.
Proof.
  unfold clearTimeout, setTimers, Host.clearTimeout. simpl.
  rewrite filter_In, negb_true_iff, Nat.eqb_neq. reflexivity.
Qed.

Lemma In_clearTimeout_sub h t p :
  In t (Host.table (timers (clearTimeout h p))) -> In t (Host.table (timers p)).
Proof.
  destruct h as [h|]; [|exact (fun H => H)]. intros H. now apply In_clearTimeout in H.
Qed.

(** Fewer timers, the same interactions. *)
Lemma fewer_timers p q :
  interactions q = interactions p ->
  (forall t, In t (Host.table (timers q)) -> In t (Host.table (timers p))) ->
  Wf p -> Wf q /\ Later p q.
Proof.
  intros Hi Ht (W1 & W2 & W3).
  assert (Hv : forall k, validationPending k p = false -> validationPending k q = false).
  { intros k. unfold validationPending. rewrite !existsb_false. auto. }
  assert (Hd : forall k, idlePending k p = false -> idlePending k q = false).
  { intros k. unfold idlePending. rewrite !existsb_false. auto. }
  split; [split; [|split]|split].
  - intros t Hin. rewrite Hi. auto.
  - intros t k i Hin Hc Hk. rewrite Hi in Hk. eauto.
  - intros k i Hk Hp. rewrite Hi in Hk.
    destruct (validationPending k p) eqn:E.
    + destruct (W3 _ _ Hk E) as [Hj Hidle]. split; [assumption|]. now apply Hd.
    + rewrite (Hv _ E) in Hp. discriminate.
  - intros k i Hk. rewrite Hi. exists i. split; [assumption|apply Extends_refl].
  - intros k _. apply Hv.
Qed.

Lemma Good_clearTimeout h : Good (clearTimeout h).
Proof.
  intros p H. apply fewer_timers; [reflexivity| |assumption].
  intros t. apply In_clearTimeout_sub.
Qed.

Lemma Good_setUserActionId v : Good (setUserActionId v).
Proof.
  intros p H. apply fewer_timers; [reflexivity|auto|assumption].
Qed.

(** Once the handle an interaction keeps has been cleared, its validation
    timer is gone. *)
Lemma validation_cleared k i p :
  Wf p -> interactions p !! k = Some i ->
  validationPending k (clearTimeout (Some (validationTimeoutId i)) p) = false.
Proof.
  intros (_ & W2 & _) Hk. unfold validationPending. apply existsb_false.
  intros t Hin. apply In_clearTimeout in Hin. destruct Hin as [Hin Hne].
  unfold isValidationOf. destruct (Host.callback t) as [j c] eqn:Ec.
  destruct c; [|reflexivity].
  apply Nat.eqb_neq. intros ->. apply Hne. eapply W2; eassumption.
Qed.

(** *** Assignments to the variables of one interaction *)

Lemma lookup_update k f p j :
  interactions (update k f p) !! j
  = if decide (k = j) then f <$> interactions p !! k else interactions p !! j.
Proof. unfold update. simpl. apply list_lookup_alter. Qed.

Lemma update_same_journal k f p :
  (forall i, Extends i (f i) /\ journal (f i) = journal i) ->
  Wf p -> Wf (update k f p) /\ Later p (update k f p).
Proof.
  intros Hf (W1 & W2 & W3).
  split; [split; [|split]|split].
  - intros t Hin. unfold update. simpl. rewrite length_alter. now apply W1.
  - intros t j i Hin Hc Hj. rewrite lookup_update in Hj.
    destruct (decide (k = j)) as [->|Hne].
    + destruct (interactions p !! j) as [i0|] eqn:E; [|discriminate].
      simpl in Hj. injection Hj as <-.
      destruct (Hf i0) as [(_ & _ & _ & _ & Hv & _) _]. rewrite Hv. eapply W2; eassumption.
    + eapply W2; eassumption.
  - intros j i Hj Hp. rewrite lookup_update in Hj.
    change (validationPending j (update k f p)) with (validationPending j p) in Hp.
    change (idlePending j (update k f p)) with (idlePending j p).
    destruct (decide (k = j)) as [->|Hne].
    + destruct (interactions p !! j) as [i0|] eqn:E; [|discriminate].
      simpl in Hj. injection Hj as <-.
      destruct (Hf i0) as [_ ->]. now apply W3.
    + now apply W3.
  - intros j i Hj. rewrite lookup_update.
    destruct (decide (k = j)) as [->|Hne].
    + rewrite Hj. simpl. exists (f i). split; [reflexivity|apply Hf].
    + exists i. split; [assumption|apply Extends_refl].
  - intros j _ Hv. exact Hv.
Qed.

Lemma Good_stop k : Good (update k stop).
Proof.
  intros p. apply update_same_journal. intros i. split; [repeat split; reflexivity|reflexivity].
Qed.

Lemma Good_setPendingRequests k m : Good (update k (setPendingRequests m)).
Proof.
  intros p. apply update_same_journal. intros i. split; [repeat split; reflexivity|reflexivity].
Qed.

Lemma Good_setIdleTimeoutId k h : Good (update k (setIdleTimeoutId h)).
Proof.
  intros p. apply update_same_journal. intros i. split; [repeat split; reflexivity|reflexivity].
Qed.

(** Notifying is allowed once the validation timer is gone. *)
Lemma log_ok k e p :
  validationPending k p = false ->
  Wf p -> Wf (update k (log e) p) /\ Later p (update k (log e) p).
Proof.
  intros Hv (W1 & W2 & W3).
  split; [split; [|split]|split].
  - intros t Hin. unfold update. simpl. rewrite length_alter. now apply W1.
  - intros t j i Hin Hc Hj. rewrite lookup_update in Hj.
    destruct (decide (k = j)) as [->|Hne].
    + destruct (interactions p !! j) as [i0|] eqn:E; [|discriminate].
      simpl in Hj. injection Hj as <-. simpl. eapply W2; eassumption.
    + eapply W2; eassumption.
  - intros j i Hj Hp. rewrite lookup_update in Hj.
    change (validationPending j (update k (log e) p)) with (validationPending j p) in Hp.
    change (idlePending j (update k (log e) p)) with (idlePending j p).
    destruct (decide (k = j)) as [->|Hne].
    + rewrite Hv in Hp. discriminate.
    + now apply W3.
  - intros j i Hj. rewrite lookup_update.
    destruct (decide (k = j)) as [->|Hne].
    + rewrite Hj. simpl. exists (log e i). split; [reflexivity|].
      repeat split. simpl. now apply prefix_app_r.
    + exists i. split; [assumption|apply Extends_refl].
  - intros j _ H. exact H.
Qed.

(** Arming an idle timer is allowed once the validation timer is gone. *)
Lemma arm_ok k time delay now p :
  k < length (interactions p) ->
  validationPending k p = false ->
  Wf p ->
  let q := setTimers (snd (Host.setTimeout (k, IdleTimeout time) delay now (timers p))) p in
  Wf q /\ Later p q.
Proof.
  intros Hk Hv (W1 & W2 & W3) q.
  assert (Hin : forall t, In t (Host.table (timers q)) ->
                          In t (Host.table (timers p)) \/
                          Host.callback t = (k, IdleTimeout time)).
  { intros t. unfold q. simpl. rewrite in_app_iff. intros [H|[<-|[]]]; auto. }
  assert (Hval : forall j, validationPending j q = validationPending j p).
  { intros j. unfold validationPending, q. simpl.
    rewrite existsb_snoc. apply orb_false_r. }
  split; [split; [|split]|split].
  - intros t Ht. destruct (Hin _ Ht) as [H| ->]; [now apply W1|exact Hk].
  - intros t j i Ht Hc Hj. destruct (Hin _ Ht) as [H|H]; [|congruence].
    eapply W2; eassumption.
  - intros j i Hj Hp. rewrite Hval in Hp.
    destruct (W3 _ _ Hj Hp) as [Hjn Hidle]. split; [assumption|].
    unfold idlePending, q. simpl. rewrite existsb_snoc.
    unfold idlePending in Hidle. rewrite Hidle. unfold isIdleOf. simpl.
    apply Nat.eqb_neq. intros ->. congruence.
  - intros j i Hj. exists i. split; [assumption|apply Extends_refl].
  - intros j _ H. now rewrite Hval.
Qed.

Section Level.

Variable deeper : Z -> LifeCycleEvent -> Page -> Page.
Variable consumer : Consumer.
Hypothesis Good_deeper : forall now event, Good (deeper now event).

Lemma Good_collect n r : Good (collect deeper consumer n r).
Proof.
  unfold collect.
  apply (Good_fold (fun p e => deeper (fst e) (snd e) p)).
  intros e. apply Good_deeper.
Qed.

Lemma notify_ok now k event p i :
  interactions p !! k = Some i ->
  validationPending k p = false ->
  Wf p ->
  Wf (notify deeper consumer now k event p)
  /\ Later (update k (log (now, event)) p) (notify deeper consumer now k event p).
Proof.
  intros Hk Hv H. unfold notify. rewrite Hk.
  apply Good_collect. now apply log_ok.
Qed.

Lemma notify_later now k event p i :
  interactions p !! k = Some i ->
  validationPending k p = false ->
  Wf p ->
  Wf (notify deeper consumer now k event p)
  /\ Later p (notify deeper consumer now k event p)
  /\ validationPending k (notify deeper consumer now k event p) = false.
Proof.
  intros Hk Hv H. destruct (notify_ok now k event p i Hk Hv H) as [H1 H2].
  destruct (log_ok k (now, event) p Hv H) as [H3 H4].
  split; [assumption|]. split; [eapply Later_trans; eassumption|].
  destruct H2 as [_ H2]. apply H2; [|exact Hv].
  unfold update. simpl. rewrite length_alter. eapply lookup_lt_Some; eassumption.
Qed.

Lemma Good_onChange now k change : Good (onChange deeper consumer now k change).
Proof.
  intros p H. unfold onChange.
  destruct (interactions p !! k) as [i|] eqn:Hk; [|split; [assumption|apply Later_refl]].
  pose proof (validation_cleared k i p H Hk) as Hv1.
  destruct (Good_clearTimeout (Some (validationTimeoutId i)) p H) as [H1 L1].
  set (p1 := clearTimeout (Some (validationTimeoutId i)) p) in *.
  destruct (Good_clearTimeout (idleTimeoutId i) p1 H1) as [H2 L2].
  set (p2 := clearTimeout (idleTimeoutId i) p1) in *.
  assert (Hk2 : interactions p2 !! k = Some i) by exact Hk.
  assert (Hv2 : validationPending k p2 = false).
  { destruct L2 as [_ L2]. apply L2; [|exact Hv1]. eapply lookup_lt_Some; exact Hk. }
  destruct (notify_later now k (UserActionExtended (id i) now (type change) (details change))
              p2 i Hk2 Hv2 H2) as (H3 & L3 & Hv3).
  set (p3 := notify deeper consumer now k _ p2) in *.
  assert (L03 : Later p p3).
  { eapply Later_trans; [exact L1|]. eapply Later_trans; [exact L2|exact L3]. }
  destruct (negb (isBusy change)); [|split; assumption].
  assert (Hlen : k < length (interactions p3)).
  { pose proof (Later_length _ _ L03). apply lookup_lt_Some in Hk. lia. }
  destruct (arm_ok k now IDLE_DELAY now p3 Hlen Hv3 H3) as [H4 L4].
  destruct (Host.setTimeout (k, IdleTimeout now) IDLE_DELAY now (timers p3)) as [h t] eqn:Et.
  simpl in H4, L4.
  destruct (Good_setIdleTimeoutId k (Some h) _ H4) as [H5 L5].
  split; [assumption|].
  eapply Later_trans; [exact L03|]. eapply Later_trans; [exact L4|exact L5].
Qed.

Lemma Good_handle now event k : Good (fun p => handle deeper consumer now event p k).
Proof.
  intros p H. unfold handle.
  destruct (interactions p !! k) as [i|] eqn:Hk; [|split; [assumption|apply Later_refl]].
  destruct (subscriptions i); [|split; [assumption|apply Later_refl]].
  destruct (trackPageChanges_handle (pendingRequests i) event) as [pending changes].
  apply (Good_compose (update k (setPendingRequests pending))
           (fun p => fold_left (fun p change => onChange deeper consumer now k change p) changes p));
    [| |exact H].
  - apply Good_setPendingRequests.
  - apply (Good_fold (fun p change => onChange deeper consumer now k change p)).
    intros c. apply Good_onChange.
Qed.

Lemma Good_publish now event : Good (publish deeper consumer now event).
Proof.
  intros p H. unfold publish.
  apply (Good_fold (handle deeper consumer now event)); [|assumption].
  intros k. apply Good_handle.
Qed.

Lemma onValidationTimeout_ok now k p :
  validationPending k p = false -> Wf p ->
  Wf (onValidationTimeout deeper consumer now k p)
  /\ Later p (onValidationTimeout deeper consumer now k p).
Proof.
  intros Hv H. unfold onValidationTimeout.
  destruct (interactions p !! k) as [i|] eqn:Hk; [|split; [assumption|apply Later_refl]].
  destruct (notify_later now k (UserActionAborted (id i) now) p i Hk Hv H) as (H1 & L1 & _).
  destruct (Good_stop k _ H1) as [H2 L2].
  split; [assumption|eapply Later_trans; eassumption].
Qed.

Lemma onIdleTimeout_ok now time k p :
  validationPending k p = false -> Wf p ->
  Wf (onIdleTimeout deeper consumer now time k p)
  /\ Later p (onIdleTimeout deeper consumer now time k p).
Proof.
  intros Hv H. unfold onIdleTimeout.
  destruct (interactions p !! k) as [i|] eqn:Hk; [|now apply Good_setUserActionId].
  destruct (Good_stop k _ H) as [H1 L1].
  assert (Hk1 : interactions (update k stop p) !! k = Some (stop i)).
  { rewrite lookup_update. destruct (decide (k = k)); [|congruence]. now rewrite Hk. }
  destruct (notify_later now k (UserActionEnded (id i) time) _ _ Hk1 Hv H1) as (H2 & L2 & _).
  destruct (Good_setUserActionId None _ H2) as [H3 L3].
  split; [assumption|].
  eapply Later_trans; [exact L1|]. eapply Later_trans; [exact L2|exact L3].
Qed.

End Level.

Lemma Good_lifeCycleNotify consumer depth now event :
  Good (lifeCycleNotify consumer depth now event).
Proof.
  revert now event. induction depth as [|d IH]; intros now event; simpl.
  - apply Good_publish. intros _ _. apply Good_id.
  - apply Good_publish. exact IH.
Qed.

Lemma Good_inside consumer depth now event : Good (inside consumer depth now event).
Proof.
  destruct depth; simpl; [apply Good_id|apply Good_lifeCycleNotify].
Qed.

Lemma pending_In {C : Type} h (timers : Host.Timers C) t :
  Host.pending h timers = Some t -> In t (Host.table timers) /\ Host.handle t = h.
Proof.
  unfold Host.pending. intros H. apply find_some in H. destruct H as [H1 H2].
  split; [assumption|now apply Nat.eqb_eq].
Qed.

(** When a timer of an interaction runs, the validation timer of that
    interaction is no longer in the table. *)
Lemma validation_gone_at_expiry h t p :
  Wf p -> Host.pending h (timers p) = Some t ->
  validationPending (fst (Host.callback t)) (clearTimeout (Some h) p) = false.
Proof.
  intros H Hp. destruct (pending_In _ _ _ Hp) as [Hin Hh].
  pose proof H as (W1 & W2 & W3).
  destruct (Host.callback t) as [k c] eqn:Ec. simpl.
  destruct (lookup_lt_is_Some_2 (interactions p) k) as [i Hk].
  { specialize (W1 _ Hin). now rewrite Ec in W1. }
  destruct c as [|time].
  - assert (Hv : validationTimeoutId i = h).
    { rewrite <- Hh. symmetry. eapply W2; eassumption. }
    rewrite <- Hv. now apply validation_cleared.
  - destruct (Good_clearTimeout (Some h) p H) as [_ [_ L]].
    apply L; [eapply lookup_lt_Some; eassumption|].
    destruct (validationPending k p) eqn:E; [|reflexivity].
    destruct (W3 _ _ Hk E) as [_ Hidle].
    unfold idlePending in Hidle. rewrite existsb_false in Hidle.
    specialize (Hidle _ Hin). unfold isIdleOf in Hidle. rewrite Ec in Hidle.
    now rewrite Nat.eqb_refl in Hidle.
Qed.

Lemma Good_expire consumer depth now h : Good (expire consumer depth now h).
Proof.
  intros p H. unfold expire.
  destruct (Host.pending h (timers p)) as [t|] eqn:Hp; [|split; [assumption|apply Later_refl]].
  pose proof (validation_gone_at_expiry h t p H Hp) as Hv.
  destruct (Good_clearTimeout (Some h) p H) as [H1 L1].
  destruct (Host.callback t) as [k [|time]]; simpl in Hv.
  - destruct (onValidationTimeout_ok (inside consumer depth) consumer
                (Good_inside consumer depth) now k _ Hv H1) as [H2 L2].
    split; [assumption|eapply Later_trans; eassumption].
  - destruct (onIdleTimeout_ok (inside consumer depth) consumer
                (Good_inside consumer depth) now time k _ Hv H1) as [H2 L2].
    split; [assumption|eapply Later_trans; eassumption].
Qed.

Lemma Good_click getElementAsString now target uuid :
  Good (click getElementAsString now target uuid).
Proof.
  intros p (W1 & W2 & W3). unfold click. simpl.
  set (new := {| startTime := now; content := _; element := _; id := uuid;
                 validationTimeoutId := Host.nextHandle (timers p);
                 idleTimeoutId := None; pendingRequests := ∅;
                 subscriptions := Active; journal := [] |}).
  set (k := length (interactions p)).
  assert (Hfresh : forall t, In t (Host.table (timers p)) -> fst (Host.callback t) <> k).
  { intros t Hin. specialize (W1 _ Hin). unfold k. lia. }
  assert (Hval : forall j, j <> k ->
     existsb (isValidationOf j)
       (Host.table (timers p) ++
        [ {| Host.handle := Host.nextHandle (timers p); Host.due := (now + BUSY_DELAY)%Z;
             Host.callback := (k, ValidationTimeout) |} ])
     = validationPending j p).
  { intros j Hj. rewrite existsb_snoc. unfold isValidationOf at 2. simpl.
    replace (k =? j)%nat with false; [apply orb_false_r|].
    symmetry. apply Nat.eqb_neq. congruence. }
  split; [split; [|split]|split]; simpl.
  - intros t Hin. rewrite length_app. simpl. apply in_app_iff in Hin.
    destruct Hin as [Hin|[<-|[]]]; [specialize (W1 _ Hin); lia|simpl; unfold k; lia].
  - intros t j i Hin Hc Hj. apply in_app_iff in Hin.
    destruct Hin as [Hin|[<-|[]]].
    + assert (Hjk : j < k).
      { specialize (W1 _ Hin). rewrite Hc in W1. exact W1. }
      rewrite lookup_app_l in Hj by exact Hjk. eapply W2; eassumption.
    + simpl in Hc. injection Hc as <-.
      rewrite list_lookup_middle in Hj by reflexivity. injection Hj as <-. reflexivity.
  - intros j i Hj Hp. unfold validationPending, idlePending in *. simpl in *.
    destruct (decide (j = k)) as [->|Hne].
    + rewrite list_lookup_middle in Hj by reflexivity. injection Hj as <-.
      split; [reflexivity|].
      rewrite existsb_snoc, orb_false_r.
      apply existsb_false. intros t Hin. unfold isIdleOf.
      pose proof (Hfresh _ Hin) as Hf. destruct (Host.callback t) as [j c]. simpl in Hf.
      destruct c; [reflexivity|]. now apply Nat.eqb_neq.
    + rewrite (Hval _ Hne) in Hp.
      assert (Hjk : j < k).
      { apply lookup_lt_Some in Hj. rewrite length_app in Hj. simpl in Hj. unfold k. lia. }
      rewrite lookup_app_l in Hj by exact Hjk.
      destruct (W3 _ _ Hj Hp) as [Hjn Hidle]. split; [assumption|].
      rewrite existsb_snoc, orb_false_r.
      exact Hidle.
  - intros j i Hj. exists i. split; [|apply Extends_refl].
    now apply lookup_app_l_Some.
  - intros j Hj Hv. unfold validationPending in *. simpl.
    rewrite Hval; [exact Hv|unfold k; lia].
Qed.

Lemma Wf_freshPage : Wf freshPage.
Proof.
  split; [|split].
  - intros t [].
  - intros t k i [].
  - intros k i Hk. discriminate.
Qed.

Section Run.

Variable getElementAsString : Element -> string.
Variable consumer : Consumer.
Variable depth : nat.

Lemma Good_step task : Good (fun p => step getElementAsString consumer depth p task).
Proof.
  destruct task; simpl.
  - apply Good_click.
  - apply Good_lifeCycleNotify.
  - apply Good_expire.
Qed.

Lemma Good_run tasks : Good (fun p => run getElementAsString consumer depth p tasks).
Proof.
  unfold run. apply (Good_fold (step getElementAsString consumer depth)).
  apply Good_step.
Qed.

Lemma Wf_run tasks : Wf (run getElementAsString consumer depth freshPage tasks).
Proof. apply Good_run, Wf_freshPage. Qed.

End Run.

End PageInvariant.

Module PageFrame.

Import LifeCycle UserActionCollection Interactions Wellformed.

(** *** An interaction that has unsubscribed and has no timer left is never
    touched again *)

Lemma Keeps_id k i : Keeps k i (fun p => p).
Proof. intros p H. exact H. Qed.

Lemma Keeps_compose k i f g : Keeps k i f -> Keeps k i g -> Keeps k i (fun p => g (f p)).
Proof. intros Hf Hg p H. apply Hg, Hf, H. Qed.

Lemma Keeps_fold {A : Type} k i (f : Page -> A -> Page) (l : list A) :
  (forall a, Keeps k i (fun p => f p a)) -> Keeps k i (fun p => fold_left f l p).
Proof.
  intros Hf. induction l as [|a l IH]; simpl.
  - apply Keeps_id.
  - apply (Keeps_compose k i (fun p => f p a) (fun p => fold_left f l p)); auto.
Qed.

Lemma Keeps_clearTimeout k i h : Keeps k i (clearTimeout h).
Proof.
  intros p (H1 & H2 & H3). split; [exact H1|split; [exact H2|]].
  unfold timerPending in *. rewrite PageInvariant.existsb_false in *.
  intros t Hin. apply H3. eapply PageInvariant.In_clearTimeout_sub. exact Hin.
Qed.

Lemma Keeps_setUserActionId k i v : Keeps k i (setUserActionId v).
Proof. intros p H. exact H. Qed.

Lemma Keeps_update k i j f : j <> k -> Keeps k i (update j f).
Proof.
  intros Hne p (H1 & H2 & H3). split; [|split; [exact H2|exact H3]].
  rewrite PageInvariant.lookup_update. destruct (decide (j = k)); [contradiction|exact H1].
Qed.

Lemma Keeps_arm k i j c delay now :
  j <> k ->
  Keeps k i (fun p => setTimers (snd (Host.setTimeout (j, c) delay now (timers p))) p).
Proof.
  intros Hne p (H1 & H2 & H3). split; [exact H1|split; [exact H2|]].
  unfold timerPending in *. simpl. rewrite PageInvariant.existsb_snoc, H3. simpl.
  unfold isTimerOf. simpl. now apply Nat.eqb_neq.
Qed.

Section Level.

Variable deeper : Z -> LifeCycleEvent -> Page -> Page.
Variable consumer : Consumer.
Variables (k : nat) (i : Interaction).
Hypothesis Keeps_deeper : forall now event, Keeps k i (deeper now event).

Lemma Keeps_collect n r : Keeps k i (collect deeper consumer n r).
Proof.
  unfold collect. apply (Keeps_fold k i (fun p e => deeper (fst e) (snd e) p)).
  intros e. apply Keeps_deeper.
Qed.

Lemma Keeps_notify now j event : j <> k -> Keeps k i (notify deeper consumer now j event).
Proof.
  intros Hne p H. unfold notify.
  destruct (interactions p !! j) as [ij|]; [|exact H].
  apply Keeps_collect. now apply Keeps_update.
Qed.

Lemma Keeps_onChange now j change :
  j <> k -> Keeps k i (onChange deeper consumer now j change).
Proof.
  intros Hne p H. unfold onChange.
  destruct (interactions p !! j) as [ij|]; [|exact H].
  assert (H3 : Closed k i
            (notify deeper consumer now j
               (UserActionExtended (id ij) now (type change) (details change))
               (clearTimeout (idleTimeoutId ij)
                  (clearTimeout (Some (validationTimeoutId ij)) p)))).
  { apply Keeps_notify; [exact Hne|]. now do 2 apply Keeps_clearTimeout. }
  destruct (negb (isBusy change)); [|exact H3].
  pose proof (Keeps_arm k i j (IdleTimeout now) IDLE_DELAY now Hne _ H3) as H4.
  cbv beta in H4.
  destruct (Host.setTimeout (j, IdleTimeout now) IDLE_DELAY now _) as [h t].
  apply Keeps_update; [exact Hne|exact H4].
Qed.

Lemma Keeps_handle now event j : Keeps k i (fun p => handle deeper consumer now event p j).
Proof.
  intros p H. unfold handle.
  destruct (interactions p !! j) as [ij|] eqn:Hj; [|exact H].
  destruct (decide (j = k)) as [->|Hne].
  - destruct H as (H1 & H2 & H3). rewrite H1 in Hj. injection Hj as <-.
    rewrite H2. split; [exact H1|split; [exact H2|exact H3]].
  - destruct (subscriptions ij); [|exact H].
    destruct (trackPageChanges_handle (pendingRequests ij) event) as [pending changes].
    apply (Keeps_fold k i (fun p change => onChange deeper consumer now j change p)).
    + intros c. now apply Keeps_onChange.
    + now apply Keeps_update.
Qed.

Lemma Keeps_publish now event : Keeps k i (publish deeper consumer now event).
Proof.
  intros p H. unfold publish.
  apply (Keeps_fold k i (handle deeper consumer now event)); [|exact H].
  intros j. apply Keeps_handle.
Qed.

Lemma Keeps_onValidationTimeout now j :
  j <> k -> Keeps k i (onValidationTimeout deeper consumer now j).
Proof.
  intros Hne p H. unfold onValidationTimeout.
  destruct (interactions p !! j) as [ij|]; [|exact H].
  apply Keeps_update; [exact Hne|]. now apply Keeps_notify.
Qed.

Lemma Keeps_onIdleTimeout now time j :
  j <> k -> Keeps k i (onIdleTimeout deeper consumer now time j).
Proof.
  intros Hne p H. unfold onIdleTimeout. apply Keeps_setUserActionId.
  destruct (interactions p !! j) as [ij|]; [|exact H].
  apply Keeps_notify; [exact Hne|]. now apply Keeps_update.
Qed.

End Level.

Lemma Keeps_lifeCycleNotify consumer depth k i now event :
  Keeps k i (lifeCycleNotify consumer depth now event).
Proof.
  revert now event. induction depth as [|d IH]; intros now event; simpl.
  - apply Keeps_publish. intros _ _. apply Keeps_id.
  - apply Keeps_publish. exact IH.
Qed.

Lemma Keeps_inside consumer depth k i now event :
  Keeps k i (inside consumer depth now event).
Proof.
  destruct depth; simpl; [apply Keeps_id|apply Keeps_lifeCycleNotify].
Qed.

Lemma Keeps_expire consumer depth k i now h : Keeps k i (expire consumer depth now h).
Proof.
  intros p H. unfold expire.
  destruct (Host.pending h (timers p)) as [t|] eqn:Hp; [|exact H].
  destruct (PageInvariant.pending_In _ _ _ Hp) as [Hin _].
  assert (Hne : fst (Host.callback t) <> k).
  { destruct H as (_ & _ & H3). unfold timerPending in H3.
    rewrite PageInvariant.existsb_false in H3. specialize (H3 _ Hin).
    unfold isTimerOf in H3. now apply Nat.eqb_neq. }
  destruct (Host.callback t) as [j [|time]]; simpl in Hne.
  - apply Keeps_onValidationTimeout; [apply Keeps_inside|exact Hne|].
    now apply Keeps_clearTimeout.
  - apply Keeps_onIdleTimeout; [apply Keeps_inside|exact Hne|].
    now apply Keeps_clearTimeout.
Qed.

Lemma Keeps_click getElementAsString k i now target uuid :
  Keeps k i (click getElementAsString now target uuid).
Proof.
  intros p (H1 & H2 & H3). unfold click. simpl.
  split; [|split; [exact H2|]]; simpl.
  - now apply lookup_app_l_Some.
  - unfold timerPending in *. simpl. rewrite PageInvariant.existsb_snoc, H3. simpl.
    unfold isTimerOf. simpl. apply Nat.eqb_neq.
    apply lookup_lt_Some in H1. lia.
Qed.

Lemma Keeps_run getElementAsString consumer depth k i tasks :
  Keeps k i (fun p => run getElementAsString consumer depth p tasks).
Proof.
  unfold run. apply (Keeps_fold k i (step getElementAsString consumer depth)).
  intros [now target uuid|now event|now h]; simpl.
  - apply Keeps_click.
  - apply Keeps_lifeCycleNotify.
  - apply Keeps_expire.
Qed.

(** *** Who writes [userActionId] *)

Lemma SameId_fold {A : Type} (f : Page -> A -> Page) (l : list A) :
  (forall a, SameId (fun p => f p a)) -> SameId (fun p => fold_left f l p).
Proof.
  intros Hf. induction l as [|a l IH]; intros p; simpl; [reflexivity|].
  rewrite IH. apply Hf.
Qed.

Section LevelId.

Variable deeper : Z -> LifeCycleEvent -> Page -> Page.
Variable consumer : Consumer.
Hypothesis SameId_deeper : forall now event, SameId (deeper now event).

Lemma SameId_notify now k event : SameId (notify deeper consumer now k event).
Proof.
  intros p. unfold notify. destruct (interactions p !! k) as [i|]; [|reflexivity].
  unfold collect.
  rewrite (SameId_fold (fun p e => deeper (fst e) (snd e) p)); [reflexivity|].
  intros e. apply SameId_deeper.
Qed.

Lemma SameId_onChange now k change : SameId (onChange deeper consumer now k change).
Proof.
  intros p. unfold onChange. destruct (interactions p !! k) as [i|]; [|reflexivity].
  destruct (negb (isBusy change)).
  - destruct (Host.setTimeout _ _ _ _) as [h t]. simpl. now rewrite SameId_notify.
  - now rewrite SameId_notify.
Qed.

Lemma SameId_handle now event k : SameId (fun p => handle deeper consumer now event p k).
Proof.
  intros p. unfold handle. destruct (interactions p !! k) as [i|]; [|reflexivity].
  destruct (subscriptions i); [|reflexivity].
  destruct (trackPageChanges_handle (pendingRequests i) event) as [pending changes].
  rewrite (SameId_fold (fun p change => onChange deeper consumer now k change p));
    [reflexivity|].
  intros c. apply SameId_onChange.
Qed.

Lemma SameId_publish now event : SameId (publish deeper consumer now event).
Proof.
  intros p. unfold publish.
  apply (SameId_fold (handle deeper consumer now event)).
  intros k. apply SameId_handle.
Qed.

Lemma SameId_onValidationTimeout now k : SameId (onValidationTimeout deeper consumer now k).
Proof.
  intros p. unfold onValidationTimeout.
  destruct (interactions p !! k) as [i|]; [|reflexivity].
  simpl. now rewrite SameId_notify.
Qed.

End LevelId.

Lemma SameId_lifeCycleNotify consumer depth now event :
  SameId (lifeCycleNotify consumer depth now event).
Proof.
  revert now event. induction depth as [|d IH]; intros now event; simpl.
  - apply SameId_publish. intros _ _ p. reflexivity.
  - apply SameId_publish. exact IH.
Qed.

Lemma SameId_inside consumer depth now event : SameId (inside consumer depth now event).
Proof.
  destruct depth; simpl; [intros p; reflexivity|apply SameId_lifeCycleNotify].
Qed.

End PageFrame.

(** ** An interaction without activity *)

Module Ignored.

Import LifeCycle UserActionCollection Interactions Wellformed.

Lemma isTimerOf_cases k t : isTimerOf k t = isValidationOf k t || isIdleOf k t.
Proof.
  unfold isTimerOf, isValidationOf, isIdleOf.
  destruct (Host.callback t) as [j [|time]]; simpl; [now rewrite orb_false_r|reflexivity].
Qed.

Lemma timerPending_cases k p :
  timerPending k p = validationPending k p || idlePending k p.
Proof.
  unfold timerPending, validationPending, idlePending.
  induction (Host.table (timers p)) as [|t l IH]; simpl; [reflexivity|].
  rewrite IH, isTimerOf_cases.
  destruct (isValidationOf k t), (isIdleOf k t), (existsb (isValidationOf k) l); reflexivity.
Qed.

Lemma collect_at_rest consumer n r p : collect (fun _ _ p => p) consumer n r p = p.
Proof. unfold collect. induction (consumer n r) as [|e l IH]; simpl; auto. Qed.

Lemma collect_silent deeper consumer n r p :
  consumer n r = [] -> collect deeper consumer n r p = p.
Proof. unfold collect. now intros ->. Qed.

(** The page when the validation timer [h] of interaction [k] runs. *)
Lemma at_validation_timeout p h t k i :
  Wf p ->
  Host.pending h (timers p) = Some t ->
  Host.callback t = (k, ValidationTimeout) ->
  interactions p !! k = Some i ->
  journal i = [] /\
  Wf (clearTimeout (Some h) p) /\
  timerPending k (clearTimeout (Some h) p) = false.
Proof.
  intros H Hp Hc Hk. destruct (PageInvariant.pending_In _ _ _ Hp) as [Hin Hh].
  pose proof H as (W1 & W2 & W3).
  assert (Hv : validationPending k p = true).
  { unfold validationPending. apply existsb_exists. exists t. split; [exact Hin|].
    unfold isValidationOf. rewrite Hc. apply Nat.eqb_refl. }
  destruct (W3 _ _ Hk Hv) as [Hj Hidle].
  split; [exact Hj|]. split; [now apply PageInvariant.Good_clearTimeout|].
  rewrite timerPending_cases.
  pose proof (PageInvariant.validation_gone_at_expiry h t p H Hp) as Hgone.
  rewrite Hc in Hgone. simpl in Hgone. rewrite Hgone. simpl.
  unfold idlePending in *. rewrite PageInvariant.existsb_false in *.
  intros u Hu. apply Hidle. eapply PageInvariant.In_clearTimeout_sub. exact Hu.
Qed.

End Ignored.


(** ** One interaction, and nothing published from inside a notification *)

Module AloneFacts.

Import LifeCycle.

Lemma untag_setTimeout {C : Type} (k : nat) (cb : C) delay now (t : Host.Timers (nat * C)) :
  fst (Host.setTimeout (k, cb) delay now t) = fst (Host.setTimeout cb delay now (Alone.untag t)) /\
  Alone.untag (snd (Host.setTimeout (k, cb) delay now t))
  = snd (Host.setTimeout cb delay now (Alone.untag t)).
Proof.
  split; [reflexivity|]. unfold Alone.untag, Host.setTimeout. simpl.
  now rewrite map_app.
Qed.

Lemma untag_clearTimeout {C : Type} h (t : Host.Timers (nat * C)) :
  Alone.untag (Host.clearTimeout h t) = Host.clearTimeout h (Alone.untag t).
Proof.
  destruct h as [h|]; [|reflexivity].
  unfold Alone.untag, Host.clearTimeout. simpl. f_equal.
  induction (Host.table t) as [|u l IH]; simpl; [reflexivity|].
  destruct (negb (Host.handle u =? h)%nat); simpl; now rewrite IH.
Qed.

Lemma untag_pending {C : Type} h (t : Host.Timers (nat * C)) :
  Host.pending h (Alone.untag t)
  = option_map (fun t => {| Host.handle := Host.handle t; Host.due := Host.due t;
                            Host.callback := snd (Host.callback t) |})
               (Host.pending h t).
Proof.
  unfold Host.pending, Alone.untag. simpl.
  induction (Host.table t) as [|u l IH]; simpl; [reflexivity|].
  destruct (Host.handle u =? h)%nat; [reflexivity|exact IH].
Qed.

Section Observable.

Import UserActionCollection.

Variable consumer : Interactions.Consumer.

Lemma view_onChange now change p s :
  Alone.view p = Some s ->
  Alone.view (Interactions.onChange (fun _ _ p => p) consumer now 0 change p)
  = Some (onChange now change s).
Proof.
  destruct p as [cell l tm]. unfold Alone.view. simpl.
  destruct l as [|i [|]]; try discriminate. intros [= <-].
  unfold Interactions.onChange, onChange, Interactions.notify,
    setIdleTimeoutId, setTimers, notify, clearTimeout, setTimers.
  cbn -[Host.clearTimeout Alone.untag Interactions.collect].
  rewrite Ignored.collect_at_rest.
  destruct (negb (isBusy change));
    cbn -[Host.clearTimeout Alone.untag]; rewrite <- !untag_clearTimeout.
  - unfold Alone.untag. cbn -[Host.clearTimeout]. now rewrite map_app.
  - reflexivity.
Qed.

Lemma view_fold_onChange now changes p s :
  Alone.view p = Some s ->
  Alone.view (fold_left (fun p c => Interactions.onChange (fun _ _ p => p) consumer now 0 c p)
                changes p)
  = Some (fold_left (fun s c => onChange now c s) changes s).
Proof.
  revert p s. induction changes as [|c changes IH]; intros p s H; simpl; [exact H|].
  apply IH. now apply view_onChange.
Qed.

Lemma view_lifeCycleNotify now event p s :
  Alone.view p = Some s ->
  Alone.view (Interactions.lifeCycleNotify consumer 0 now event p) = Some (deliver now event s).
Proof.
  intros H. pose proof H as H0. revert H0.
  destruct p as [cell l tm]. unfold Alone.view at 1. simpl.
  destruct l as [|i [|]]; try discriminate. intros [= <-].
  unfold Interactions.publish, Interactions.handle, deliver. simpl.
  destruct (Interactions.subscriptions i) eqn:Es; [|exact H].
  destruct (trackPageChanges_handle (Interactions.pendingRequests i) event)
    as [pending changes].
  apply view_fold_onChange. unfold Alone.view. simpl. now rewrite Es.
Qed.

Lemma view_expire now h p s :
  (forall t, In t (Host.table (Interactions.timers p)) -> fst (Host.callback t) = 0) ->
  Alone.view p = Some s ->
  Alone.view (Interactions.expire consumer 0 now h p) = Some (expire now h s).
Proof.
  intros Htag.
  destruct p as [cell l tm]. unfold Alone.view at 1. simpl in *.
  destruct l as [|i [|]]; try discriminate. intros [= <-].
  unfold Interactions.expire, expire. simpl. rewrite untag_pending.
  destruct (Host.pending h tm) as [t|] eqn:Hp; simpl; [|reflexivity].
  destruct (PageInvariant.pending_In _ _ _ Hp) as [Hin _].
  specialize (Htag _ Hin). destruct (Host.callback t) as [k [|time]]; simpl in Htag; subst k.
  - unfold Interactions.onValidationTimeout, Interactions.notify,
      onValidationTimeout, clearTimeout, setTimers, stop, notify.
    cbn -[Host.clearTimeout Alone.untag Interactions.collect].
    rewrite Ignored.collect_at_rest. unfold Alone.view.
    cbn -[Host.clearTimeout Alone.untag]. now rewrite untag_clearTimeout.
  - unfold Interactions.onIdleTimeout, Interactions.notify,
      onIdleTimeout, clearTimeout, setTimers, stop, notify, setUserActionId.
    cbn -[Host.clearTimeout Alone.untag Interactions.collect].
    rewrite Ignored.collect_at_rest. unfold Alone.view.
    cbn -[Host.clearTimeout Alone.untag]. now rewrite untag_clearTimeout.
Qed.

Lemma tags_of_one p s :
  Wellformed.Wf p -> Alone.view p = Some s ->
  forall t, In t (Host.table (Interactions.timers p)) -> fst (Host.callback t) = 0.
Proof.
  intros (W1 & _) Hv t Hin. specialize (W1 _ Hin).
  unfold Alone.view in Hv.
  destruct (Interactions.interactions p) as [|i [|]]; try discriminate.
  simpl in W1. lia.
Qed.

Variable getElementAsString : Element -> string.

Lemma view_step p s input :
  Wellformed.Wf p -> Alone.view p = Some s ->
  Alone.view (Interactions.step getElementAsString consumer 0 p (Alone.task input))
  = Some (step s input).
Proof.
  intros Hwf Hv. destruct input as [now event|now h]; simpl.
  - now apply view_lifeCycleNotify.
  - apply view_expire; [|exact Hv]. now apply (tags_of_one p s).
Qed.

Lemma view_run inputs p s :
  Wellformed.Wf p -> Alone.view p = Some s ->
  Alone.view (Interactions.run getElementAsString consumer 0 p (map Alone.task inputs))
  = Some (run s inputs).
Proof.
  revert p s. induction inputs as [|input inputs IH]; intros p s Hwf Hv; simpl; [exact Hv|].
  apply IH; [|now apply view_step].
  apply (PageInvariant.Good_step getElementAsString consumer 0 (Alone.task input) p Hwf).
Qed.

End Observable.

Section Async.

Import UserActionCollectionAsync.

Lemma viewAsync_onChange now change p s :
  Alone.viewAsync p = Some s ->
  Alone.viewAsync (InteractionsAsync.onChange now 0 change p) = Some (onChange now change s).
Proof.
  destruct p as [cell l tm]. unfold Alone.viewAsync. simpl.
  destruct l as [|i [|]]; try discriminate. intros [= <-].
  unfold InteractionsAsync.onChange, onChange,
    setIdleTimeoutId, setTimers, clearTimeout, setTimers, setUserActionId.
  cbn -[Host.clearTimeout Alone.untag].
  destruct (negb (isBusy change));
    cbn -[Host.clearTimeout Alone.untag]; rewrite <- !AloneFacts.untag_clearTimeout.
  - unfold Alone.untag. cbn -[Host.clearTimeout]. now rewrite map_app.
  - reflexivity.
Qed.

Lemma viewAsync_fold_onChange now changes p s :
  Alone.viewAsync p = Some s ->
  Alone.viewAsync (fold_left (fun p c => InteractionsAsync.onChange now 0 c p) changes p)
  = Some (fold_left (fun s c => onChange now c s) changes s).
Proof.
  revert p s. induction changes as [|c changes IH]; intros p s H; simpl; [exact H|].
  apply IH. now apply viewAsync_onChange.
Qed.

Lemma viewAsync_lifeCycleNotify now event p s :
  Alone.viewAsync p = Some s ->
  Alone.viewAsync (InteractionsAsync.lifeCycleNotify now event p) = Some (deliver now event s).
Proof.
  intros H. pose proof H as H0. revert H0.
  destruct p as [cell l tm]. unfold Alone.viewAsync at 1. simpl.
  destruct l as [|i [|]]; try discriminate. intros [= <-].
  unfold InteractionsAsync.lifeCycleNotify, InteractionsAsync.handle, deliver. simpl.
  destruct (InteractionsAsync.subscriptions i) eqn:Es; [|exact H].
  destruct (trackPageChanges_handle (InteractionsAsync.pendingRequests i) event)
    as [pending changes].
  apply viewAsync_fold_onChange. unfold Alone.viewAsync. simpl. now rewrite Es.
Qed.

Lemma viewAsync_expire now h p s :
  Alone.viewAsync p = Some s ->
  (forall t, In t (Host.table (InteractionsAsync.timers p)) -> fst (Host.callback t) = 0) ->
  Alone.viewAsync (InteractionsAsync.expire now h p) = Some (expire now h s).
Proof.
  intros Hv Htag. revert Hv.
  destruct p as [cell l tm]. unfold Alone.viewAsync at 1. simpl in *.
  destruct l as [|i [|]]; try discriminate. intros [= <-].
  unfold InteractionsAsync.expire, expire. simpl. rewrite AloneFacts.untag_pending.
  destruct (Host.pending h tm) as [t|] eqn:Hp; simpl; [|reflexivity].
  destruct (PageInvariant.pending_In _ _ _ Hp) as [Hin _].
  specialize (Htag _ Hin). destruct (Host.callback t) as [k [|time]]; simpl in Htag; subst k.
  - unfold InteractionsAsync.onValidationTimeout,
      onValidationTimeout, clearTimeout, setTimers, stop, resolve.
    unfold Alone.viewAsync.
    cbn -[Host.clearTimeout Alone.untag]. now rewrite AloneFacts.untag_clearTimeout.
  - unfold InteractionsAsync.onIdleTimeout,
      onIdleTimeout, clearTimeout, setTimers, stop, resolve, setUserActionId.
    unfold Alone.viewAsync.
    cbn -[Host.clearTimeout Alone.untag]. now rewrite AloneFacts.untag_clearTimeout.
Qed.

Lemma WfAsync_fold {A : Type} (f : InteractionsAsync.Page -> A -> InteractionsAsync.Page)
    (l : list A) :
  (forall a p, Wellformed.WfAsync p -> Wellformed.WfAsync (f p a)) ->
  forall p, Wellformed.WfAsync p -> Wellformed.WfAsync (fold_left f l p).
Proof.
  intros Hf. induction l as [|a l IH]; intros p H; simpl; [exact H|].
  apply IH, Hf, H.
Qed.

Lemma WfAsync_clearTimeout h p :
  Wellformed.WfAsync p -> Wellformed.WfAsync (InteractionsAsync.clearTimeout h p).
Proof.
  intros H t Hin. apply H. destruct h as [h|]; [|exact Hin].
  unfold InteractionsAsync.clearTimeout in Hin. simpl in Hin.
  apply filter_In in Hin. tauto.
Qed.

Lemma WfAsync_update k f p :
  Wellformed.WfAsync p -> Wellformed.WfAsync (InteractionsAsync.update k f p).
Proof.
  intros H t Hin. unfold InteractionsAsync.update. simpl. rewrite length_alter. now apply H.
Qed.

Lemma WfAsync_onChange now k change p :
  Wellformed.WfAsync p -> Wellformed.WfAsync (InteractionsAsync.onChange now k change p).
Proof.
  intros H. unfold InteractionsAsync.onChange.
  destruct (InteractionsAsync.interactions p !! k) as [i|] eqn:Hk; [|exact H].
  assert (H2 : Wellformed.WfAsync
                 (InteractionsAsync.clearTimeout (InteractionsAsync.idleTimeoutId i)
                    (InteractionsAsync.clearTimeout
                       (Some (InteractionsAsync.validationTimeoutId i))
                       (InteractionsAsync.setUserActionId (Some (InteractionsAsync.id i)) p)))).
  { do 2 apply WfAsync_clearTimeout. exact H. }
  destruct (negb (isBusy change)); [|exact H2].
  destruct (Host.setTimeout _ _ _ _) as [h t] eqn:Et. injection Et as <- <-.
  apply WfAsync_update. intros t Hin. simpl in Hin. apply in_app_iff in Hin.
  destruct Hin as [Hin|[<-|[]]]; [now apply H2|].
  simpl. eapply lookup_lt_Some. exact Hk.
Qed.

Lemma WfAsync_lifeCycleNotify now event p :
  Wellformed.WfAsync p -> Wellformed.WfAsync (InteractionsAsync.lifeCycleNotify now event p).
Proof.
  unfold InteractionsAsync.lifeCycleNotify. apply WfAsync_fold.
  intros k q H. unfold InteractionsAsync.handle.
  destruct (InteractionsAsync.interactions q !! k) as [i|]; [|exact H].
  destruct (InteractionsAsync.subscriptions i); [|exact H].
  destruct (trackPageChanges_handle (InteractionsAsync.pendingRequests i) event)
    as [pending changes].
  apply WfAsync_fold; [|now apply WfAsync_update].
  intros c r. apply WfAsync_onChange.
Qed.

Lemma WfAsync_expire now h p :
  Wellformed.WfAsync p -> Wellformed.WfAsync (InteractionsAsync.expire now h p).
Proof.
  intros H. unfold InteractionsAsync.expire.
  destruct (Host.pending h (InteractionsAsync.timers p)) as [t|]; [|exact H].
  destruct (Host.callback t) as [k [|end_]].
  - do 2 apply WfAsync_update. now apply WfAsync_clearTimeout.
  - unfold InteractionsAsync.onIdleTimeout.
    apply (WfAsync_update k _ (InteractionsAsync.update k InteractionsAsync.stop _)).
    apply WfAsync_update. now apply WfAsync_clearTimeout.
Qed.

Lemma WfAsync_click getElementAsString now target uuid p :
  Wellformed.WfAsync p ->
  Wellformed.WfAsync (InteractionsAsync.click getElementAsString now target uuid p).
Proof.
  intros H t Hin. unfold InteractionsAsync.click in *. simpl in *.
  rewrite length_app. simpl. apply in_app_iff in Hin.
  destruct Hin as [Hin|[<-|[]]]; [specialize (H _ Hin); lia|simpl; lia].
Qed.

Lemma WfAsync_run getElementAsString tasks p :
  Wellformed.WfAsync p ->
  Wellformed.WfAsync (InteractionsAsync.run getElementAsString p tasks).
Proof.
  unfold InteractionsAsync.run. apply WfAsync_fold.
  intros [now target uuid|now event|now h] q H; simpl.
  - now apply WfAsync_click.
  - now apply WfAsync_lifeCycleNotify.
  - now apply WfAsync_expire.
Qed.

Variable getElementAsString : Element -> string.

Lemma viewAsync_run inputs p s :
  Wellformed.WfAsync p -> Alone.viewAsync p = Some s ->
  Alone.viewAsync (InteractionsAsync.run getElementAsString p (map Alone.taskAsync inputs))
  = Some (run s inputs).
Proof.
  revert p s. induction inputs as [|input inputs IH]; intros p s Hwf Hv; simpl; [exact Hv|].
  destruct input as [now event|now h]; simpl.
  - apply IH; [now apply WfAsync_lifeCycleNotify|now apply viewAsync_lifeCycleNotify].
  - apply IH; [now apply WfAsync_expire|].
    apply viewAsync_expire; [exact Hv|].
    intros t Hin. specialize (Hwf _ Hin). unfold Alone.viewAsync in Hv.
    destruct (InteractionsAsync.interactions p) as [|i [|]]; try discriminate.
    simpl in Hwf. lia.
Qed.

End Async.

End AloneFacts.

(** X26. A page with a single click, where nothing is published on the life
    cycle from inside a notification, is a run of [UserActionCollection]: the
    same variables, timers, journal and reports after the same events and
    timers; and so is a page of the other version with a single click. *)
Theorem single_interaction_run
    (getElementAsString : Element -> string) (consumer : Interactions.Consumer)
    (now : Z) (target : option Element) (uuid : string)
    (inputs : list UserActionCollection.Input)
    (inputs' : list UserActionCollectionAsync.Input) :
  let c := UserActionCollection.onClick getElementAsString now target uuid
             (Host.fresh 1) None in
  let p := Interactions.run getElementAsString consumer 0 Interactions.freshPage
             (Interactions.Click now target uuid :: map Alone.task inputs) in
  let q := InteractionsAsync.run getElementAsString InteractionsAsync.freshPage
             (InteractionsAsync.Click now target uuid :: map Alone.taskAsync inputs') in
  Alone.view p
  = Some (UserActionCollection.run (UserActionCollection.action c) inputs) /\
  Interactions.collectedOf 0 p
  = UserActionCollection.collected c
      (UserActionCollection.run (UserActionCollection.action c) inputs) /\
  Alone.viewAsync q
  = Some (UserActionCollectionAsync.run
            (UserActionCollectionAsync.newUserAction now uuid (Host.fresh 1) None) inputs').
Proof.
  intros c p q.
  set (p0 := Interactions.click getElementAsString now target uuid Interactions.freshPage).
  assert (Hwf0 : Wellformed.Wf p0).
  { apply PageInvariant.Good_click, PageInvariant.Wf_freshPage. }
  assert (Hv : Alone.view p
               = Some (UserActionCollection.run (UserActionCollection.action c) inputs)).
  { unfold p. simpl. fold p0.
    apply (AloneFacts.view_run consumer getElementAsString inputs p0 _ Hwf0). reflexivity. }
  split; [exact Hv|]. split.
  - set (s := UserActionCollection.run (UserActionCollection.action c) inputs) in *.
    destruct (PageInvariant.Good_run getElementAsString consumer 0 (map Alone.task inputs)
                p0 Hwf0) as [_ [L _]].
    destruct (L 0 _ eq_refl) as (i & Hi & E1 & E2 & E3 & _).
    change (Interactions.run getElementAsString consumer 0 p0 (map Alone.task inputs))
      with p in Hi.
    unfold Alone.view in Hv. unfold Interactions.collectedOf. rewrite Hi.
    destruct (Interactions.interactions p) as [|i' [|]]; try discriminate.
    simpl in Hi. injection Hi as ->. injection Hv as Hv.
    unfold UserActionCollection.collected. rewrite <- Hv. simpl. rewrite E1, E2, E3.
    apply map_ext. now intros [at_ e].
  - unfold q. simpl.
    apply (AloneFacts.viewAsync_run getElementAsString inputs'); [|reflexivity].
    apply AloneFacts.WfAsync_click. intros t [].
Qed.

(** C4, as amended. When the validation timer of an interaction runs (the
    host runs it at [click + BUSY_DELAY] or later, and only if no activity
    signal has cancelled it), the interaction has published no report; the
    callback then publishes the report named "click ignored", with the
    start time, content and element of the click, the id of the interaction
    and no duration. If nothing is published on the life cycle from inside
    that notification, it is the only report the interaction ever
    publishes. *)
Theorem validation_timeout_reports_ignored
    (getElementAsString : Element -> string) (consumer : Interactions.Consumer)
    (depth : nat) (tasks : list Interactions.Task)
    (now : Z) (h k : nat) (t : Host.Timer (nat * UserActionCollection.Callback))
    (i : Interactions.Interaction) :
  let p := Interactions.run getElementAsString consumer depth Interactions.freshPage tasks in
  let ignored :=
    {| UserActionCollection.Report.startTime := Interactions.startTime i;
       UserActionCollection.Report.context :=
         {| UserActionCollection.Report.content := Interactions.content i;
            UserActionCollection.Report.element := Interactions.element i;
            UserActionCollection.Report.details := None;
            UserActionCollection.Report.reason := None |};
       UserActionCollection.Report.duration := None;
       UserActionCollection.Report.name := "click ignored";
       UserActionCollection.Report.userActionId := Some (Interactions.id i);
       UserActionCollection.Report.id := None |} in
  Host.pending h (Interactions.timers p) = Some t ->
  Host.callback t = (k, UserActionCollection.ValidationTimeout) ->
  Interactions.interactions p !! k = Some i ->
  Interactions.collectedOf k p = [] /\
  (exists rest,
      Interactions.collectedOf k (Interactions.expire consumer depth now h p)
      = (now, ignored) :: rest) /\
  (depth = 0 \/ consumer (Interactions.published p) ignored = [] ->
   forall more,
     Interactions.collectedOf k
       (Interactions.run getElementAsString consumer depth
          (Interactions.expire consumer depth now h p) more)
     = [(now, ignored)]).
Proof.
  intros p ignored Hp Hc Hk.
  pose proof (PageInvariant.Wf_run getElementAsString consumer depth tasks) as H.
  fold p in H.
  destruct (Ignored.at_validation_timeout p h t k i H Hp Hc Hk) as (Hj & H1 & Hnone).
  set (p1 := Interactions.clearTimeout (Some h) p) in *.
  assert (Hk1 : Interactions.interactions p1 !! k = Some i) by exact Hk.
  assert (Hv1 : Interactions.validationPending k p1 = false).
  { rewrite Ignored.timerPending_cases in Hnone. now apply orb_false_iff in Hnone. }
  set (aborted := UserActionCollection.UserActionAborted (Interactions.id i) now).
  set (p2 := Interactions.update k (Interactions.log (now, aborted)) p1).
  assert (Hk2 : Interactions.interactions p2 !! k = Some (Interactions.log (now, aborted) i)).
  { unfold p2. rewrite PageInvariant.lookup_update.
    destruct (decide (k = k)); [|congruence]. now rewrite Hk1. }
  assert (Hexp : Interactions.expire consumer depth now h p
                 = Interactions.update k Interactions.stop
                     (Interactions.collect (Interactions.inside consumer depth) consumer
                        (Interactions.published p) ignored p2)).
  { unfold Interactions.expire. rewrite Hp, Hc.
    unfold Interactions.onValidationTimeout. fold p1. rewrite Hk1.
    unfold Interactions.notify. rewrite Hk1. reflexivity. }
  split; [|split].
  - unfold Interactions.collectedOf. now rewrite Hk, Hj.
  - destruct (PageInvariant.log_ok k (now, aborted) p1 Hv1 H1) as [H2 _]. fold p2 in H2.
    destruct (PageInvariant.Good_collect (Interactions.inside consumer depth) consumer
                (PageInvariant.Good_inside consumer depth)
                (Interactions.published p) ignored p2 H2) as [_ [L _]].
    destruct (L _ _ Hk2) as (i3 & Hk3 & E1 & E2 & E3 & E4 & _ & rest & Hrest).
    exists (map (fun e => (fst e,
                           UserActionCollection.report (Interactions.startTime i)
                             (Interactions.content i) (Interactions.element i) (snd e)))
                rest).
    rewrite Hexp. unfold Interactions.collectedOf.
    rewrite PageInvariant.lookup_update. destruct (decide (k = k)); [|congruence].
    rewrite Hk3. simpl. rewrite Hrest, E1, E2, E3. simpl. rewrite Hj. reflexivity.
  - intros Hquiet more.
    assert (Hrest : Interactions.collect (Interactions.inside consumer depth) consumer
                      (Interactions.published p) ignored p2 = p2).
    { destruct Hquiet as [-> | Hq];
        [apply Ignored.collect_at_rest|now apply Ignored.collect_silent]. }
    rewrite Hexp, Hrest.
    assert (Hclosed : Wellformed.Closed k
                        (Interactions.stop (Interactions.log (now, aborted) i))
                        (Interactions.update k Interactions.stop p2)).
    { split; [|split; [reflexivity|exact Hnone]].
      rewrite PageInvariant.lookup_update. destruct (decide (k = k)); [|congruence].
      now rewrite Hk2. }
    destruct (PageFrame.Keeps_run getElementAsString consumer depth k _ more _ Hclosed)
      as (Hfinal & _ & _).
    unfold Interactions.collectedOf. rewrite Hfinal. simpl. rewrite Hj. reflexivity.
Qed.

(** ** The current interaction id *)

Module CurrentId.

Import LifeCycle.

(** *** The version that resolves a promise (lines 234-398) *)

Section Async.

Import UserActionCollectionAsync InteractionsAsync Wellformed.

Lemma After_refl a q : After a q q.
Proof. split; reflexivity. Qed.

Lemma After_trans a q q' q'' : After a q q' -> After a q' q'' -> After a q q''.
Proof. intros [H1 H2] [H3 H4]. split; congruence. Qed.

Lemma After_update a f q : After a q (update a f q).
Proof.
  split; simpl; [apply length_alter|]. apply drop_alter_lt. lia.
Qed.

Lemma onChange_writes now a change q i :
  interactions q !! a = Some i ->
  let q' := onChange now a change q in
  After a q q' /\
  (exists i', interactions q' !! a = Some i' /\ id i' = id i) /\
  userActionId q' = Some (id i).
Proof.
  intros Hi. unfold onChange. rewrite Hi.
  destruct (negb (isBusy change)).
  - destruct (Host.setTimeout _ _ _ _) as [h t]. simpl. split; [|split].
    + split; simpl; [apply length_alter|apply drop_alter_lt; lia].
    + exists (setIdleTimeoutId (Some h) i). split; [|reflexivity].
      rewrite list_lookup_alter_eq. now rewrite Hi.
    + reflexivity.
  - simpl. split; [split; reflexivity|]. split; [|reflexivity]. now exists i.
Qed.

Lemma fold_onChange_writes now a changes q i :
  interactions q !! a = Some i ->
  let q' := fold_left (fun p change => onChange now a change p) changes q in
  After a q q' /\
  (exists i', interactions q' !! a = Some i' /\ id i' = id i) /\
  userActionId q' = match changes with
                    | [] => userActionId q
                    | _ :: _ => Some (id i)
                    end.
Proof.
  revert q i. induction changes as [|c changes IH]; intros q i Hi; simpl.
  - split; [apply After_refl|]. split; [now exists i|reflexivity].
  - destruct (onChange_writes now a c q i Hi) as (A1 & (i1 & Hi1 & Hid1) & U1).
    destruct (IH _ _ Hi1) as (A2 & (i2 & Hi2 & Hid2) & U2).
    split; [eapply After_trans; eassumption|].
    split; [exists i2; split; [assumption|congruence]|].
    rewrite U2. destruct changes; congruence.
Qed.

(** The call of the handlers of interaction [a]. *)
Lemma handle_writes now event q a i :
  interactions q !! a = Some i ->
  After a q (handle now event q a) /\
  userActionId (handle now event q a)
  = match subscriptions i with
    | Active =>
        match snd (trackPageChanges_handle (pendingRequests i) event) with
        | [] => userActionId q
        | _ :: _ => Some (id i)
        end
    | Unsubscribed => userActionId q
    end.
Proof.
  intros Hi. unfold handle. rewrite Hi.
  destruct (subscriptions i); [|split; [apply After_refl|reflexivity]].
  destruct (trackPageChanges_handle (pendingRequests i) event) as [pending changes]. simpl.
  assert (Hi' : interactions (update a (setPendingRequests pending) q) !! a
                = Some (setPendingRequests pending i)).
  { simpl. rewrite list_lookup_alter_eq. now rewrite Hi. }
  destruct (fold_onChange_writes now a changes _ _ Hi') as (A1 & _ & U1).
  split; [eapply After_trans; [apply After_update|exact A1]|exact U1].
Qed.

Lemma lifeCycleNotify_from now event n a q :
  a + n = length (interactions q) ->
  userActionId (fold_left (handle now event) (seq a n) q)
  = match last (omap (signalFor event) (drop a (interactions q))) with
    | Some i => Some i
    | None => userActionId q
    end.
Proof.
  revert a q. induction n as [|n IH]; intros a q Hlen; simpl.
  - rewrite drop_ge by lia. reflexivity.
  - destruct (lookup_lt_is_Some_2 (interactions q) a) as [i Hi]; [lia|].
    destruct (handle_writes now event q a i Hi) as ([L D] & U).
    rewrite IH by lia. rewrite D, U.
    rewrite (drop_S _ _ _ Hi). simpl. unfold signalFor at 2.
    destruct (subscriptions i); [|reflexivity].
    destruct (snd (trackPageChanges_handle (pendingRequests i) event)); [reflexivity|].
    rewrite last_cons. now destruct (last _).
Qed.

(** An event sets the id to that of the last interaction it is an
    activity signal for. *)
Lemma lifeCycleNotify_writes now event p :
  getUserActionId (lifeCycleNotify now event p)
  = match last (signalled event p) with
    | Some i => Some i
    | None => getUserActionId p
    end.
Proof.
  unfold getUserActionId, lifeCycleNotify, signalled.
  now rewrite (lifeCycleNotify_from now event (length (interactions p)) 0 p eq_refl).
Qed.

Lemma expire_writes now h p :
  getUserActionId (expire now h p)
  = match Host.pending h (timers p) with
    | Some t =>
        match snd (Host.callback t) with
        | ValidationTimeout => getUserActionId p
        | IdleTimeout _ => None
        end
    | None => getUserActionId p
    end.
Proof.
  unfold expire. destruct (Host.pending h (timers p)) as [t|]; [|reflexivity].
  now destruct (Host.callback t) as [k [|end_]].
Qed.

End Async.

(** *** The version that notifies every step (lines 1-233) *)

Section Observable.

Import UserActionCollection Interactions.

Lemma expire_writes_observable consumer depth now h p :
  getUserActionId (expire consumer depth now h p)
  = match Host.pending h (timers p) with
    | Some t =>
        match snd (Host.callback t) with
        | ValidationTimeout => getUserActionId p
        | IdleTimeout _ => None
        end
    | None => getUserActionId p
    end.
Proof.
  unfold expire, getUserActionId.
  destruct (Host.pending h (timers p)) as [t|]; [|reflexivity].
  destruct (Host.callback t) as [k [|time]]; [|reflexivity].
  simpl. rewrite PageFrame.SameId_onValidationTimeout; [reflexivity|].
  apply PageFrame.SameId_inside.
Qed.

End Observable.

End CurrentId.

(** C3, as amended. [userActionId] is one variable, written by every
    interaction. In the version that resolves a promise (lines 234-398) a
    click leaves it as it is; an event delivered on the life cycle sets it
    to the id of the last interaction that is subscribed and takes the event
    for an activity signal, and leaves it as it is when there is none; the
    validation callback leaves it as it is and the idle callback sets it to
    undefined. In the version that notifies every step (lines 1-233) a
    click sets it to the id of the new interaction, no event delivered on
    the life cycle writes it, and the idle callback sets it to undefined. *)
Theorem current_id_binding :
  (forall getElementAsString now target uuid p,
      InteractionsAsync.getUserActionId
        (InteractionsAsync.click getElementAsString now target uuid p)
      = InteractionsAsync.getUserActionId p) /\
  (forall now event p,
      InteractionsAsync.getUserActionId (InteractionsAsync.lifeCycleNotify now event p)
      = match last (InteractionsAsync.signalled event p) with
        | Some i => Some i
        | None => InteractionsAsync.getUserActionId p
        end) /\
  (forall now h p,
      InteractionsAsync.getUserActionId (InteractionsAsync.expire now h p)
      = match Host.pending h (InteractionsAsync.timers p) with
        | Some t =>
            match snd (Host.callback t) with
            | UserActionCollectionAsync.ValidationTimeout =>
                InteractionsAsync.getUserActionId p
            | UserActionCollectionAsync.IdleTimeout _ => None
            end
        | None => InteractionsAsync.getUserActionId p
        end) /\
  (forall getElementAsString now target uuid p,
      Interactions.getUserActionId (Interactions.click getElementAsString now target uuid p)
      = Some uuid) /\
  (forall consumer depth now event p,
      Interactions.getUserActionId (Interactions.lifeCycleNotify consumer depth now event p)
      = Interactions.getUserActionId p) /\
  (forall consumer depth now h p t time,
      Host.pending h (Interactions.timers p) = Some t ->
      snd (Host.callback t) = UserActionCollection.IdleTimeout time ->
      Interactions.getUserActionId (Interactions.expire consumer depth now h p) = None).
Proof.
  split; [reflexivity|].
  split; [apply CurrentId.lifeCycleNotify_writes|].
  split; [apply CurrentId.expire_writes|].
  split; [reflexivity|].
  split; [intros; apply PageFrame.SameId_lifeCycleNotify|].
  intros consumer depth now h p t time Hp Hc.
  rewrite CurrentId.expire_writes_observable, Hp, Hc. reflexivity.
Qed.

(** C3, as stated, fails in the version of lines 1-233: after a click the
    id is visible although the interaction has received no activity signal,
    and it is still set once the interaction is aborted. *)
Lemma current_id_binding_counterexample :
  let p := Interactions.run sampleSerializer Interactions.silent 0 Interactions.freshPage
             [Interactions.Click 0 (Some sampleButton) sampleId] in
  let q := Interactions.run sampleSerializer Interactions.silent 0 p
             [Interactions.Expire 100 1] in
  Interactions.eventsOf 0 p = [] /\
  Interactions.getUserActionId p <> None /\
  Interactions.eventsOf 0 q = [UserActionCollection.UserActionAborted sampleId 100] /\
  Interactions.getUserActionId q <> None.
Proof. cbv zeta. repeat split; vm_compute; discriminate. Qed.

(** C1 fails in the version of lines 1-233: the validation callback notifies
    [Aborted] before it calls [stop()]. A signal published on the life cycle
    from inside that notification reaches the interaction, which notifies
    [Extended] after its terminal event; when the signal is a DOM mutation
    the idle timer is armed as well, and a second terminal event, [Ended],
    follows. *)
Theorem aborted_is_not_last :
  let sent := Interactions.run sampleSerializer sampleSender 1 Interactions.freshPage
                [ Interactions.Click 0 (Some sampleButton) sampleId;
                  Interactions.Expire 100 1 ] in
  let mutated := Interactions.run sampleSerializer sampleMutator 1 Interactions.freshPage
                   [ Interactions.Click 0 (Some sampleButton) sampleId;
                     Interactions.Expire 100 1;
                     Interactions.Expire 200 2 ] in
  Interactions.eventsOf 0 sent
  = [ UserActionCollection.UserActionAborted sampleId 100;
      UserActionCollection.UserActionExtended sampleId 100 "request_start"
        (Some ["Url: https://x.test/a/b"]) ] /\
  UserActionCollection.terminalIsLast (Interactions.eventsOf 0 sent) = false /\
  Interactions.eventsOf 0 mutated
  = [ UserActionCollection.UserActionAborted sampleId 100;
      UserActionCollection.UserActionExtended sampleId 100 "dom_mutated" None;
      UserActionCollection.UserActionEnded sampleId 100 ] /\
  length (List.filter UserActionCollection.isTerminal (Interactions.eventsOf 0 mutated)) = 2.
Proof. cbv zeta. repeat split; vm_compute; reflexivity. Qed.

(** C4, as stated, fails when the host runs the validation timer late: no
    activity signal arrives within [BUSY_DELAY] of the click, but the DOM
    mutation at 103 finds the timer still pending and cancels it, and the
    click is reported as extended and then as a click, never as ignored. *)
Lemma late_validation_timer_counterexample :
  let p := Interactions.run sampleSerializer Interactions.silent 0 Interactions.freshPage
             sampleLateValidation in
  (0 + UserActionCollection.BUSY_DELAY <= 103)%Z /\
  map (fun r => (fst r, UserActionCollection.Report.name (snd r)))
      (Interactions.collectedOf 0 p)
  = [ (103%Z, "click extended"); (203%Z, "click") ] /\
  ~ In "click ignored"
       (map (fun r => UserActionCollection.Report.name (snd r))
            (Interactions.collectedOf 0 p)).
Proof.
  cbv zeta. split; [vm_compute; discriminate|]. split; [vm_compute; reflexivity|].
  vm_compute. intros [H|[H|[]]]; discriminate.
Qed.

(** A click on the sample button at 0, two events that are no activity
    signal, and the validation timer run at 104 under a subscriber that
    sends its reports at once: the report comes first, and the request the
    subscriber starts extends the interaction after it. *)
Lemma validation_timeout_reports_ignored_witness :
  let p := Interactions.run sampleSerializer sampleSender 1 Interactions.freshPage
             sampleQuietTasks in
  Host.pending 1 (Interactions.timers p) = Some sampleValidationTimer /\
  Interactions.interactions p !! 0 = Some sampleInteraction /\
  Interactions.collectedOf 0 p = [] /\
  (exists rest,
      Interactions.collectedOf 0 (Interactions.expire sampleSender 1 104 1 p)
      = (104%Z, sampleIgnoredReport) :: rest).
Proof.
  cbv zeta.
  assert (Hp : Host.pending 1
                 (Interactions.timers
                    (Interactions.run sampleSerializer sampleSender 1 Interactions.freshPage
                       sampleQuietTasks))
               = Some sampleValidationTimer) by (vm_compute; reflexivity).
  assert (Hk : Interactions.interactions
                 (Interactions.run sampleSerializer sampleSender 1 Interactions.freshPage
                    sampleQuietTasks) !! 0
               = Some sampleInteraction) by (vm_compute; reflexivity).
  split; [exact Hp|]. split; [exact Hk|].
  destruct (validation_timeout_reports_ignored sampleSerializer sampleSender 1
              sampleQuietTasks 104 1 0 sampleValidationTimer sampleInteraction
              Hp eq_refl Hk) as (H1 & H2 & _).
  split; [exact H1|exact H2].
Defined.

(** X17. The validation callback never writes [userActionId], whatever is
    published from inside its notification: the variable holds after the
    callback what it held before, so the id a click has set is still there
    after the [Aborted] event of that click unless another interaction has
    written the variable in between. *)
Theorem aborted_keeps_current_id
    (consumer : Interactions.Consumer) (depth : nat) (now : Z) (h : nat)
    (p : Interactions.Page) (t : Host.Timer (nat * UserActionCollection.Callback)) :
  Host.pending h (Interactions.timers p) = Some t ->
  snd (Host.callback t) = UserActionCollection.ValidationTimeout ->
  Interactions.getUserActionId (Interactions.expire consumer depth now h p)
  = Interactions.getUserActionId p.
Proof.
  intros Hp Hc. rewrite CurrentId.expire_writes_observable, Hp, Hc. reflexivity.
Qed.

(** A click on the sample button, aborted at 100 under a subscriber that
    sends its reports at once. *)
Lemma aborted_keeps_current_id_witness :
  let p := Interactions.run sampleSerializer sampleSender 1 Interactions.freshPage
             [Interactions.Click 0 (Some sampleButton) sampleId] in
  Host.pending 1 (Interactions.timers p) = Some sampleValidationTimer /\
  Interactions.getUserActionId (Interactions.expire sampleSender 1 100 1 p) = Some sampleId.
Proof.
  cbv zeta. split; [vm_compute; reflexivity|].
  rewrite (aborted_keeps_current_id sampleSender 1 100 1 _ sampleValidationTimer);
    [reflexivity|vm_compute; reflexivity|reflexivity].
Defined.

(** Two interactions of the version of lines 234-398 share the variable:
    the first click receives a DOM mutation at 20 and sets the id; the
    second click at 30 receives nothing; the idle timer of the first
    (handle 2) clears the id at 120, and the second is aborted at 130
    (handle 3) with the id undefined, not what it was at its click. *)
Lemma shared_id_example :
  let p := InteractionsAsync.run sampleSerializer InteractionsAsync.freshPage sampleTwoClicks in
  let q := InteractionsAsync.run sampleSerializer p
             [InteractionsAsync.Expire 120 2; InteractionsAsync.Expire 130 3] in
  InteractionsAsync.getUserActionId p = Some sampleId /\
  map (fun r => UserActionCollectionAsync.Report.name (snd r))
      (InteractionsAsync.collectedOf 1 q) = ["click ignored"] /\
  InteractionsAsync.getUserActionId q = None.
Proof. cbv zeta. repeat split; vm_compute; reflexivity. Qed.

(** ** The scenario of the completed report *)


(** The version of lines 234-398 on the same scenario: the promise settles
    at 120 with the time of the last activity signal, and the report has
    duration 20 as well. *)
Lemma completed_duration_async_example :
  UserActionCollectionAsync.collected 0 (Some "Save") (Some "<INPUT>")
    (UserActionCollectionAsync.play [(20%Z, LifeCycle.DOM_MUTATED)] 120
       (UserActionCollectionAsync.newUserAction 0 sampleId (Host.fresh 1) None))
  = [ (120%Z,
       {| UserActionCollectionAsync.Report.startTime := 0;
          UserActionCollectionAsync.Report.context :=
            {| UserActionCollectionAsync.Report.content := Some "Save";
               UserActionCollectionAsync.Report.element := Some "<INPUT>" |};
          UserActionCollectionAsync.Report.duration := Some 20%Z;
          UserActionCollectionAsync.Report.id := Some sampleId;
          UserActionCollectionAsync.Report.name := "click" |}) ].
Proof. vm_compute. reflexivity. Qed.

(** * Further properties *)

(** ** Content of the clicked element *)

Module ContentFacts.

Lemma truthy_length (s : string) : Js.truthy s = true <-> 0 < String.length s.
Proof. destruct s; cbn; split; intros H; try discriminate; try lia; reflexivity. Qed.

Lemma trimStart_first (s : string) : Text.startsBlank (Js.trimStart s) = false.
Proof.
  induction s as [|c s IH]; cbn; [reflexivity |].
  destruct (Js.isWhiteSpace c) eqn:E; [exact IH |].
  unfold Text.startsBlank. cbn. exact E.
Qed.

Lemma trimEnd_first (s : string) :
  Text.startsBlank s = false -> Text.startsBlank (Js.trimEnd s) = false.
Proof.
  destruct s as [|c s]; cbn; [reflexivity |].
  unfold Text.startsBlank. cbn. intros E.
  destruct (Js.trimEnd s); cbn; [rewrite E; cbn |]; exact E.
Qed.

Lemma trim_first (s : string) : Text.startsBlank (Js.trim s) = false.
Proof. apply trimEnd_first, trimStart_first. Qed.

Lemma slice0_first (n : nat) (s : string) : Text.first (Js.slice0 (S n) s) = Text.first s.
Proof. destruct s; reflexivity. Qed.

Lemma strLengthLimit_first (s : string) : Text.first (strLengthLimit s) = Text.first s.
Proof.
  destruct s as [|c s]; [reflexivity |].
  unfold strLengthLimit.
  destruct (Nat.ltb 400 (String.length (String c s))); reflexivity.
Qed.

Lemma strLengthLimit_truthy (s : string) :
  Js.truthy s = true -> Js.truthy (strLengthLimit s) = true.
Proof.
  intros H. destruct s as [|c s]; [discriminate |].
  assert (Hf := strLengthLimit_first (String c s)).
  destruct (strLengthLimit (String c s)); [discriminate | reflexivity].
Qed.

Lemma slice0_append (a b : string) (n : nat) :
  String.length a = n -> Js.slice0 n (a +:+ b) = a.
Proof.
  unfold Js.slice0. revert n.
  induction a as [|c a IH]; intros n <-.
  - now destruct b.
  - change (String c (substring 0 (String.length a) (a +:+ b)) = String c a).
    f_equal. now apply IH.
Qed.

(** What the loop returns over two iterators one after the other. *)
Lemma loop_app (a b : list (option string)) :
  getElementContent_loop (a ++ b)
  = match getElementContent_loop a with
    | Some r => Some r
    | None => getElementContent_loop b
    end.
Proof.
  induction a as [|[c|] a IH]; cbn; [reflexivity | | exact IH].
  destruct (Js.truthy (Js.trim c)); [reflexivity | exact IH].
Qed.

End ContentFacts.

(** X1. A content returned by [getElementContent] is never the empty string
    and never starts with white space. *)
Theorem getElementContent_not_blank (element : Element) (r : string) :
  getElementContent element = Some r ->
  Js.truthy r = true /\ Text.startsBlank r = false.
Proof.
  unfold getElementContent. rewrite loop_find.
  destruct (List.find ContentSpec.nonBlank (iterateContentCandidates element))
    as [[c|]|] eqn:E; try discriminate.
  intros [= <-]. apply List.find_some in E. destruct E as [_ E]. cbn in E.
  split; [now apply ContentFacts.strLengthLimit_truthy |].
  unfold Text.startsBlank. rewrite ContentFacts.strLengthLimit_first.
  apply ContentFacts.trim_first.
Qed.

(** The sample button yields ["Save"]. *)
Lemma getElementContent_not_blank_witness :
  getElementContent sampleButton = Some "Save" /\
  Js.truthy "Save" = true /\ Text.startsBlank "Save" = false.
Proof.
  split; [vm_compute; reflexivity |].
  apply (getElementContent_not_blank sampleButton "Save"). vm_compute; reflexivity.
Defined.

(** X2. When none of an element's own candidates has content, its content
    is the content of its parent, and [undefined] when it has no parent. *)
Theorem getElementContent_falls_back (element : Element) :
  getElementContent_loop (ContentSpec.ownCandidates element) = None ->
  getElementContent element
  = match parentElement element with
    | Some parent => getElementContent parent
    | None => None
    end.
Proof.
  intros H. unfold getElementContent.
  rewrite iterateContentCandidates_own, ContentFacts.loop_app, H.
  now destruct (parentElement element).
Qed.

(** A blank button inside a titled form. *)
Lemma getElementContent_falls_back_witness :
  getElementContent_loop (ContentSpec.ownCandidates sampleBlankButton) = None /\
  getElementContent sampleBlankButton = Some "Settings".
Proof.
  assert (H : getElementContent_loop (ContentSpec.ownCandidates sampleBlankButton) = None)
    by (vm_compute; reflexivity).
  split; [exact H |].
  rewrite (getElementContent_falls_back sampleBlankButton H).
  vm_compute. reflexivity.
Defined.

(** X3. When one of an element's own candidates has content, the ancestors
    are not consulted: the content is the same under any parent. *)
Theorem getElementContent_own_first
    (tag : string) (text : option string) (v : string)
    (attrs : gmap string string) (parent parent' : option Element) (r : string) :
  getElementContent (mkElement tag text v attrs parent) = Some r ->
  getElementContent_loop
    (ContentSpec.ownCandidates (mkElement tag text v attrs parent)) <> None ->
  getElementContent (mkElement tag text v attrs parent') = Some r.
Proof.
  unfold getElementContent.
  rewrite !iterateContentCandidates_own, !ContentFacts.loop_app.
  change (ContentSpec.ownCandidates (mkElement tag text v attrs parent'))
    with (ContentSpec.ownCandidates (mkElement tag text v attrs parent)).
  destruct (getElementContent_loop
              (ContentSpec.ownCandidates (mkElement tag text v attrs parent)));
    [auto | congruence].
Qed.

(** The sample button keeps its content when taken out of its form. *)
Lemma getElementContent_own_first_witness :
  getElementContent sampleButton = Some "Save" /\
  getElementContent
    (mkElement "INPUT" (Some "  ") " Save " {[ "type" := "submit" ]} None)
  = Some "Save".
Proof.
  split; [vm_compute; reflexivity |].
  apply (getElementContent_own_first "INPUT" (Some "  ") " Save "
           {[ "type" := "submit" ]}
           (Some (mkElement "FORM" None "" {[ "title" := "Settings" ]} None)) None).
  - vm_compute. reflexivity.
  - vm_compute. discriminate.
Defined.

(** X4. [strLengthLimit] leaves a string of at most 400 characters as it is
    and turns any longer one into exactly 406 characters that begin with its
    first 400: a string of 401 to 405 characters comes out longer than it
    went in. *)
Theorem strLengthLimit_exact (s : string) :
  (String.length s <= 400 -> strLengthLimit s = s) /\
  (400 < String.length s ->
   String.length (strLengthLimit s) = 406 /\
   Js.slice0 400 (strLengthLimit s) = Js.slice0 400 s).
Proof.
  split; [apply strLengthLimit_short |].
  intros H. rewrite strLengthLimit_long by exact H. split.
  - rewrite length_append, length_slice0 by lia. reflexivity.
  - apply ContentFacts.slice0_append. rewrite length_slice0; lia.
Qed.

(** ** Request tracking *)

Section FetchFacts.

Import RequestCollection RequestCollection.Fetch.

Variables (Err StackTrace : Type).
Variable computeStackTrace : Err -> StackTrace.
Variable toStackTraceString : StackTrace -> string.
Variable normalizeUrl : string -> string.
Variable getTraceId : option Z.
Variable originalFetch : RequestInfo -> option RequestInit -> Promise Err.

(** X7. The [End] event of a [fetch] whose promise rejects is classified as
    rejected and not as a server error; the [End] event of a fulfilled
    opaque response is never classified as rejected, whatever its status. *)
Theorem fetch_outcome_classified now settledAt requestId input init :
  exists ended : RequestEvent,
    onSettled Err
      (fetch Err StackTrace computeStackTrace toStackTraceString normalizeUrl
         getTraceId originalFetch now requestId input init) settledAt
    = [ended] /\
    match settlement (originalFetch input init) with
    | Rejected _ =>
        isRejected (details ended) = true /\ isServerError (details ended) = false
    | Fulfilled r =>
        (responseKind r = "opaque" -> isRejected (details ended) = false) /\
        isServerError (details ended) = Z.leb 500 (responseStatus r)
    end.
Proof.
  unfold fetch; cbn.
  destruct (settlement (originalFetch input init)) as [r|error]; cbn;
    eexists; (split; [reflexivity |]); cbn.
  - split; [| reflexivity]. intros ->. cbn. apply andb_false_r.
  - split; reflexivity.
Qed.

End FetchFacts.

Module XhrFacts.

Import RequestCollection Xhr.

Lemma reuse_listeners normalizeUrl uses :
  forall this this' published,
    reuse normalizeUrl uses this = Some (this', published) ->
    map reportRequestId (loadendListeners this')
    = map reportRequestId (loadendListeners this) ++ map useRequestId uses /\
    map requestId published = map useRequestId uses /\
    Forall (fun e => kind e = Start) published.
Proof.
  induction uses as [|u uses IH]; intros this this' published; cbn.
  - intros [= <- <-]. rewrite app_nil_r. repeat split. constructor.
  - destruct (reuse normalizeUrl uses _) as [[this'' later]|] eqn:E; [| discriminate].
    intros [= <- <-].
    destruct (IH _ _ _ E) as (Hl & Hp & Hk). cbn in Hl.
    rewrite Hl, map_app, <- app_assoc. cbn. repeat split.
    + now rewrite Hp.
    + constructor; [reflexivity | exact Hk].
Qed.

Lemma reuse_total normalizeUrl uses :
  forall this,
    exists this' published, reuse normalizeUrl uses this = Some (this', published).
Proof.
  induction uses as [|u uses IH]; intros this; cbn; [eauto |].
  destruct (IH
    {| _datadog_xhr := Some (useMethod u, normalizeUrl (useUrl u));
       loadendListeners :=
         loadendListeners this
         ++ [ {| reportRequestId := useRequestId u; reportMethod := useMethod u;
                 reportUrl := normalizeUrl (useUrl u); reportStartTime := useTime u;
                 reportTraceId := useTraceId u |} ] |})
    as (this' & later & ->).
  eauto.
Qed.

End XhrFacts.

(** X9. The [loadend] listeners of an XMLHttpRequest accumulate: after the
    object has been opened and sent once for each of [uses], one [loadend]
    publishes an [End] event for every one of these sends, oldest first, so
    the requests sent earlier are reported again. *)
Theorem xhr_reuse_reports_again (normalizeUrl : string -> string)
    (uses : list Xhr.Use) (endedAt status : Z) (response : option string) :
  exists this published,
    Xhr.reuse normalizeUrl uses Xhr.newXhr = Some (this, published) /\
    map RequestCollection.requestId (Xhr.loadend endedAt response status this)
    = map Xhr.useRequestId uses /\
    Forall (fun e => RequestCollection.kind e = RequestCollection.End)
           (Xhr.loadend endedAt response status this) /\
    map RequestCollection.requestId published = map Xhr.useRequestId uses.
Proof.
  destruct (XhrFacts.reuse_total normalizeUrl uses Xhr.newXhr)
    as (this & published & E).
  exists this, published. split; [exact E |].
  destruct (XhrFacts.reuse_listeners normalizeUrl uses _ _ _ E) as (Hl & Hp & _).
  cbn in Hl. unfold Xhr.loadend. repeat split.
  - rewrite map_map. cbn. exact Hl.
  - apply List.Forall_forall. intros e He. apply in_map_iff in He.
    destruct He as (r & <- & _). reflexivity.
  - exact Hp.
Qed.

(** ** The wrappers under [monitor] *)

Section MonitoredFetch.

Import RequestCollection RequestCollection.Fetch.

Variables (Err StackTrace : Type).
Variable computeStackTrace : Err -> StackTrace.
Variable toStackTraceString : StackTrace -> string.
Variable normalizeUrl : string -> option string.
Variable getTraceId : option Z.
Variable originalFetch : RequestInfo -> option RequestInit -> Monitor.Promise Err.

(** X5. A call of the wrapped [fetch] whose URL [new URL] rejects publishes
    nothing, does not call the original [fetch] and returns [undefined].
    Any other call publishes a [Start] during the call and returns the
    promise of the original [fetch]; when that promise fulfils or is
    rejected with an error, one [End] follows, with the request id of the
    call and the same method, URL, start time, trace id and type as the
    [Start], which has duration 0 and no status; when it is rejected with a
    value that is no object, nothing follows the [Start]. *)
Theorem fetch_start_then_end now settledAt requestId input init :
  let w := Monitor.fetch Err StackTrace computeStackTrace toStackTraceString
             normalizeUrl getTraceId originalFetch now requestId input init in
  match normalizeUrl (urlOf input) with
  | None =>
      Monitor.eventsOf Err w settledAt = [] /\
      Monitor.calledOriginal Err w = false /\
      Monitor.returned Err w = None
  | Some normalized =>
      Monitor.calledOriginal Err w = true /\
      Monitor.returned Err w = Some (originalFetch input init) /\
      exists started : RequestDetails,
        Monitor.published Err w
        = [ {| kind := Start; details := started; requestId := requestId |} ] /\
        method started = methodOf input init /\
        url started = normalized /\
        startTime started = now /\
        type started = FETCH /\
        duration started = 0%Z /\ status started = None /\
        match Monitor.settlement (originalFetch input init) with
        | Monitor.Rejected Monitor.Primitive => Monitor.onSettled Err w settledAt = []
        | _ =>
            exists ended : RequestDetails,
              Monitor.onSettled Err w settledAt
              = [ {| kind := End; details := ended; requestId := requestId |} ] /\
              method ended = method started /\
              url ended = url started /\
              startTime ended = startTime started /\
              traceId ended = traceId started /\
              type ended = FETCH /\
              duration ended = (settledAt - now)%Z
        end
  end.
Proof.
  unfold Monitor.fetch, Monitor.eventsOf.
  destruct (normalizeUrl (urlOf input)) as [normalized|]; cbn.
  - split; [reflexivity|]. split; [reflexivity|].
    eexists. split; [reflexivity|]. cbn. repeat split.
    destruct (Monitor.settlement (originalFetch input init)) as [r|[error|]]; cbn;
      try reflexivity; eexists; (split; [reflexivity|]); cbn; repeat split.
  - repeat split.
Qed.

(** X6. The method in the [Start] event of a wrapped [fetch] is never
    empty: it is the method of [init] when [init] has a method that is not
    the empty string; otherwise the method of the [Request] passed as input,
    when that is not the empty string; otherwise ["GET"]. *)
Theorem fetch_method_priority now requestId input init normalized :
  let w := Monitor.fetch Err StackTrace computeStackTrace toStackTraceString
             normalizeUrl getTraceId originalFetch now requestId input init in
  let noInitMethod :=
    init = None \/
    exists i, init = Some i /\ (initMethod i = None \/ initMethod i = Some "") in
  normalizeUrl (urlOf input) = Some normalized ->
  exists started : RequestEvent,
    Monitor.published Err w = [started] /\
    kind started = Start /\
    method (details started) <> "" /\
    (forall i m, init = Some i -> initMethod i = Some m -> m <> "" ->
                 method (details started) = m) /\
    (forall u m, noInitMethod -> input = InfoRequest u m -> m <> "" ->
                 method (details started) = m) /\
    (forall s, noInitMethod -> input = InfoString s ->
               method (details started) = "GET") /\
    (forall u, noInitMethod -> input = InfoRequest u "" ->
               method (details started) = "GET").
Proof.
  intros w noInitMethod Hn. unfold w, Monitor.fetch. rewrite Hn. cbn.
  eexists. split; [reflexivity|]. cbn. split; [reflexivity|].
  assert (Hno : noInitMethod ->
                methodOf input init
                = match input with
                  | InfoRequest _ m => if Js.truthy m then m else "GET"
                  | InfoString _ => "GET"
                  end).
  { unfold methodOf. intros [->|(i & -> & [->| ->])]; reflexivity. }
  split; [|split; [|split; [|split]]].
  - unfold methodOf.
    destruct init as [[[m|]]|]; cbn.
    + destruct m as [|a m]; cbn; [|discriminate].
      destruct input as [s|u [|b m']]; cbn; discriminate.
    + destruct input as [s|u [|b m']]; cbn; discriminate.
    + destruct input as [s|u [|b m']]; cbn; discriminate.
  - intros i m -> Hm Hne. unfold methodOf. rewrite Hm.
    destruct m as [|a m]; [congruence|reflexivity].
  - intros u m Hnone -> Hne. rewrite (Hno Hnone).
    destruct m as [|a m]; [congruence|reflexivity].
  - intros s Hnone ->. now rewrite (Hno Hnone).
  - intros u Hnone ->. now rewrite (Hno Hnone).
Qed.

End MonitoredFetch.

(** A [Request] with method PUT, fetched with an [init] whose method is
    empty: the [Start] event says PUT. *)
Lemma fetch_method_priority_witness :
  exists started : RequestCollection.RequestEvent,
    Monitor.published unit
      (Monitor.fetch unit unit (fun _ => tt) (fun _ => "at x.js:1") (fun u => Some u) None
         (fun _ _ => {| Monitor.promiseId := 1;
                        Monitor.settlement := Monitor.Rejected Monitor.Primitive |})
         10 "r1" (RequestCollection.Fetch.InfoRequest "https://x.test/a" "PUT")
         (Some {| RequestCollection.Fetch.initMethod := Some "" |}))
    = [started] /\
    RequestCollection.method (RequestCollection.details started) = "PUT".
Proof.
  destruct (fetch_method_priority unit unit (fun _ => tt) (fun _ => "at x.js:1")
              (fun u => Some u) None
              (fun _ _ => {| Monitor.promiseId := 1;
                             Monitor.settlement := Monitor.Rejected Monitor.Primitive |})
              10 "r1" (RequestCollection.Fetch.InfoRequest "https://x.test/a" "PUT")
              (Some {| RequestCollection.Fetch.initMethod := Some "" |})
              "https://x.test/a" eq_refl)
    as (started & Hp & _ & _ & _ & Hreq & _).
  exists started. split; [exact Hp|].
  apply (Hreq "https://x.test/a" "PUT"); [|reflexivity|discriminate].
  right. eexists. split; [reflexivity|]. now right.
Defined.

(** X8. Opening an XMLHttpRequest with a URL that [new URL] accepts, then
    sending it, publishes one [Start] that carries the method and the
    normalised URL of this [open] (not of an earlier one), the request id
    and the time of the [send]; the next [loadend] then publishes, after
    what the earlier listeners report, one [End] with the same request id,
    method, URL and start time, the status and response read at [loadend]
    and the time elapsed since the [send]. With a URL that [new URL]
    rejects, the wrapped [open] leaves the object as it was and does not
    call the original [open], so that a [send] reports what the earlier
    [open] stored. A [send] on an object no [open] has marked publishes
    nothing. *)
Theorem xhr_open_send_loadend (normalizeUrl : string -> option string)
    (this : Xhr.BrowserXHR)
    (method url requestId : string) (traceId : option Z)
    (sentAt endedAt status : Z) (response : option string) :
  Xhr.send sentAt requestId traceId Xhr.newXhr = None /\
  match normalizeUrl url with
  | None => Monitor.open normalizeUrl method url this = (this, false)
  | Some normalized =>
      snd (Monitor.open normalizeUrl method url this) = true /\
      exists this',
        Xhr.send sentAt requestId traceId (fst (Monitor.open normalizeUrl method url this))
        = Some (this',
                [ {| RequestCollection.kind := RequestCollection.Start;
                     RequestCollection.requestId := requestId;
                     RequestCollection.details :=
                       RequestCollection.mkRequestDetails RequestCollection.XHR method
                         normalized None None None sentAt 0 traceId |} ]) /\
        Xhr.loadend endedAt response status this'
        = Xhr.loadend endedAt response status this
          ++ [ {| RequestCollection.kind := RequestCollection.End;
                  RequestCollection.requestId := requestId;
                  RequestCollection.details :=
                    RequestCollection.mkRequestDetails RequestCollection.XHR method
                      normalized (Some status) response None sentAt
                      (endedAt - sentAt) traceId |} ]
  end.
Proof.
  split; [reflexivity|]. unfold Monitor.open.
  destruct (normalizeUrl url) as [normalized|]; [|reflexivity].
  split; [reflexivity|]. eexists. split; [reflexivity|].
  unfold Xhr.loadend. cbn. now rewrite map_app.
Qed.

(** An object opened for a first request; a second [open] with a URL that
    [new URL] rejects; the [send] that follows reports the first method and
    URL. *)
Lemma xhr_failed_open_example :
  let normalizeUrl := fun u => if String.eqb u "http://" then None else Some u in
  let first := fst (Monitor.open normalizeUrl "GET" "https://x.test/a" Xhr.newXhr) in
  let second := Monitor.open normalizeUrl "POST" "http://" first in
  snd second = false /\
  option_map (fun r => map (fun e => (RequestCollection.method (RequestCollection.details e),
                                      RequestCollection.url (RequestCollection.details e)))
                           (snd r))
             (Xhr.send 5 "r2" None (fst second))
  = Some [("GET", "https://x.test/a")].
Proof. cbv zeta. split; reflexivity. Qed.

(** ** Starting the collections *)

Module StartFacts.

Import RequestCollectionStart.

Lemma startMany_started n :
  forall p o,
    requestObservable p = Some o ->
    startMany n p = (p, repeat o n).
Proof.
  induction n as [|n IH]; intros p o H; cbn; [reflexivity |].
  unfold startRequestCollection. rewrite H. now rewrite (IH p o H).
Qed.

Lemma startMany_dom lifeCycles :
  forall p,
    DomMutationCollection.hasStarted p = true ->
    fold_left (fun p l => DomMutationCollection.startDOMMutationCollection l p)
              lifeCycles p = p.
Proof.
  induction lifeCycles as [|l ls IH]; intros p H; cbn; [reflexivity |].
  unfold DomMutationCollection.startDOMMutationCollection at 2. rewrite H. cbn.
  now apply IH.
Qed.

End StartFacts.

(** X10. However many times [startRequestCollection] is called on a page,
    every call returns the observable the first call created, the
    XMLHttpRequest functions are wrapped exactly once, and [fetch] is wrapped
    exactly once when the page has it and never otherwise. *)
Theorem startRequestCollection_once (fetchExists : bool) (o n : nat) :
  let '(p, returned) :=
    RequestCollectionStart.startMany (S n) (RequestCollectionStart.freshPage fetchExists o) in
  returned = repeat o (S n) /\
  RequestCollectionStart.requestObservable p = Some o /\
  RequestCollectionStart.xhrWrapped p = 1 /\
  RequestCollectionStart.fetchWrapped p = (if fetchExists then 1 else 0).
Proof.
  cbn [RequestCollectionStart.startMany].
  unfold RequestCollectionStart.startRequestCollection at 1. cbn.
  rewrite (StartFacts.startMany_started n _ o).
  - unfold RequestCollectionStart.trackFetch. cbn. destruct fetchExists; cbn; auto.
  - unfold RequestCollectionStart.trackFetch. cbn. destruct fetchExists; reflexivity.
Qed.

(** X11. However many times [startDOMMutationCollection] is called, and
    with whatever life cycles, one mutation observer exists and a mutation
    of the document is notified once, on the life cycle of the first call:
    the later calls are ignored. *)
Theorem startDOMMutationCollection_once (lifeCycle : nat) (others : list nat) :
  DomMutationCollection.mutation
    (fold_left (fun p l => DomMutationCollection.startDOMMutationCollection l p)
               (lifeCycle :: others) DomMutationCollection.freshPage)
  = [(lifeCycle, LifeCycle.DOM_MUTATED)].
Proof.
  cbn [fold_left].
  rewrite StartFacts.startMany_dom; reflexivity.
Qed.

(** ** The pending requests over a sequence of events *)

Module SequenceFacts.

Import LifeCycle RequestCollection Sequences.

Lemma handle_lookup key e (p : gmap string RequestDetails) :
  is_Some (fst (UserActionCollection.trackPageChanges_handle p e) !! key)
  <-> match Sequences.kindFor key e with
      | Some Start => True
      | Some End => False
      | None => is_Some (p !! key)
      end.
Proof.
  destruct e as [|entry|r]; cbn; [reflexivity | reflexivity |].
  unfold UserActionCollection.onRequest, Js.mapDelete.
  destruct (String.eqb_spec (requestId r) key) as [->|Hne];
    destruct (kind r); cbn.
  - rewrite lookup_insert_eq. split; eauto.
  - case_bool_decide; cbn; rewrite lookup_delete_eq; split;
      [intros [x Hx]; discriminate | intros [] | intros [x Hx]; discriminate | intros []].
  - now rewrite lookup_insert_ne.
  - case_bool_decide; cbn; now rewrite lookup_delete_ne.
Qed.

Lemma handle_elem key e (p : gset string) :
  key ∈ fst (UserActionCollectionAsync.trackPageChanges_handle p e)
  <-> match Sequences.kindFor key e with
      | Some Start => True
      | Some End => False
      | None => key ∈ p
      end.
Proof.
  destruct e as [|entry|r]; cbn; [reflexivity | reflexivity |].
  unfold UserActionCollectionAsync.onRequest, Js.setDelete.
  destruct (String.eqb_spec (requestId r) key) as [->|Hne];
    destruct (kind r); cbn.
  - rewrite elem_of_union, elem_of_singleton. split; auto.
  - case_bool_decide; cbn; rewrite elem_of_difference, elem_of_singleton;
      split; try (intros []; fail); intros [_ H']; now apply H'.
  - rewrite elem_of_union, elem_of_singleton. split; [intros [H|H]; congruence | auto].
  - case_bool_decide; cbn; rewrite elem_of_difference, elem_of_singleton;
      split; try (intros [H' _]; exact H'); intros H'; split; congruence.
Qed.

Lemma gset_size_pos (p : gset string) : 0 < size p <-> p <> ∅.
Proof.
  split.
  - intros H ->. rewrite size_empty in H. lia.
  - intros H. destruct (size p) eqn:E; [| lia].
    apply size_empty_iff, leibniz_equiv in E. contradiction.
Qed.

Lemma lastRequestKind_cons key e rest :
  lastRequestKind key (e :: rest)
  = match lastRequestKind key rest with
    | Some k => Some k
    | None => Sequences.kindFor key e
    end.
Proof. reflexivity. Qed.

End SequenceFacts.

(** X12. After any sequence of life-cycle events, a request id is pending
    exactly when the last request event that carries it is a [Start]; an id
    no event of the sequence carries is pending exactly when it was before.
    This holds for both versions of [trackPageChanges]. *)
Theorem pending_iff_last_is_start
    (key : string) (events : list LifeCycle.LifeCycleEvent)
    (detailed : gmap string RequestCollection.RequestDetails) (plain : gset string) :
  (is_Some (Sequences.pendingAfter events detailed !! key)
   <-> match Sequences.lastRequestKind key events with
       | Some RequestCollection.Start => True
       | Some RequestCollection.End => False
       | None => is_Some (detailed !! key)
       end) /\
  (key ∈ Sequences.pendingAfterAsync events plain
   <-> match Sequences.lastRequestKind key events with
       | Some RequestCollection.Start => True
       | Some RequestCollection.End => False
       | None => key ∈ plain
       end).
Proof.
  revert detailed plain.
  induction events as [|e rest IH]; intros detailed plain; [now split |].
  rewrite SequenceFacts.lastRequestKind_cons.
  unfold Sequences.pendingAfter, Sequences.pendingAfterAsync. cbn [fold_left].
  destruct (IH (fst (UserActionCollection.trackPageChanges_handle detailed e))
               (fst (UserActionCollectionAsync.trackPageChanges_handle plain e)))
    as [IHd IHp].
  unfold Sequences.pendingAfter, Sequences.pendingAfterAsync in IHd, IHp.
  rewrite IHd, IHp.
  destruct (Sequences.lastRequestKind key rest) as [[|]|]; [now split | now split |].
  split; [apply SequenceFacts.handle_lookup | apply SequenceFacts.handle_elem].
Qed.

(** X13. A change notification says busy exactly when a request is pending
    once the event has been handled; so the start of a request is always
    notified as busy. This holds for both versions of [trackPageChanges]. *)
Theorem busy_iff_pending
    (event : LifeCycle.LifeCycleEvent)
    (detailed : gmap string RequestCollection.RequestDetails) (plain : gset string) :
  Forall (fun c => UserActionCollection.isBusy c = true
                   <-> fst (UserActionCollection.trackPageChanges_handle detailed event) <> ∅)
         (snd (UserActionCollection.trackPageChanges_handle detailed event)) /\
  Forall (fun c => UserActionCollectionAsync.isBusy c = true
                   <-> fst (UserActionCollectionAsync.trackPageChanges_handle plain event) <> ∅)
         (snd (UserActionCollectionAsync.trackPageChanges_handle plain event)) /\
  (forall r, event = LifeCycle.REQUEST_COLLECTED r ->
             RequestCollection.kind r = RequestCollection.Start ->
             Forall (fun c => UserActionCollection.isBusy c = true)
                    (snd (UserActionCollection.trackPageChanges_handle detailed event)) /\
             Forall (fun c => UserActionCollectionAsync.isBusy c = true)
                    (snd (UserActionCollectionAsync.trackPageChanges_handle plain event))).
Proof.
  assert (Hd : forall (p : gmap string RequestCollection.RequestDetails) t d,
             UserActionCollection.isBusy (UserActionCollection.notifyChange p t d) = true
             <-> p <> ∅).
  { intros p t d. change (Nat.ltb 0 (size p) = true <-> p <> ∅).
    rewrite Nat.ltb_lt, <- map_size_non_empty_iff. lia. }
  assert (Hp : forall p : gset string,
             UserActionCollectionAsync.isBusy (UserActionCollectionAsync.notifyChange p) = true
             <-> p <> ∅).
  { intros p. change (Nat.ltb 0 (size p) = true <-> p <> ∅).
    rewrite Nat.ltb_lt. apply SequenceFacts.gset_size_pos. }
  assert (Hall : Forall (fun c => UserActionCollection.isBusy c = true
                   <-> fst (UserActionCollection.trackPageChanges_handle detailed event) <> ∅)
         (snd (UserActionCollection.trackPageChanges_handle detailed event)) /\
       Forall (fun c => UserActionCollectionAsync.isBusy c = true
                   <-> fst (UserActionCollectionAsync.trackPageChanges_handle plain event) <> ∅)
         (snd (UserActionCollectionAsync.trackPageChanges_handle plain event))).
  { destruct event as [|entry|r];
      unfold UserActionCollection.trackPageChanges_handle,
        UserActionCollectionAsync.trackPageChanges_handle,
        UserActionCollection.onPerformanceEntry,
        UserActionCollection.onRequest, UserActionCollectionAsync.onRequest,
        Js.mapDelete, Js.setDelete;
      try destruct (negb _); try destruct (RequestCollection.kind r);
      repeat case_bool_decide; cbn [fst snd];
      split; repeat first [apply List.Forall_nil | apply List.Forall_cons];
      first [apply Hd | apply Hp]. }
  destruct Hall as [Ha Hb]. split; [exact Ha |]. split; [exact Hb |].
  intros r -> Hk. cbn.
  unfold UserActionCollection.onRequest, UserActionCollectionAsync.onRequest.
  rewrite Hk. cbn [snd].
  split; repeat first [apply List.Forall_nil | apply List.Forall_cons].
  - apply Hd, insert_non_empty.
  - apply Hp. intros E. apply (not_elem_of_empty (C:=gset string) (RequestCollection.requestId r)).
    rewrite <- E. apply elem_of_union_l. now apply elem_of_singleton.
Qed.

(** ** The interaction detector: what one activity signal does *)

Module SignalFacts.

Import LifeCycle UserActionCollection Detector.

(** While an interaction is subscribed, the two [clearTimeout] calls of the
    subscriber empty the timer table. *)
Lemma active_timers uuid s :
  Inv uuid s -> subscriptions s = Active ->
  Host.table (Host.clearTimeout (idleTimeoutId s)
                (Host.clearTimeout (Some (validationTimeoutId s)) (timers s))) = [].
Proof.
  intros [_ Hphase] Hsub.
  destruct s as [i v idle p sub [tb nh] ua j]. cbn in *.
  destruct Hphase as [d _ Hidle Hj Htb _ | pre T r dt _ Hj Hpre Htb
                      | at_ Hs | pre T r dt at_ Hs]; cbn in *; try congruence.
  - subst. cbn. now rewrite Nat.eqb_refl.
  - destruct Htb as [-> | (h & -> & ->)]; cbn.
    + destruct idle; reflexivity.
    + destruct (Nat.eqb h v); cbn; [reflexivity |]. now rewrite Nat.eqb_refl.
Qed.

(** The state the subscriber leaves. *)
Lemma onChange_effect uuid now change p s :
  Inv uuid s -> subscriptions s = Active ->
  let s' := onChange now change (setPendingRequests p s) in
  id s' = id s /\ pendingRequests s' = p /\ subscriptions s' = Active /\
  userActionId s' = userActionId s /\
  journal s' = journal s ++ [(now, UserActionExtended (id s) now (type change)
                                     (details change))] /\
  Host.table (timers s')
  = (if isBusy change then []
     else [ {| Host.handle := Host.nextHandle (timers s);
               Host.due := (now + IDLE_DELAY)%Z;
               Host.callback := IdleTimeout now |} ]).
Proof.
  intros HInv Hsub. assert (Hcl := active_timers uuid s HInv Hsub).
  destruct s as [i v idle p0 sub [tb nh] ua j]. cbn in *. subst sub.
  unfold onChange. cbn. cbn in Hcl.
  destruct (isBusy change); cbn; repeat split; try reflexivity; try exact Hcl.
  rewrite Hcl. destruct idle; reflexivity.
Qed.

(** The notification an event yields says busy exactly when the pending
    requests it leaves are not empty. *)
Lemma handle_busy pendingRequests event p c :
  trackPageChanges_handle pendingRequests event = (p, [c]) ->
  isBusy c = Nat.ltb 0 (size p).
Proof.
  destruct event as [|entry|r]; cbn.
  - now intros [= <- <-].
  - unfold onPerformanceEntry. destruct (negb _); [discriminate |].
    now intros [= <- <-].
  - unfold onRequest. destruct (RequestCollection.kind r).
    + now intros [= <- <-].
    + destruct (Js.mapDelete _ _) as [[|] p']; [| discriminate].
      now intros [= <- <-].
Qed.

(** A timer callback that runs closes the interaction and keeps the pending
    requests. *)
Lemma expire_effect uuid now h s :
  Inv uuid s ->
  expire now h s = s \/
  (Host.table (timers s) <> [] /\
   subscriptions (expire now h s) = Unsubscribed /\
   pendingRequests (expire now h s) = pendingRequests s).
Proof.
  intros [_ Hphase]. unfold expire, Host.pending.
  destruct s as [i v idle p sub [tb nh] ua j]. cbn in *.
  destruct Hphase as [d Hs Hidle Hj Htb Hua | pre T r dt Hs Hj Hpre Htb
                      | at_ Hs Htb Hj Hua | pre T r dt at_ Hs Htb Hj Hpre Hua];
    cbn in *; subst; cbn.
  - destruct (Nat.eqb v h); cbn; [right | left; reflexivity].
    repeat split. discriminate.
  - destruct Htb as [-> | (h' & -> & ->)]; cbn; [left; reflexivity |].
    destruct (Nat.eqb h' h); cbn; [right | left; reflexivity].
    repeat split. discriminate.
  - left; reflexivity.
  - left; reflexivity.
Qed.

(** Once unsubscribed, an interaction has no timer left and ignores every
    input. *)
Lemma closed_inert uuid s i :
  Inv uuid s -> subscriptions s = Unsubscribed -> step s i = s.
Proof.
  intros [_ Hphase] Hsub. destruct i as [now event | now h]; cbn.
  - unfold deliver. now rewrite Hsub.
  - unfold expire, Host.pending.
    destruct Hphase as [d Hs | pre T r dt Hs | at_ _ Htb | pre T r dt at_ _ Htb];
      try congruence; now rewrite Htb.
Qed.

End SignalFacts.

Module SignalFactsAsync.

Import LifeCycle UserActionCollectionAsync DetectorAsync.

Lemma active_timers_async uuid current s :
  Inv uuid current s -> subscriptions s = Active ->
  Host.table (Host.clearTimeout (idleTimeoutId s)
                (Host.clearTimeout (Some (validationTimeoutId s)) (timers s))) = [].
Proof.
  intros [_ Hphase] Hsub.
  destruct s as [i v idle p sub [tb nh] ua j]. cbn in *.
  destruct Hphase as [d _ Hidle Hj Htb _ | T _ Hj _ Htb
                      | at_ Hs | T at_ Hs]; cbn in *; try congruence.
  - subst. cbn. now rewrite Nat.eqb_refl.
  - destruct Htb as [-> | (h & -> & ->)]; cbn.
    + destruct idle; reflexivity.
    + destruct (Nat.eqb h v); cbn; [reflexivity |]. now rewrite Nat.eqb_refl.
Qed.

Lemma onChange_effect_async uuid current now change p s :
  Inv uuid current s -> subscriptions s = Active ->
  let s' := onChange now change (setPendingRequests p s) in
  pendingRequests s' = p /\ subscriptions s' = Active /\
  resolutions s' = resolutions s /\
  Host.table (timers s')
  = (if isBusy change then []
     else [ {| Host.handle := Host.nextHandle (timers s);
               Host.due := (now + IDLE_DELAY)%Z;
               Host.callback := IdleTimeout now |} ]).
Proof.
  intros HInv Hsub. assert (Hcl := active_timers_async uuid current s HInv Hsub).
  destruct s as [i v idle p0 sub [tb nh] ua j]. cbn in *. subst sub.
  unfold onChange. cbn. cbn in Hcl.
  destruct (isBusy change); cbn; repeat split; try reflexivity; try exact Hcl.
  rewrite Hcl. destruct idle; reflexivity.
Qed.

Lemma handle_busy_async pendingRequests event p c :
  trackPageChanges_handle pendingRequests event = (p, [c]) ->
  isBusy c = Nat.ltb 0 (size p).
Proof.
  destruct event as [|entry|r]; cbn; try (now intros [= <- <-]).
  unfold onRequest. destruct (RequestCollection.kind r).
  - now intros [= <- <-].
  - destruct (Js.setDelete _ _) as [[|] p']; [| discriminate].
    now intros [= <- <-].
Qed.

Lemma handle_silent_async pendingRequests event p :
  trackPageChanges_handle pendingRequests event = (p, []) -> p = pendingRequests.
Proof.
  destruct event as [|entry|r]; cbn; try discriminate.
  unfold onRequest, Js.setDelete.
  destruct (RequestCollection.kind r); [discriminate |].
  case_bool_decide as Hin; [discriminate |]. intros [= <-].
  apply difference_disjoint_L, disjoint_singleton_r, Hin.
Qed.

Lemma expire_effect_async uuid current now h s :
  Inv uuid current s ->
  expire now h s = s \/
  (Host.table (timers s) <> [] /\
   subscriptions (expire now h s) = Unsubscribed /\
   pendingRequests (expire now h s) = pendingRequests s).
Proof.
  intros [_ Hphase]. unfold expire, Host.pending.
  destruct s as [i v idle p sub [tb nh] ua j]. cbn in *.
  destruct Hphase as [d Hs Hidle Hj Htb Hua | T Hs Hj Hua Htb
                      | at_ Hs Htb Hj Hua | T at_ Hs Htb Hj Hua];
    cbn in *; subst; cbn.
  - destruct (Nat.eqb v h); cbn; [right | left; reflexivity].
    repeat split. discriminate.
  - destruct Htb as [-> | (h' & -> & ->)]; cbn; [left; reflexivity |].
    destruct (Nat.eqb h' h); cbn; [right | left; reflexivity].
    repeat split. discriminate.
  - left; reflexivity.
  - left; reflexivity.
Qed.

Lemma closed_inert_async uuid current s i :
  Inv uuid current s -> subscriptions s = Unsubscribed -> step s i = s.
Proof.
  intros [_ Hphase] Hsub. destruct i as [now event | now h]; cbn.
  - unfold deliver. now rewrite Hsub.
  - unfold expire, Host.pending.
    destruct Hphase as [d Hs | T Hs | at_ _ Htb | T at_ _ Htb];
      try congruence; now rewrite Htb.
Qed.

End SignalFactsAsync.

(** ** Pending requests keep an interaction open *)

Module Busy.

Import LifeCycle.

Lemma step_Quiet uuid s i :
  Detector.Inv uuid s -> Invariants.Quiet s -> Invariants.Quiet (UserActionCollection.step s i).
Proof.
  intros HInv HQ. destruct i as [now event | now h]; cbn.
  - unfold UserActionCollection.deliver.
    destruct (UserActionCollection.subscriptions s) eqn:Hsub; [| exact HQ].
    destruct (DetectorInvariant.handle_cases (UserActionCollection.pendingRequests s) event)
      as [(p & E) | (p & c & E)]; rewrite E; cbn.
    + assert (Hp : p = UserActionCollection.pendingRequests s).
      { assert (H := Validation.handle_silent (UserActionCollection.pendingRequests s) event).
        rewrite E in H. specialize (H eq_refl). congruence. }
      subst p. destruct s; exact HQ.
    + destruct (SignalFacts.onChange_effect uuid now c p s HInv Hsub)
        as (_ & Hp & Hs & _ & _ & Ht).
      intros [Hne | Hun]; [| congruence].
      rewrite Ht in Hne. rewrite Hp.
      rewrite (SignalFacts.handle_busy _ _ _ _ E) in Hne.
      destruct (Nat.ltb_spec 0 (size p)); [now contradict Hne |].
      apply map_size_empty_iff. lia.
  - destruct (SignalFacts.expire_effect uuid now h s HInv) as [-> | (Hne & _ & Hp)];
      [exact HQ |].
    intros _. rewrite Hp. apply HQ. now left.
Qed.

Lemma run_Quiet uuid inputs :
  forall s, Detector.Inv uuid s -> Invariants.Quiet s ->
            Invariants.Quiet (UserActionCollection.run s inputs).
Proof.
  induction inputs as [|i inputs IH]; intros s HInv HQ; [exact HQ |].
  apply IH; [now apply DetectorInvariant.step_Inv | now apply (step_Quiet uuid)].
Qed.

Lemma step_QuietAsync uuid current s i :
  DetectorAsync.Inv uuid current s -> Invariants.QuietAsync s ->
  Invariants.QuietAsync (UserActionCollectionAsync.step s i).
Proof.
  intros HInv HQ. destruct i as [now event | now h]; cbn.
  - unfold UserActionCollectionAsync.deliver.
    destruct (UserActionCollectionAsync.subscriptions s) eqn:Hsub; [| exact HQ].
    destruct (DetectorAsyncInvariant.handle_cases_async
                (UserActionCollectionAsync.pendingRequests s) event)
      as [(p & E) | (p & c & E)]; rewrite E; cbn.
    + apply SignalFactsAsync.handle_silent_async in E. subst p.
      destruct s; exact HQ.
    + destruct (SignalFactsAsync.onChange_effect_async uuid current now c p s HInv Hsub)
        as (Hp & Hs & _ & Ht).
      intros [Hne | Hun]; [| congruence].
      rewrite Ht in Hne. rewrite Hp.
      rewrite (SignalFactsAsync.handle_busy_async _ _ _ _ E) in Hne.
      destruct (Nat.ltb_spec 0 (size p)); [now contradict Hne |].
      apply leibniz_equiv, size_empty_iff. lia.
  - destruct (SignalFactsAsync.expire_effect_async uuid current now h s HInv)
      as [-> | (Hne & _ & Hp)]; [exact HQ |].
    intros _. rewrite Hp. apply HQ. now left.
Qed.

Lemma run_QuietAsync uuid current inputs :
  forall s, DetectorAsync.Inv uuid current s -> Invariants.QuietAsync s ->
            Invariants.QuietAsync (UserActionCollectionAsync.run s inputs).
Proof.
  induction inputs as [|i inputs IH]; intros s HInv HQ; [exact HQ |].
  apply IH; [| now apply (step_QuietAsync uuid current)].
  destruct i; [apply DetectorAsyncInvariant.deliver_Inv_async
              | apply DetectorAsyncInvariant.expire_Inv_async]; exact HInv.
Qed.

End Busy.

(** Seen from one interaction, with every callback run to its end before
    the next: while a request is pending the interaction has no timer armed
    and has notified no terminal event. This holds for both versions of
    [newUserAction]. *)
Lemma pending_keeps_open_run
    (now : Z) (uuid : string) (n : nat) (current : option string)
    (inputs : list UserActionCollection.Input)
    (inputs' : list UserActionCollectionAsync.Input) :
  let s := UserActionCollection.run
             (UserActionCollection.newUserAction now uuid (Host.fresh n) current) inputs in
  let s' := UserActionCollectionAsync.run
              (UserActionCollectionAsync.newUserAction now uuid (Host.fresh n) current)
              inputs' in
  (UserActionCollection.pendingRequests s <> ∅ ->
   Host.table (UserActionCollection.timers s) = [] /\
   UserActionCollection.subscriptions s = LifeCycle.Active /\
   List.filter UserActionCollection.isTerminal (UserActionCollection.events s) = []) /\
  (UserActionCollectionAsync.pendingRequests s' <> ∅ ->
   Host.table (UserActionCollectionAsync.timers s') = [] /\
   UserActionCollectionAsync.subscriptions s' = LifeCycle.Active /\
   UserActionCollectionAsync.resolutions s' = []).
Proof.
  intros s s'. split.
  - intros Hp.
    assert (HInv := DetectorInvariant.run_Inv uuid inputs _
                      (DetectorInvariant.newUserAction_Inv now uuid n current)).
    assert (HQ : Invariants.Quiet s).
    { apply (Busy.run_Quiet uuid);
        [apply DetectorInvariant.newUserAction_Inv | intros _; reflexivity]. }
    fold s in HInv.
    assert (Ht : Host.table (UserActionCollection.timers s) = []).
    { destruct (Host.table (UserActionCollection.timers s)) eqn:E; [reflexivity |].
      exfalso. apply Hp, HQ. left. rewrite E. discriminate. }
    assert (Hs : UserActionCollection.subscriptions s = LifeCycle.Active).
    { destruct (UserActionCollection.subscriptions s) eqn:E; [reflexivity |].
      exfalso. apply Hp, HQ. right. exact E. }
    repeat split; try assumption.
    destruct HInv as [_ Hphase]. unfold UserActionCollection.events.
    destruct Hphase as [d _ _ Hj _ _ | pre T r dt _ Hj Hpre _
                        | at_ Hu | pre T r dt at_ Hu]; try congruence; rewrite Hj.
    + reflexivity.
    + rewrite map_app. cbn [map snd].
      now rewrite (Journal.terminals_extended uuid).
  - intros Hp.
    assert (HInv := DetectorAsyncInvariant.run_Inv_async uuid current inputs' _
                      (DetectorAsyncInvariant.newUserAction_Inv_async now uuid n current)).
    assert (HQ : Invariants.QuietAsync s').
    { apply (Busy.run_QuietAsync uuid current);
        [apply DetectorAsyncInvariant.newUserAction_Inv_async | intros _; reflexivity]. }
    fold s' in HInv.
    assert (Ht : Host.table (UserActionCollectionAsync.timers s') = []).
    { destruct (Host.table (UserActionCollectionAsync.timers s')) eqn:E; [reflexivity |].
      exfalso. apply Hp, HQ. left. rewrite E. discriminate. }
    assert (Hs : UserActionCollectionAsync.subscriptions s' = LifeCycle.Active).
    { destruct (UserActionCollectionAsync.subscriptions s') eqn:E; [reflexivity |].
      exfalso. apply Hp, HQ. right. exact E. }
    repeat split; try assumption.
    destruct HInv as [_ Hphase].
    destruct Hphase as [d _ _ Hj | T _ Hj | at_ Hu | T at_ Hu]; congruence.
Qed.

(** ** Aborted interactions *)

Module Aborting.

Import LifeCycle UserActionCollection.

Lemma aborted_alone uuid s at_ i t :
  Detector.Phase uuid s ->
  In (at_, UserActionAborted i t) (journal s) ->
  journal s = [(at_, UserActionAborted uuid at_)] /\ i = uuid /\ t = at_ /\
  userActionId s = Some uuid.
Proof.
  intros Hphase Hin.
  assert (Hpre : forall pre, Detector.allExtended uuid pre ->
                             ~ In (at_, UserActionAborted i t) pre).
  { intros pre Hpre Hin'. unfold Detector.allExtended in Hpre.
    rewrite List.Forall_forall in Hpre. destruct (Hpre _ Hin') as [Hterm _].
    discriminate Hterm. }
  destruct Hphase as [d _ _ Hj _ _ | pre T r dt _ Hj Hext _
                      | at' _ _ Hj Hua | pre T r dt at' _ _ Hj Hext _];
    rewrite Hj in Hin |- *.
  - destruct Hin.
  - apply in_app_or in Hin. destruct Hin as [Hin | [Hin | []]];
      [now apply Hpre in Hin | discriminate Hin].
  - destruct Hin as [[= <- <- <-] | []]. auto.
  - apply in_app_or in Hin. destruct Hin as [Hin | [Hin | [Hin | []]]];
      [now apply Hpre in Hin | discriminate Hin | discriminate Hin].
Qed.

End Aborting.

(** Seen from one interaction, with every callback run to its end before
    the next: a journal that holds an [Aborted] event holds nothing else. *)
Lemma aborted_alone_run
    (now : Z) (uuid : string) (n : nat) (current : option string)
    (inputs : list UserActionCollection.Input) (at_ : Z) (i : string) (t : Z) :
  let s := UserActionCollection.run
             (UserActionCollection.newUserAction now uuid (Host.fresh n) current) inputs in
  In (at_, UserActionCollection.UserActionAborted i t) (UserActionCollection.journal s) ->
  UserActionCollection.journal s = [(at_, UserActionCollection.UserActionAborted uuid at_)] /\
  i = uuid /\ t = at_.
Proof.
  intros s Hin.
  destruct (DetectorInvariant.run_Inv uuid inputs _
              (DetectorInvariant.newUserAction_Inv now uuid n current)) as [_ Hphase].
  destruct (Aborting.aborted_alone uuid _ _ _ _ Hphase Hin) as (Hj & Hi & Ht & _).
  auto.
Qed.

(** ** Activity keeps an interaction open *)

Module Rearm.

Import LifeCycle UserActionCollection.

(** What the delivery of an activity signal leaves. *)
Lemma deliver_signal uuid t event s p c :
  Detector.Inv uuid s -> subscriptions s = Active ->
  trackPageChanges_handle (pendingRequests s) event = (p, [c]) ->
  let s' := deliver t event s in
  Detector.Inv uuid s' /\ subscriptions s' = Active /\ pendingRequests s' = p /\
  journal s' = journal s ++ [(t, UserActionExtended uuid t (type c) (details c))] /\
  Host.table (timers s')
  = (if isBusy c then []
     else [ {| Host.handle := Host.nextHandle (timers s);
               Host.due := (t + IDLE_DELAY)%Z;
               Host.callback := IdleTimeout t |} ]).
Proof.
  intros HInv Hsub E s'.
  assert (HInv' : Detector.Inv uuid s') by apply DetectorInvariant.deliver_Inv, HInv.
  subst s'. unfold deliver in *. rewrite Hsub, E in *. cbn in *.
  destruct (SignalFacts.onChange_effect uuid t c p s HInv Hsub)
    as (_ & Hp & Hs & _ & Hj & Ht).
  destruct HInv as [Hid _]. rewrite Hid in Hj. auto.
Qed.

(** The punctual host on an interaction whose only timer is the idle
    timer. *)
Lemma settle_open s h D T until :
  Host.table (timers s)
  = [ {| Host.handle := h; Host.due := D; Host.callback := IdleTimeout T |} ] ->
  ((until < D)%Z -> settle until s = s) /\
  journal (settle until s)
  = journal s ++ (if Z.leb D until then [(D, UserActionEnded (id s) T)] else []).
Proof.
  intros Ht. destruct s as [i v idle p sub [tb nh] ua j]. cbn in *. subst tb.
  unfold settle. cbn.
  destruct (Z.leb_spec D until) as [Hle|Hlt].
  - split; [lia |].
    unfold expire, Host.pending, onIdleTimeout, clearTimeout, stop, notify,
      setTimers, setUserActionId, Host.clearTimeout.
    cbn. rewrite ?Nat.eqb_refl. cbn. rewrite ?Nat.eqb_refl. reflexivity.
  - split; [reflexivity |]. cbn. now rewrite app_nil_r.
Qed.

(** With no timer armed the punctual host has nothing to run. *)
Lemma settle_idle_table s until :
  Host.table (timers s) = [] -> settle until s = s.
Proof. intros Ht. unfold settle. rewrite Ht. reflexivity. Qed.

Lemma last_cons (t d : Z) (rest : list Z) :
  List.last (t :: rest) d = List.last rest t.
Proof.
  revert t d. induction rest as [|u rest IH]; intros t d; [reflexivity |].
  change (List.last (u :: rest) d = List.last (u :: rest) t).
  now rewrite !IH.
Qed.

Lemma play_mutations uuid until times :
  forall s h T,
    Detector.Inv uuid s -> subscriptions s = Active -> pendingRequests s = ∅ ->
    Host.table (timers s)
    = [ {| Host.handle := h; Host.due := (T + IDLE_DELAY)%Z;
           Host.callback := IdleTimeout T |} ] ->
    Sequences.closerThan IDLE_DELAY T times ->
    journal (play (Sequences.mutations times) until s)
    = journal s ++ map (Invariants.extended uuid) times
      ++ (if Z.leb (Sequences.lastTime T times + IDLE_DELAY) until
          then [((Sequences.lastTime T times + IDLE_DELAY)%Z,
                 UserActionEnded uuid (Sequences.lastTime T times))]
          else []).
Proof.
  induction times as [|t rest IH]; intros s h T HInv Hsub Hp Ht Hclose.
  - cbn. destruct (settle_open s h _ T until Ht) as [_ ->].
    destruct HInv as [-> _]. reflexivity.
  - destruct Hclose as [Hlt Hclose].
    change (Sequences.mutations (t :: rest))
      with ((t, DOM_MUTATED) :: Sequences.mutations rest).
    cbn [play].
    destruct (settle_open s h _ T t Ht) as [Hsame _].
    rewrite (Hsame Hlt). clear Hsame.
    assert (E : trackPageChanges_handle (pendingRequests s) DOM_MUTATED
                = (pendingRequests s, [notifyChange (pendingRequests s) "dom_mutated" None]))
      by reflexivity.
    destruct (deliver_signal uuid t DOM_MUTATED s _ _ HInv Hsub E)
      as (HInv' & Hsub' & Hp' & Hj' & Ht').
    rewrite Hp in Ht'. cbn in Ht'. rewrite map_size_empty in Ht'. cbn in Ht'.
    rewrite Hp in Hp'.
    rewrite (IH _ _ t HInv' Hsub' Hp' Ht' Hclose). rewrite Hj'.
    unfold Sequences.lastTime. rewrite last_cons.
    cbn [map type details notifyChange]. rewrite <- !app_assoc. reflexivity.
Qed.

End Rearm.

(** X18. DOM mutations that follow one another by less than [IDLE_DELAY],
    the first less than [BUSY_DELAY] after the click, keep the interaction
    open: each is notified as [Extended] and re-arms the idle timer, and the
    only terminal event is an [Ended] published [IDLE_DELAY] after the last
    mutation, carrying the time of that mutation. *)
Theorem mutations_rearm_idle_timer
    (now : Z) (uuid : string) (n : nat) (current : option string)
    (t : Z) (times : list Z) (until : Z) :
  (t < now + UserActionCollection.BUSY_DELAY)%Z ->
  Sequences.closerThan UserActionCollection.IDLE_DELAY t times ->
  let last := Sequences.lastTime t times in
  UserActionCollection.journal
    (UserActionCollection.play (Sequences.mutations (t :: times)) until
       (UserActionCollection.newUserAction now uuid (Host.fresh n) current))
  = map (fun t => (t, UserActionCollection.UserActionExtended uuid t "dom_mutated" None))
        (t :: times)
    ++ (if Z.leb (last + UserActionCollection.IDLE_DELAY) until
        then [((last + UserActionCollection.IDLE_DELAY)%Z,
               UserActionCollection.UserActionEnded uuid last)]
        else []).
Proof.
  intros Hfirst Hclose last.
  change (Sequences.mutations (t :: times))
    with ((t, LifeCycle.DOM_MUTATED) :: Sequences.mutations times).
  cbn [UserActionCollection.play].
  rewrite Validation.settle_before by exact Hfirst.
  assert (HInv : Detector.Inv uuid
            (UserActionCollection.deliver t LifeCycle.DOM_MUTATED
               (UserActionCollection.newUserAction now uuid (Host.fresh n) current)))
    by apply DetectorInvariant.deliver_Inv, DetectorInvariant.newUserAction_Inv.
  rewrite Completion.deliver_first in *.
  rewrite (Rearm.play_mutations uuid until times _ (S n) t HInv eq_refl eq_refl eq_refl Hclose).
  reflexivity.
Qed.

(** Mutations at 20, 90 and 150 after a click at 0. *)
Lemma mutations_rearm_idle_timer_witness :
  (20 < 0 + UserActionCollection.BUSY_DELAY)%Z /\
  Sequences.closerThan UserActionCollection.IDLE_DELAY 20 [90%Z; 150%Z] /\
  UserActionCollection.events
    (UserActionCollection.play (Sequences.mutations [20%Z; 90%Z; 150%Z]) 1000
       (UserActionCollection.newUserAction 0 sampleId (Host.fresh 1) None))
  = [ UserActionCollection.UserActionExtended sampleId 20 "dom_mutated" None;
      UserActionCollection.UserActionExtended sampleId 90 "dom_mutated" None;
      UserActionCollection.UserActionExtended sampleId 150 "dom_mutated" None;
      UserActionCollection.UserActionEnded sampleId 150 ].
Proof.
  assert (H1 : (20 < 0 + UserActionCollection.BUSY_DELAY)%Z) by (vm_compute; reflexivity).
  assert (H2 : Sequences.closerThan UserActionCollection.IDLE_DELAY 20 [90%Z; 150%Z])
    by (vm_compute; repeat split).
  split; [exact H1 |]. split; [exact H2 |].
  unfold UserActionCollection.events.
  rewrite (mutations_rearm_idle_timer 0 sampleId 1 None 20 [90%Z; 150%Z] 1000 H1 H2).
  vm_compute. reflexivity.
Defined.

(** X19. An interaction whose first activity is the start of a request
    stays open for as long as the request is pending, however long that
    is: the start and the end of the request are notified as [Extended],
    and the only terminal event is an [Ended] published [IDLE_DELAY] after
    the end of the request, carrying the time of that end. *)
Theorem request_bounds_interaction
    (now : Z) (uuid : string) (n : nat) (current : option string)
    (t1 t2 until : Z) (start finish : RequestCollection.RequestEvent) :
  RequestCollection.kind start = RequestCollection.Start ->
  RequestCollection.kind finish = RequestCollection.End ->
  RequestCollection.requestId finish = RequestCollection.requestId start ->
  (t1 < now + UserActionCollection.BUSY_DELAY)%Z ->
  UserActionCollection.journal
    (UserActionCollection.play
       [ (t1, LifeCycle.REQUEST_COLLECTED start);
         (t2, LifeCycle.REQUEST_COLLECTED finish) ] until
       (UserActionCollection.newUserAction now uuid (Host.fresh n) current))
  = [ (t1, UserActionCollection.UserActionExtended uuid t1 "request_start"
             (Some ["Url: " +:+ RequestCollection.url (RequestCollection.details start)]));
      (t2, UserActionCollection.UserActionExtended uuid t2 "request_end"
             (Some ["Url: " +:+ RequestCollection.url (RequestCollection.details finish)])) ]
    ++ (if Z.leb (t2 + UserActionCollection.IDLE_DELAY) until
        then [((t2 + UserActionCollection.IDLE_DELAY)%Z,
               UserActionCollection.UserActionEnded uuid t2)]
        else []).
Proof.
  intros Hstart Hfinish Hid Hfirst.
  cbn [UserActionCollection.play].
  rewrite Validation.settle_before by exact Hfirst.
  set (s0 := UserActionCollection.newUserAction now uuid (Host.fresh n) current).
  assert (HInv0 : Detector.Inv uuid s0) by apply DetectorInvariant.newUserAction_Inv.
  assert (E1 : UserActionCollection.trackPageChanges_handle
                 (UserActionCollection.pendingRequests s0) (LifeCycle.REQUEST_COLLECTED start)
               = (<[RequestCollection.requestId start := RequestCollection.details start]> ∅,
                  [UserActionCollection.notifyChange
                     (<[RequestCollection.requestId start := RequestCollection.details start]> ∅)
                     "request_start"
                     (Some ["Url: " +:+ RequestCollection.url (RequestCollection.details start)])])).
  { cbn. unfold UserActionCollection.onRequest. now rewrite Hstart. }
  destruct (Rearm.deliver_signal uuid t1 _ s0 _ _ HInv0 eq_refl E1)
    as (HInv1 & Hsub1 & Hp1 & Hj1 & Ht1).
  set (s1 := UserActionCollection.deliver t1 (LifeCycle.REQUEST_COLLECTED start) s0) in *.
  assert (Hbusy : Nat.ltb 0 (size (<[RequestCollection.requestId start :=
                     RequestCollection.details start]> (∅ : gmap string RequestCollection.RequestDetails)))
                  = true).
  { apply Nat.ltb_lt. rewrite map_size_insert_None by apply lookup_empty. lia. }
  change (UserActionCollection.isBusy _) with
    (Nat.ltb 0 (size (<[RequestCollection.requestId start :=
        RequestCollection.details start]> (∅ : gmap string RequestCollection.RequestDetails))))
    in Ht1.
  rewrite Hbusy in Ht1.
  rewrite (Rearm.settle_idle_table s1 t2 Ht1).
  assert (E2 : UserActionCollection.trackPageChanges_handle
                 (UserActionCollection.pendingRequests s1) (LifeCycle.REQUEST_COLLECTED finish)
               = (∅,
                  [UserActionCollection.notifyChange ∅ "request_end"
                     (Some ["Url: " +:+ RequestCollection.url (RequestCollection.details finish)])])).
  { rewrite Hp1. cbn. unfold UserActionCollection.onRequest. rewrite Hfinish, Hid.
    rewrite PendingRequests.mapDelete_present
      by (rewrite lookup_insert_eq; eauto).
    now rewrite delete_insert_eq, delete_empty. }
  destruct (Rearm.deliver_signal uuid t2 _ s1 _ _ HInv1 Hsub1 E2)
    as (HInv2 & Hsub2 & Hp2 & Hj2 & Ht2).
  set (s2 := UserActionCollection.deliver t2 (LifeCycle.REQUEST_COLLECTED finish) s1) in *.
  change (UserActionCollection.isBusy _) with
    (Nat.ltb 0 (size (∅ : gmap string RequestCollection.RequestDetails))) in Ht2.
  rewrite map_size_empty in Ht2. cbn [Nat.ltb Nat.leb] in Ht2.
  destruct (Rearm.settle_open s2 _ _ _ until Ht2) as [_ ->].
  rewrite Hj2, Hj1. destruct HInv2 as [-> _]. reflexivity.
Qed.

(** A request that starts 10 after the click and takes four minutes. *)
Lemma request_bounds_interaction_witness :
  RequestCollection.kind sampleRequestStart = RequestCollection.Start /\
  RequestCollection.kind sampleRequestEnd = RequestCollection.End /\
  RequestCollection.requestId sampleRequestEnd = RequestCollection.requestId sampleRequestStart /\
  (10 < 0 + UserActionCollection.BUSY_DELAY)%Z /\
  UserActionCollection.events
    (UserActionCollection.play
       [ (10%Z, LifeCycle.REQUEST_COLLECTED sampleRequestStart);
         (240010%Z, LifeCycle.REQUEST_COLLECTED sampleRequestEnd) ] 300000
       (UserActionCollection.newUserAction 0 sampleId (Host.fresh 1) None))
  = [ UserActionCollection.UserActionExtended sampleId 10 "request_start"
        (Some ["Url: https://x.test/a/b"]);
      UserActionCollection.UserActionExtended sampleId 240010 "request_end"
        (Some ["Url: https://x.test/a/b"]);
      UserActionCollection.UserActionEnded sampleId 240010 ].
Proof.
  assert (H : (10 < 0 + UserActionCollection.BUSY_DELAY)%Z) by (vm_compute; reflexivity).
  repeat (split; [first [reflexivity | exact H] |]).
  unfold UserActionCollection.events.
  rewrite (request_bounds_interaction 0 sampleId 1 None 10 240010 300000
             sampleRequestStart sampleRequestEnd eq_refl eq_refl eq_refl H).
  vm_compute. reflexivity.
Defined.

(** ** Durations *)

Module Durations.

Import LifeCycle UserActionCollection.

Lemma expire_journal now h s :
  journal (expire now h s) = journal s \/
  exists e, isTerminal e = true /\ journal (expire now h s) = journal s ++ [(now, e)].
Proof.
  unfold expire. destruct (Host.pending h (timers s)) as [t|]; [| now left].
  right. destruct (Host.callback t); eexists; (split; [| reflexivity]); reflexivity.
Qed.

Lemma step_since uuid from s i :
  Detector.Inv uuid s -> Invariants.since from (journal s) ->
  match i with Notify t _ => (from <= t)%Z | Expire _ _ => True end ->
  Invariants.since from (journal (step s i)).
Proof.
  intros HInv Hs Hi. destruct i as [t event | t h]; cbn.
  - unfold deliver.
    destruct (subscriptions s) eqn:Hsub; [| exact Hs].
    destruct (DetectorInvariant.handle_cases (pendingRequests s) event)
      as [(p & E) | (p & c & E)].
    + rewrite E. cbn. now destruct s.
    + destruct (Rearm.deliver_signal uuid t event s p c HInv Hsub E) as (_ & _ & _ & Hj & _).
      unfold deliver in Hj. rewrite Hsub in Hj. rewrite Hj.
      apply Forall_app. split; [exact Hs |]. repeat constructor. exact Hi.
  - destruct (expire_journal t h s) as [-> | (e & He & ->)]; [exact Hs |].
    apply Forall_app. split; [exact Hs |]. repeat constructor.
    destruct e; (discriminate || exact I).
Qed.

Lemma run_since uuid from inputs :
  forall s, Detector.Inv uuid s -> Invariants.since from (journal s) ->
            Invariants.notifiedSince from inputs ->
            Invariants.since from (journal (run s inputs)).
Proof.
  induction inputs as [|i inputs IH]; intros s HInv Hs Hin; [exact Hs |].
  inversion Hin as [|? ? Hi Hrest]; subst.
  apply IH; [now apply DetectorInvariant.step_Inv | | exact Hrest].
  now apply (step_since uuid).
Qed.

Lemma lastActivityTime_since from j T :
  Invariants.since from j -> lastActivityTime (map snd j) = Some T -> (from <= T)%Z.
Proof.
  unfold lastActivityTime. rewrite <- (rev_involutive j).
  induction (rev j) as [|[at_ e] l IH]; cbn; [discriminate |].
  rewrite map_app, fold_left_app. cbn. intros Hs. apply Forall_app in Hs.
  destruct Hs as [Hl He]. inversion He as [|? ? Ht _]; subst. cbn in Ht.
  destruct e; cbn; try (now apply IH).
  now intros [= <-].
Qed.

End Durations.

(** X20. When the clock of every life-cycle notification is at or after
    the time of the click, the duration of a completed report (the one named
    ["click"]) is never negative. *)
Theorem completed_duration_not_negative
    (getElementAsString : Element -> string)
    (now : Z) (target : option Element) (uuid : string) (n : nat)
    (current : option string) (inputs : list UserActionCollection.Input)
    (at_ : Z) (r : UserActionCollection.Report.UserAction) :
  let c := UserActionCollection.onClick getElementAsString now target uuid
             (Host.fresh n) current in
  Invariants.notifiedSince now inputs ->
  In (at_, r)
     (UserActionCollection.collected c
        (UserActionCollection.run (UserActionCollection.action c) inputs)) ->
  UserActionCollection.Report.name r = "click" ->
  exists d : Z, UserActionCollection.Report.duration r = Some d /\ (0 <= d)%Z.
Proof.
  intros c Hsince Hin Hname.
  unfold UserActionCollection.collected in Hin.
  apply in_map_iff in Hin. destruct Hin as ([at' e] & Heq & Hin).
  injection Heq as <- <-.
  destruct (Completion.click_report_is_ended _ _ _ _ Hname) as (i & time & ->).
  assert (HInv0 := DetectorInvariant.newUserAction_Inv now uuid n current).
  destruct (DetectorInvariant.run_Inv uuid inputs _ HInv0) as [_ Hphase].
  destruct (Completion.ended_anywhere uuid _ _ _ _ Hphase Hin) as [Hlast _].
  assert (Hs := Durations.run_since uuid now inputs _ HInv0 (List.Forall_nil _) Hsince).
  apply (Durations.lastActivityTime_since now _ time Hs) in Hlast.
  exists (time - now)%Z. split; [reflexivity | cbn; lia].
Qed.

(** The sample click at 0, a DOM mutation at 20 and the idle timer running
    at 125. *)
Lemma completed_duration_not_negative_witness :
  Invariants.notifiedSince 0 sampleCompletion /\
  In (125%Z, sampleClickReport)
     (UserActionCollection.collected
        (UserActionCollection.onClick sampleSerializer 0 (Some sampleButton) sampleId
           (Host.fresh 1) None)
        (UserActionCollection.run
           (UserActionCollection.action
              (UserActionCollection.onClick sampleSerializer 0 (Some sampleButton)
                 sampleId (Host.fresh 1) None))
           sampleCompletion)) /\
  UserActionCollection.Report.name sampleClickReport = "click" /\
  exists d : Z,
    UserActionCollection.Report.duration sampleClickReport = Some d /\ (0 <= d)%Z.
Proof.
  assert (H1 : Invariants.notifiedSince 0 sampleCompletion).
  { repeat constructor. vm_compute. discriminate. }
  assert (H2 : In (125%Z, sampleClickReport)
     (UserActionCollection.collected
        (UserActionCollection.onClick sampleSerializer 0 (Some sampleButton) sampleId
           (Host.fresh 1) None)
        (UserActionCollection.run
           (UserActionCollection.action
              (UserActionCollection.onClick sampleSerializer 0 (Some sampleButton)
                 sampleId (Host.fresh 1) None))
           sampleCompletion))) by (vm_compute; auto).
  split; [exact H1 |]. split; [exact H2 |]. split; [reflexivity |].
  exact (completed_duration_not_negative sampleSerializer 0 (Some sampleButton)
           sampleId 1 None sampleCompletion 125 sampleClickReport H1 H2 eq_refl).
Defined.

(** ** The version that resolves a promise, from click to report *)

Module RearmAsync.

Import LifeCycle UserActionCollectionAsync.

Lemma deliver_signal_async uuid current t event s p c :
  DetectorAsync.Inv uuid current s -> subscriptions s = Active ->
  trackPageChanges_handle (pendingRequests s) event = (p, [c]) ->
  let s' := deliver t event s in
  DetectorAsync.Inv uuid current s' /\ subscriptions s' = Active /\
  pendingRequests s' = p /\ resolutions s' = resolutions s /\
  Host.table (timers s')
  = (if isBusy c then []
     else [ {| Host.handle := Host.nextHandle (timers s);
               Host.due := (t + IDLE_DELAY)%Z;
               Host.callback := IdleTimeout t |} ]).
Proof.
  intros HInv Hsub E s'.
  assert (HInv' : DetectorAsync.Inv uuid current s')
    by apply DetectorAsyncInvariant.deliver_Inv_async, HInv.
  subst s'. unfold deliver in *. rewrite Hsub, E in *. cbn in *.
  destruct (SignalFactsAsync.onChange_effect_async uuid current t c p s HInv Hsub)
    as (Hp & Hs & Hr & Ht).
  auto.
Qed.

Lemma settle_open_async s h D T until :
  Host.table (timers s)
  = [ {| Host.handle := h; Host.due := D; Host.callback := IdleTimeout T |} ] ->
  ((until < D)%Z -> settle until s = s) /\
  resolutions (settle until s)
  = resolutions s ++ (if Z.leb D until then [(D, Some (id s, T))] else []).
Proof.
  intros Ht. destruct s as [i v idle p sub [tb nh] ua j]. cbn in *. subst tb.
  unfold settle. cbn.
  destruct (Z.leb_spec D until) as [Hle|Hlt].
  - split; [lia |].
    unfold expire, Host.pending, onIdleTimeout, clearTimeout, stop, resolve,
      setTimers, setUserActionId, Host.clearTimeout.
    cbn. rewrite ?Nat.eqb_refl. cbn. rewrite ?Nat.eqb_refl. reflexivity.
  - split; [reflexivity |]. cbn. now rewrite app_nil_r.
Qed.

Lemma play_mutations_async uuid current until times :
  forall s h T,
    DetectorAsync.Inv uuid current s -> subscriptions s = Active ->
    pendingRequests s = ∅ ->
    Host.table (timers s)
    = [ {| Host.handle := h; Host.due := (T + IDLE_DELAY)%Z;
           Host.callback := IdleTimeout T |} ] ->
    Sequences.closerThan IDLE_DELAY T times ->
    resolutions (play (Sequences.mutations times) until s)
    = resolutions s
      ++ (if Z.leb (Sequences.lastTime T times + IDLE_DELAY) until
          then [((Sequences.lastTime T times + IDLE_DELAY)%Z,
                 Some (uuid, Sequences.lastTime T times))]
          else []).
Proof.
  induction times as [|t rest IH]; intros s h T HInv Hsub Hp Ht Hclose.
  - cbn. destruct (settle_open_async s h _ T until Ht) as [_ ->].
    destruct HInv as [-> _]. reflexivity.
  - destruct Hclose as [Hlt Hclose].
    change (Sequences.mutations (t :: rest))
      with ((t, DOM_MUTATED) :: Sequences.mutations rest).
    cbn [play].
    destruct (settle_open_async s h _ T t Ht) as [Hsame _].
    rewrite (Hsame Hlt). clear Hsame.
    assert (E : trackPageChanges_handle (pendingRequests s) DOM_MUTATED
                = (pendingRequests s, [notifyChange (pendingRequests s)]))
      by reflexivity.
    destruct (deliver_signal_async uuid current t DOM_MUTATED s _ _ HInv Hsub E)
      as (HInv' & Hsub' & Hp' & Hr' & Ht').
    rewrite Hp in Ht'. cbn in Ht'. rewrite size_empty in Ht'. cbn in Ht'.
    rewrite Hp in Hp'.
    rewrite (IH _ _ t HInv' Hsub' Hp' Ht' Hclose). rewrite Hr'.
    unfold Sequences.lastTime. now rewrite Rearm.last_cons.
Qed.

Lemma settle_before_async now uuid n current t :
  (t < now + BUSY_DELAY)%Z ->
  settle t (newUserAction now uuid (Host.fresh n) current)
  = newUserAction now uuid (Host.fresh n) current.
Proof.
  intros H. unfold settle. cbn.
  destruct (Z.leb_spec (now + BUSY_DELAY) t); [lia | reflexivity].
Qed.

(** The interaction after its validation timer has run when it was due. *)
Lemma settle_after_async now uuid n current t :
  (now + BUSY_DELAY <= t)%Z ->
  settle t (newUserAction now uuid (Host.fresh n) current)
  = {| id := uuid; validationTimeoutId := n; idleTimeoutId := None;
       pendingRequests := ∅; subscriptions := Unsubscribed;
       timers := {| Host.table := []; Host.nextHandle := S n |};
       userActionId := current;
       resolutions := [((now + BUSY_DELAY)%Z, None)] |}.
Proof.
  intros H. unfold settle. cbn.
  destruct (Z.leb_spec (now + BUSY_DELAY) t); [| lia].
  unfold expire, Host.pending. cbn. rewrite Nat.eqb_refl.
  unfold onValidationTimeout, clearTimeout, stop, resolve, setTimers, Host.clearTimeout.
  cbn. rewrite Nat.eqb_refl. reflexivity.
Qed.

Lemma deliver_silent_async t event s :
  snd (trackPageChanges_handle (pendingRequests s) event) = [] ->
  deliver t event s = s.
Proof.
  intros H. unfold deliver. destruct (subscriptions s); [| reflexivity].
  destruct (trackPageChanges_handle (pendingRequests s) event) as [p cs] eqn:E.
  cbn in H. subst cs. apply SignalFactsAsync.handle_silent_async in E. subst p.
  cbn. now destruct s.
Qed.

Lemma play_closed_async events until s :
  subscriptions s = Unsubscribed -> Host.table (timers s) = [] ->
  play events until s = s.
Proof.
  intros Hs Ht. induction events as [|[t event] events IH]; cbn.
  - unfold settle. rewrite Ht. reflexivity.
  - unfold settle at 1. rewrite Ht. cbn. unfold deliver at 1. rewrite Hs. exact IH.
Qed.

Lemma play_without_activity_async now uuid n current events until :
  Forall (fun e => (fst e < now + BUSY_DELAY)%Z ->
                   snd (trackPageChanges_handle ∅ (snd e)) = []) events ->
  (now + BUSY_DELAY <= until)%Z ->
  play events until (newUserAction now uuid (Host.fresh n) current)
  = {| id := uuid; validationTimeoutId := n; idleTimeoutId := None;
       pendingRequests := ∅; subscriptions := Unsubscribed;
       timers := {| Host.table := []; Host.nextHandle := S n |};
       userActionId := current;
       resolutions := [((now + BUSY_DELAY)%Z, None)] |}.
Proof.
  intros Hquiet Huntil.
  induction Hquiet as [|[t event] events Hev _ IH]; cbn [play].
  - now apply settle_after_async.
  - destruct (Z.lt_ge_cases t (now + BUSY_DELAY)) as [Hlt|Hge].
    + rewrite settle_before_async by exact Hlt.
      rewrite deliver_silent_async; [exact IH |]. cbn. now apply Hev.
    + rewrite settle_after_async by exact Hge.
      cbn [deliver subscriptions]. now apply play_closed_async.
Qed.

End RearmAsync.

(** X21. In the version that resolves a promise, with timers run when they
    are due: when no activity signal arrives before the validation timer is
    due, the click is reported once, [BUSY_DELAY] after it, by a report
    named ["click ignored"] that has no duration and no id. *)
Theorem no_activity_click_ignored_async
    (now : Z) (content element : option string) (uuid : string) (n : nat)
    (current : option string)
    (events : list (Z * LifeCycle.LifeCycleEvent)) (until : Z) :
  Forall (fun e => (fst e < now + UserActionCollectionAsync.BUSY_DELAY)%Z ->
                   snd (UserActionCollectionAsync.trackPageChanges_handle ∅ (snd e)) = [])
         events ->
  (now + UserActionCollectionAsync.BUSY_DELAY <= until)%Z ->
  let s := UserActionCollectionAsync.play events until
             (UserActionCollectionAsync.newUserAction now uuid (Host.fresh n) current) in
  UserActionCollectionAsync.collected now content element s
  = [ ((now + UserActionCollectionAsync.BUSY_DELAY)%Z,
       {| UserActionCollectionAsync.Report.startTime := now;
          UserActionCollectionAsync.Report.context :=
            {| UserActionCollectionAsync.Report.content := content;
               UserActionCollectionAsync.Report.element := element |};
          UserActionCollectionAsync.Report.duration := None;
          UserActionCollectionAsync.Report.id := None;
          UserActionCollectionAsync.Report.name := "click ignored" |}) ].
Proof.
  intros Hquiet Huntil s. subst s.
  rewrite (RearmAsync.play_without_activity_async now uuid n current events until
             Hquiet Huntil).
  reflexivity.
Qed.

(** A request end nobody is waiting for, then a late DOM mutation. *)
Lemma no_activity_click_ignored_async_witness :
  Forall (fun e => (fst e < 0 + UserActionCollectionAsync.BUSY_DELAY)%Z ->
                   snd (UserActionCollectionAsync.trackPageChanges_handle ∅ (snd e)) = [])
         sampleQuietEventsAsync /\
  (0 + UserActionCollectionAsync.BUSY_DELAY <= 1000)%Z /\
  UserActionCollectionAsync.settledWith
    (UserActionCollectionAsync.play sampleQuietEventsAsync 1000
       (UserActionCollectionAsync.newUserAction 0 sampleId (Host.fresh 1) None))
  = Some (100%Z, None).
Proof.
  assert (Hquiet :
    Forall (fun e => (fst e < 0 + UserActionCollectionAsync.BUSY_DELAY)%Z ->
                     snd (UserActionCollectionAsync.trackPageChanges_handle ∅ (snd e)) = [])
           sampleQuietEventsAsync).
  { repeat constructor; intros H; vm_compute in H |- *; congruence. }
  assert (Huntil : (0 + UserActionCollectionAsync.BUSY_DELAY <= 1000)%Z)
    by (vm_compute; discriminate).
  split; [exact Hquiet |]. split; [exact Huntil |].
  pose proof (no_activity_click_ignored_async 0 None None sampleId 1 None
                sampleQuietEventsAsync 1000 Hquiet Huntil) as H. cbv zeta in H.
  unfold UserActionCollectionAsync.collected in H.
  destruct (UserActionCollectionAsync.settledWith _) as [[at_ v]|]; [| discriminate H].
  injection H as -> H. destruct v as [[i e]|]; [discriminate H | reflexivity].
Defined.

(** X22. In the version that resolves a promise, DOM mutations that follow
    one another by less than [IDLE_DELAY], the first less than [BUSY_DELAY]
    after the click, yield no report until [IDLE_DELAY] has passed since the
    last of them; then a single report named ["click"] is published, whose
    duration is the time of the last mutation minus the time of the
    click. *)
Theorem mutations_then_click_async
    (now : Z) (content element : option string) (uuid : string) (n : nat)
    (current : option string) (t : Z) (times : list Z) (until : Z) :
  (t < now + UserActionCollectionAsync.BUSY_DELAY)%Z ->
  Sequences.closerThan UserActionCollectionAsync.IDLE_DELAY t times ->
  let last := Sequences.lastTime t times in
  UserActionCollectionAsync.collected now content element
    (UserActionCollectionAsync.play (Sequences.mutations (t :: times)) until
       (UserActionCollectionAsync.newUserAction now uuid (Host.fresh n) current))
  = (if Z.leb (last + UserActionCollectionAsync.IDLE_DELAY) until
     then [ ((last + UserActionCollectionAsync.IDLE_DELAY)%Z,
             {| UserActionCollectionAsync.Report.startTime := now;
                UserActionCollectionAsync.Report.context :=
                  {| UserActionCollectionAsync.Report.content := content;
                     UserActionCollectionAsync.Report.element := element |};
                UserActionCollectionAsync.Report.duration := Some (last - now)%Z;
                UserActionCollectionAsync.Report.id := Some uuid;
                UserActionCollectionAsync.Report.name := "click" |}) ]
     else []).
Proof.
  intros Hfirst Hclose last.
  change (Sequences.mutations (t :: times))
    with ((t, LifeCycle.DOM_MUTATED) :: Sequences.mutations times).
  cbn [UserActionCollectionAsync.play].
  rewrite RearmAsync.settle_before_async by exact Hfirst.
  set (s0 := UserActionCollectionAsync.newUserAction now uuid (Host.fresh n) current).
  assert (HInv0 : DetectorAsync.Inv uuid current s0)
    by apply DetectorAsyncInvariant.newUserAction_Inv_async.
  assert (E : UserActionCollectionAsync.trackPageChanges_handle
                (UserActionCollectionAsync.pendingRequests s0) LifeCycle.DOM_MUTATED
              = (∅, [UserActionCollectionAsync.notifyChange ∅])) by reflexivity.
  destruct (RearmAsync.deliver_signal_async uuid current t _ s0 _ _ HInv0 eq_refl E)
    as (HInv1 & Hsub1 & Hp1 & Hr1 & Ht1).
  cbn in Ht1. rewrite size_empty in Ht1. cbn in Ht1.
  unfold UserActionCollectionAsync.collected, UserActionCollectionAsync.settledWith.
  rewrite (RearmAsync.play_mutations_async uuid current until times _ _ t
             HInv1 Hsub1 Hp1 Ht1 Hclose).
  rewrite Hr1. cbn. fold last.
  destruct (Z.leb (last + UserActionCollectionAsync.IDLE_DELAY) until); reflexivity.
Qed.

(** Mutations at 20, 90 and 150 after a click at 0. *)
Lemma mutations_then_click_async_witness :
  (20 < 0 + UserActionCollectionAsync.BUSY_DELAY)%Z /\
  Sequences.closerThan UserActionCollectionAsync.IDLE_DELAY 20 [90%Z; 150%Z] /\
  UserActionCollectionAsync.collected 0 (Some "Save") None
    (UserActionCollectionAsync.play (Sequences.mutations [20%Z; 90%Z; 150%Z]) 1000
       (UserActionCollectionAsync.newUserAction 0 sampleId (Host.fresh 1) None))
  = [ (250%Z,
       {| UserActionCollectionAsync.Report.startTime := 0;
          UserActionCollectionAsync.Report.context :=
            {| UserActionCollectionAsync.Report.content := Some "Save";
               UserActionCollectionAsync.Report.element := None |};
          UserActionCollectionAsync.Report.duration := Some 150%Z;
          UserActionCollectionAsync.Report.id := Some sampleId;
          UserActionCollectionAsync.Report.name := "click" |}) ].
Proof.
  assert (H1 : (20 < 0 + UserActionCollectionAsync.BUSY_DELAY)%Z)
    by (vm_compute; reflexivity).
  assert (H2 : Sequences.closerThan UserActionCollectionAsync.IDLE_DELAY 20 [90%Z; 150%Z])
    by (vm_compute; repeat split).
  split; [exact H1 |]. split; [exact H2 |].
  rewrite (mutations_then_click_async 0 (Some "Save") None sampleId 1 None 20
             [90%Z; 150%Z] 1000 H1 H2).
  vm_compute. reflexivity.
Defined.

(** ** The reports of a click *)

Module Reports.

Import LifeCycle UserActionCollection.

(** The report of an [Extended] event. *)
Lemma extended_report uuid startTime content element pre :
  Detector.allExtended uuid pre ->
  Forall (fun r => Report.name (snd r) = "click extended" /\
                   Report.duration (snd r) = Some 0%Z /\
                   Report.userActionId (snd r) = Some uuid)
         (map (fun '(at_, e) => (at_, report startTime content element e)) pre).
Proof.
  induction 1 as [|[at_ e] pre [He Hid] _ IH]; cbn; constructor; [| exact IH].
  destruct e; try discriminate He. cbn in Hid. subst. cbn. auto.
Qed.

End Reports.

(** Seen from one interaction, with every callback run to its end before
    the next: the reports of a click are any number of reports named
    ["click extended"], followed by at most one last report, named ["click"]
    or ["click ignored"]. *)
Lemma reports_shape_run
    (getElementAsString : Element -> string)
    (now : Z) (target : option Element) (uuid : string) (n : nat)
    (current : option string) (inputs : list UserActionCollection.Input) :
  let c := UserActionCollection.onClick getElementAsString now target uuid
             (Host.fresh n) current in
  exists extended final,
    UserActionCollection.collected c
      (UserActionCollection.run (UserActionCollection.action c) inputs)
    = extended ++ final /\
    Forall (fun r => UserActionCollection.Report.name (snd r) = "click extended" /\
                     UserActionCollection.Report.duration (snd r) = Some 0%Z /\
                     UserActionCollection.Report.userActionId (snd r) = Some uuid)
           extended /\
    (final = [] \/
     exists at_ r,
       final = [(at_, r)] /\
       (UserActionCollection.Report.name r = "click" \/
        UserActionCollection.Report.name r = "click ignored") /\
       UserActionCollection.Report.content (UserActionCollection.Report.context r)
       = UserActionCollection.clickContent c /\
       UserActionCollection.Report.element (UserActionCollection.Report.context r)
       = UserActionCollection.clickElement c).
Proof.
  intros c.
  destruct (DetectorInvariant.run_Inv uuid inputs _
              (DetectorInvariant.newUserAction_Inv now uuid n current)) as [_ Hphase].
  unfold UserActionCollection.collected.
  change (UserActionCollection.action c)
    with (UserActionCollection.newUserAction now uuid (Host.fresh n) current).
  destruct Hphase as [d _ _ Hj _ _ | pre T r dt _ Hj Hpre _
                      | at_ _ _ Hj _ | pre T r dt at_ _ _ Hj Hpre _]; rewrite Hj.
  - exists [], []. repeat split; auto.
  - eexists _, []. rewrite app_nil_r. split; [reflexivity |]. split; [| now left].
    apply (Reports.extended_report uuid).
    apply Forall_app. split; [exact Hpre |]. repeat constructor.
  - eexists [], _. split; [reflexivity |]. split; [constructor |].
    right. do 2 eexists. split; [reflexivity |]. cbn. auto.
  - exists (map (fun '(a, e) =>
                   (a, UserActionCollection.report (UserActionCollection.clickStartTime c)
                         (UserActionCollection.clickContent c)
                         (UserActionCollection.clickElement c) e))
                (pre ++ [(T, UserActionCollection.UserActionExtended uuid T r dt)])).
    eexists. split.
    + change (pre ++ [(T, UserActionCollection.UserActionExtended uuid T r dt);
                      (at_, UserActionCollection.UserActionEnded uuid T)])
        with (pre ++ [(T, UserActionCollection.UserActionExtended uuid T r dt)]
                  ++ [(at_, UserActionCollection.UserActionEnded uuid T)]).
      rewrite app_assoc, map_app. reflexivity.
    + split.
      * apply (Reports.extended_report uuid).
        apply Forall_app. split; [exact Hpre |]. repeat constructor.
      * right. do 2 eexists. split; [reflexivity |]. cbn. auto.
Qed.

(** ** A single click, with nothing published from inside a notification *)

Module Single.

Import LifeCycle.

Section Observable.

Import UserActionCollection.

Variable getElementAsString : Element -> string.
Variable consumer : Interactions.Consumer.

(** The page after one click and the events and timers [inputs], next to
    the run of [UserActionCollection] on the same inputs. *)
Lemma click_then now target uuid inputs :
  let c := onClick getElementAsString now target uuid (Host.fresh 1) None in
  let s := run (action c) inputs in
  let p := Interactions.run getElementAsString consumer 0 Interactions.freshPage
             (Interactions.Click now target uuid :: map Alone.task inputs) in
  exists i,
    Interactions.interactions p = [i] /\
    Interactions.journal i = journal s /\
    Interactions.pendingRequests i = pendingRequests s /\
    Interactions.subscriptions i = subscriptions s /\
    Alone.untag (Interactions.timers p) = timers s /\
    Interactions.startTime i = clickStartTime c /\
    Interactions.content i = clickContent c /\
    Interactions.element i = clickElement c.
Proof.
  intros c s p.
  set (p0 := Interactions.click getElementAsString now target uuid Interactions.freshPage).
  assert (Hwf0 : Wellformed.Wf p0).
  { apply PageInvariant.Good_click, PageInvariant.Wf_freshPage. }
  assert (Hv : Alone.view p = Some s).
  { unfold p. simpl. fold p0.
    apply (AloneFacts.view_run consumer getElementAsString inputs p0 _ Hwf0). reflexivity. }
  destruct (PageInvariant.Good_run getElementAsString consumer 0 (map Alone.task inputs)
              p0 Hwf0) as [_ [L _]].
  destruct (L 0 _ eq_refl) as (i & Hi & E1 & E2 & E3 & _).
  change (Interactions.run getElementAsString consumer 0 p0 (map Alone.task inputs))
    with p in Hi.
  unfold Alone.view in Hv.
  destruct (Interactions.interactions p) as [|i' [|]] eqn:Ep; try discriminate.
  simpl in Hi. injection Hi as ->. injection Hv as Hv.
  exists i. split; [reflexivity|]. rewrite <- Hv. simpl.
  repeat split; assumption.
Qed.

Lemma table_untag {C : Type} (t : Host.Timers (nat * C)) :
  Host.table (Alone.untag t) = [] -> Host.table t = [].
Proof. unfold Alone.untag. simpl. now destruct (Host.table t). Qed.

End Observable.

Section Async.

Import UserActionCollectionAsync.

Variable getElementAsString : Element -> string.

Lemma click_then_async now target uuid inputs :
  let s := run (newUserAction now uuid (Host.fresh 1) None) inputs in
  let q := InteractionsAsync.run getElementAsString InteractionsAsync.freshPage
             (InteractionsAsync.Click now target uuid :: map Alone.taskAsync inputs) in
  exists i,
    InteractionsAsync.interactions q = [i] /\
    InteractionsAsync.resolutions i = resolutions s /\
    InteractionsAsync.pendingRequests i = pendingRequests s /\
    InteractionsAsync.subscriptions i = subscriptions s /\
    Alone.untag (InteractionsAsync.timers q) = timers s.
Proof.
  intros s q.
  assert (Hv : Alone.viewAsync q = Some s).
  { unfold q. simpl.
    apply (AloneFacts.viewAsync_run getElementAsString inputs); [|reflexivity].
    apply AloneFacts.WfAsync_click. intros t []. }
  unfold Alone.viewAsync in Hv.
  destruct (InteractionsAsync.interactions q) as [|i [|]] eqn:Eq; try discriminate.
  injection Hv as Hv. exists i. split; [reflexivity|]. rewrite <- Hv. simpl.
  repeat split.
Qed.

End Async.

End Single.

(** X24. On a page with a single click, where nothing is published on the
    life cycle from inside a notification: whatever life-cycle events and
    timer expiries follow the click, in any order and at any time, the
    interaction notifies at most one terminal event (Aborted or Ended),
    nothing after it, and every event carries its id; once it has notified
    a terminal event it has unsubscribed and no timer is left. In the
    version that resolves a promise, [resolve] is called at most once. *)
Theorem single_click_one_terminal_event
    (getElementAsString : Element -> string) (consumer : Interactions.Consumer)
    (now : Z) (target : option Element) (uuid : string)
    (inputs : list UserActionCollection.Input)
    (inputs' : list UserActionCollectionAsync.Input) :
  let p := Interactions.run getElementAsString consumer 0 Interactions.freshPage
             (Interactions.Click now target uuid :: map Alone.task inputs) in
  let q := InteractionsAsync.run getElementAsString InteractionsAsync.freshPage
             (InteractionsAsync.Click now target uuid :: map Alone.taskAsync inputs') in
  length (List.filter UserActionCollection.isTerminal (Interactions.eventsOf 0 p)) <= 1 /\
  UserActionCollection.terminalIsLast (Interactions.eventsOf 0 p) = true /\
  Forall (fun e => UserActionCollection.eventId e = uuid) (Interactions.eventsOf 0 p) /\
  (List.filter UserActionCollection.isTerminal (Interactions.eventsOf 0 p) <> [] ->
   Host.table (Interactions.timers p) = [] /\
   exists i, Interactions.interactions p = [i] /\
             Interactions.subscriptions i = LifeCycle.Unsubscribed) /\
  (exists i', InteractionsAsync.interactions q = [i'] /\
              length (InteractionsAsync.resolutions i') <= 1).
Proof.
  intros p q.
  destruct (Single.click_then getElementAsString consumer now target uuid inputs)
    as (i & Hi & Hj & _ & Hs & Ht & _).
  fold p in Hi, Ht.
  destruct (one_terminal_event_run now uuid 1 None inputs inputs') as (H1 & H2 & H3 & H4).
  assert (He : Interactions.eventsOf 0 p
               = UserActionCollection.events
                   (UserActionCollection.run
                      (UserActionCollection.newUserAction now uuid (Host.fresh 1) None)
                      inputs)).
  { unfold Interactions.eventsOf, UserActionCollection.events. rewrite Hi. simpl.
    now rewrite Hj. }
  rewrite He. split; [exact H1|]. split; [exact H2|]. split; [exact H3|]. split.
  - intros Hterm.
    destruct (DetectorInvariant.run_Inv uuid inputs _
                (DetectorInvariant.newUserAction_Inv now uuid 1 None)) as [_ Hphase].
    assert (Hclosed :
      UserActionCollection.subscriptions
        (UserActionCollection.run
           (UserActionCollection.newUserAction now uuid (Host.fresh 1) None) inputs)
      = LifeCycle.Unsubscribed /\
      Host.table
        (UserActionCollection.timers
           (UserActionCollection.run
              (UserActionCollection.newUserAction now uuid (Host.fresh 1) None) inputs))
      = []).
    { unfold UserActionCollection.events in Hterm.
      destruct Hphase as [d _ _ Hj' _ _ | pre T r dt _ Hj' Hpre _
                          | at_ Hu Htb | pre T r dt at_ Hu Htb]; auto;
        exfalso; apply Hterm; rewrite Hj'; [reflexivity|].
      rewrite map_app. cbn [map snd]. now rewrite (Journal.terminals_extended uuid). }
    destruct Hclosed as [Hu Htb]. split.
    + apply Single.table_untag. rewrite Ht. exact Htb.
    + exists i. split; [exact Hi|]. rewrite Hs. exact Hu.
  - destruct (Single.click_then_async getElementAsString now target uuid inputs')
      as (i' & Hi' & Hr & _).
    exists i'. split; [exact Hi'|]. rewrite Hr. exact H4.
Qed.

(** X14. On a page with a single click, where nothing is published on the
    life cycle from inside a notification: while a request is pending the
    interaction has no timer armed, is still subscribed and has notified no
    terminal event, whatever events and timers have reached it; it stays
    open until another activity signal arrives. This holds for both
    versions. *)
Theorem pending_request_keeps_open
    (getElementAsString : Element -> string) (consumer : Interactions.Consumer)
    (now : Z) (target : option Element) (uuid : string)
    (inputs : list UserActionCollection.Input)
    (inputs' : list UserActionCollectionAsync.Input) :
  let p := Interactions.run getElementAsString consumer 0 Interactions.freshPage
             (Interactions.Click now target uuid :: map Alone.task inputs) in
  let q := InteractionsAsync.run getElementAsString InteractionsAsync.freshPage
             (InteractionsAsync.Click now target uuid :: map Alone.taskAsync inputs') in
  (exists i,
      Interactions.interactions p = [i] /\
      (Interactions.pendingRequests i <> ∅ ->
       Host.table (Interactions.timers p) = [] /\
       Interactions.subscriptions i = LifeCycle.Active /\
       List.filter UserActionCollection.isTerminal (Interactions.eventsOf 0 p) = [])) /\
  (exists i',
      InteractionsAsync.interactions q = [i'] /\
      (InteractionsAsync.pendingRequests i' <> ∅ ->
       Host.table (InteractionsAsync.timers q) = [] /\
       InteractionsAsync.subscriptions i' = LifeCycle.Active /\
       InteractionsAsync.resolutions i' = [])).
Proof.
  intros p q.
  destruct (pending_keeps_open_run now uuid 1 None inputs inputs') as [HA HB].
  split.
  - destruct (Single.click_then getElementAsString consumer now target uuid inputs)
      as (i & Hi & Hj & Hp & Hs & Ht & _).
    fold p in Hi, Ht. exists i. split; [exact Hi|]. intros Hpending.
    rewrite Hp in Hpending. destruct (HA Hpending) as (H1 & H2 & H3).
    split; [apply Single.table_untag; rewrite Ht; exact H1|].
    split; [rewrite Hs; exact H2|].
    unfold Interactions.eventsOf. rewrite Hi. simpl. rewrite Hj. exact H3.
  - destruct (Single.click_then_async getElementAsString now target uuid inputs')
      as (i' & Hi' & Hr & Hp & Hs & Ht).
    fold q in Hi', Ht. exists i'. split; [exact Hi'|]. intros Hpending.
    rewrite Hp in Hpending. destruct (HB Hpending) as (H1 & H2 & H3).
    split; [apply Single.table_untag; rewrite Ht; exact H1|].
    split; [rewrite Hs; exact H2|]. rewrite Hr. exact H3.
Qed.

(** X16. On a page with a single click, where nothing is published on the
    life cycle from inside a notification: an [Aborted] event is the only
    event of its interaction, so an interaction that has received an
    activity signal is never reported as ignored; the event carries the id
    of the interaction and the time it was published. *)
Theorem aborted_is_alone
    (getElementAsString : Element -> string) (consumer : Interactions.Consumer)
    (now : Z) (target : option Element) (uuid : string)
    (inputs : list UserActionCollection.Input) (at_ : Z) (i : string) (t : Z)
    (a : Interactions.Interaction) :
  let p := Interactions.run getElementAsString consumer 0 Interactions.freshPage
             (Interactions.Click now target uuid :: map Alone.task inputs) in
  Interactions.interactions p !! 0 = Some a ->
  In (at_, UserActionCollection.UserActionAborted i t) (Interactions.journal a) ->
  Interactions.journal a = [(at_, UserActionCollection.UserActionAborted uuid at_)] /\
  i = uuid /\ t = at_.
Proof.
  intros p Ha Hin.
  destruct (Single.click_then getElementAsString consumer now target uuid inputs)
    as (i0 & Hi & Hj & _).
  fold p in Hi. rewrite Hi in Ha. injection Ha as <-.
  rewrite Hj in Hin |- *.
  exact (aborted_alone_run now uuid 1 None inputs at_ i t Hin).
Qed.

(** The validation timer of the sample click runs late, at 104, after an
    event that is no activity signal; a DOM mutation follows at 150. *)
Lemma aborted_is_alone_witness :
  let p := Interactions.run sampleSerializer Interactions.silent 0 Interactions.freshPage
             (Interactions.Click 0 (Some sampleButton) sampleId
              :: map Alone.task sampleLateExpiry) in
  exists a,
    Interactions.interactions p !! 0 = Some a /\
    In (104%Z, UserActionCollection.UserActionAborted sampleId 104)
       (Interactions.journal a) /\
    Interactions.journal a = [(104%Z, UserActionCollection.UserActionAborted sampleId 104)].
Proof.
  cbv zeta.
  destruct (Interactions.interactions
              (Interactions.run sampleSerializer Interactions.silent 0
                 Interactions.freshPage
                 (Interactions.Click 0 (Some sampleButton) sampleId
                  :: map Alone.task sampleLateExpiry)) !! 0) as [a|] eqn:Ea;
    [|vm_compute in Ea; discriminate Ea].
  assert (Hin : In (104%Z, UserActionCollection.UserActionAborted sampleId 104)
                   (Interactions.journal a)).
  { vm_compute in Ea. injection Ea as <-. simpl. now left. }
  exists a. split; [reflexivity|]. split; [exact Hin|].
  apply (aborted_is_alone sampleSerializer Interactions.silent 0 (Some sampleButton)
           sampleId sampleLateExpiry 104 sampleId 104 a Ea Hin).
Defined.

(** X23. On a page with a single click, where nothing is published on the
    life cycle from inside a notification: the reports of the click are any
    number of reports named ["click extended"] (each with duration 0 and
    the id of the interaction), followed by at most one last report, named
    ["click"] or ["click ignored"], that carries the content and the
    element computed at the click. *)
Theorem click_reports_shape
    (getElementAsString : Element -> string) (consumer : Interactions.Consumer)
    (now : Z) (target : option Element) (uuid : string)
    (inputs : list UserActionCollection.Input) :
  let c := UserActionCollection.onClick getElementAsString now target uuid
             (Host.fresh 1) None in
  let p := Interactions.run getElementAsString consumer 0 Interactions.freshPage
             (Interactions.Click now target uuid :: map Alone.task inputs) in
  exists extended final,
    Interactions.collectedOf 0 p = extended ++ final /\
    Forall (fun r => UserActionCollection.Report.name (snd r) = "click extended" /\
                     UserActionCollection.Report.duration (snd r) = Some 0%Z /\
                     UserActionCollection.Report.userActionId (snd r) = Some uuid)
           extended /\
    (final = [] \/
     exists at_ r,
       final = [(at_, r)] /\
       (UserActionCollection.Report.name r = "click" \/
        UserActionCollection.Report.name r = "click ignored") /\
       UserActionCollection.Report.content (UserActionCollection.Report.context r)
       = UserActionCollection.clickContent c /\
       UserActionCollection.Report.element (UserActionCollection.Report.context r)
       = UserActionCollection.clickElement c).
Proof.
  intros c p.
  destruct (Single.click_then getElementAsString consumer now target uuid inputs)
    as (i & Hi & Hj & _ & _ & _ & E1 & E2 & E3).
  fold p in Hi. fold c in E1, E2, E3.
  assert (Hc : Interactions.collectedOf 0 p
               = UserActionCollection.collected c
                   (UserActionCollection.run (UserActionCollection.action c) inputs)).
  { unfold Interactions.collectedOf, UserActionCollection.collected.
    rewrite Hi. simpl. rewrite Hj, E1, E2, E3. apply map_ext. now intros [at_ e]. }
  rewrite Hc. exact (reports_shape_run getElementAsString now target uuid 1 None inputs).
Qed.

(** X15. An interaction that has unsubscribed and has no timer in the table
    is inert: whatever the page does afterwards (clicks, life-cycle events,
    timers, subscribers that publish from inside a notification), its
    variables and its journal stay as they are, it gets no timer, and it
    publishes no further report. *)
Theorem closed_interaction_inert
    (getElementAsString : Element -> string) (consumer : Interactions.Consumer)
    (depth k : nat) (i : Interactions.Interaction) (p : Interactions.Page)
    (tasks : list Interactions.Task) :
  Interactions.interactions p !! k = Some i ->
  Interactions.subscriptions i = LifeCycle.Unsubscribed ->
  Interactions.timerPending k p = false ->
  let p' := Interactions.run getElementAsString consumer depth p tasks in
  Interactions.interactions p' !! k = Some i /\
  Interactions.timerPending k p' = false /\
  Interactions.collectedOf k p' = Interactions.collectedOf k p.
Proof.
  intros Hk Hs Ht p'.
  destruct (PageFrame.Keeps_run getElementAsString consumer depth k i tasks p
              (conj Hk (conj Hs Ht))) as (Hk' & _ & Ht').
  split; [exact Hk'|]. split; [exact Ht'|].
  unfold Interactions.collectedOf, p'. now rewrite Hk', Hk.
Qed.

(** The sample click is aborted at 100 under a subscriber that sends its
    reports at once; a second click, a DOM mutation and the timers of the
    second click follow. *)
Lemma closed_interaction_inert_witness :
  let p := Interactions.run sampleSerializer sampleSender 1 Interactions.freshPage
             [ Interactions.Click 0 (Some sampleButton) sampleId;
               Interactions.Expire 100 1 ] in
  let later := [ Interactions.Click 110 (Some sampleBlankButton) sampleOtherId;
                 Interactions.Notify 120 LifeCycle.DOM_MUTATED;
                 Interactions.Expire 220 3;
                 Interactions.Notify 230 LifeCycle.DOM_MUTATED ] in
  exists i,
    Interactions.interactions p !! 0 = Some i /\
    Interactions.subscriptions i = LifeCycle.Unsubscribed /\
    Interactions.timerPending 0 p = false /\
    map (fun r => UserActionCollection.Report.name (snd r))
        (Interactions.collectedOf 0
           (Interactions.run sampleSerializer sampleSender 1 p later))
    = ["click ignored"; "click extended"].
Proof.
  cbv zeta.
  destruct (Interactions.interactions
              (Interactions.run sampleSerializer sampleSender 1 Interactions.freshPage
                 [ Interactions.Click 0 (Some sampleButton) sampleId;
                   Interactions.Expire 100 1 ]) !! 0) as [i|] eqn:Ei;
    [|vm_compute in Ei; discriminate Ei].
  assert (Hs : Interactions.subscriptions i = LifeCycle.Unsubscribed).
  { vm_compute in Ei. now injection Ei as <-. }
  assert (Ht : Interactions.timerPending 0
                 (Interactions.run sampleSerializer sampleSender 1 Interactions.freshPage
                    [ Interactions.Click 0 (Some sampleButton) sampleId;
                      Interactions.Expire 100 1 ]) = false)
    by (vm_compute; reflexivity).
  exists i. split; [reflexivity|]. split; [exact Hs|]. split; [exact Ht|].
  destruct (closed_interaction_inert sampleSerializer sampleSender 1 0 i _
              [ Interactions.Click 110 (Some sampleBlankButton) sampleOtherId;
                Interactions.Notify 120 LifeCycle.DOM_MUTATED;
                Interactions.Expire 220 3;
                Interactions.Notify 230 LifeCycle.DOM_MUTATED ] Ei Hs Ht)
    as (_ & _ & ->).
  vm_compute. reflexivity.
Defined.
